(** * pyinstailor: a shallow embedding of [pyinstailor.py]

    The tool patches a PyInstaller bundle: it extracts the appended
    CArchive, optionally rewrites the nested PYZ archive, rebuilds the
    package and splices it back behind the bootloader.

    The embedding follows the Python source function by function and
    keeps its names.  Python values that the source manipulates are
    modelled as follows.

    - [bytes] objects are lists of [Byte.byte]; [str] objects are
      [string]; Python integers are [Z].
    - The file system is a finite map from path strings to file
      contents.  Directories are not represented: [makedirs] has no
      counterpart, and two paths denote the same file exactly when they
      are the same string.
    - A raised exception is the [Raise] case of the [result] type; a
      Python function that falls off its end returns [PyNone].
    - The shared patch dictionary [items] is threaded through the calls
      that mutate it ([dict.pop] in [repack_pyz]).
    - Calls to the [logging] module do not influence the data flow and
      are left out, except for [logger.error] in [excepthook] and the
      lines written by [print_archive_items].
    - PyInstaller, zlib, marshal and the [compile] builtin are not part
      of the repository; they are the fields of the class [PyInstaller].
      Two facts about the base class of the writer are written out
      where [add] uses them: the data blocks start at offset 0, and the
      table stores the name of an entry as [os.path.normpath] gives it.
    - A file opened in binary mode is read with [File.read], which
      refuses a size below -1 as a buffered file does; a file opened in
      text mode is read through the field [read_text].
    - [os.sep] is "/" and [os.pathsep] is ":" (POSIX). *)

From Stdlib Require Import ZArith List String Ascii Bool Lia.
From Stdlib.Strings Require Import Byte.
From stdpp Require Import base option list gmap strings.

Open Scope string_scope.
Open Scope list_scope.
Open Scope Z_scope.

(** ** Python values, exceptions and results *)

(** The values that occur as arguments of an exception.  [VType] is a
    class whose metaclass is [type].  [VChecker] is an object whose type
    defines [__instancecheck__], such as the abstract base class
    [collections.abc.Callable] or, from Python 3.10, a union type; it
    carries what that method answers for the class [str], [None] when it
    raises [TypeError]. *)
#[local] Set Warnings "-register-all".
Inductive pyval : Type :=
| VNone
| VInt (z : Z)
| VStr (s : string)
| VType (name : string)
| VTuple (items : list pyval)
| VChecker (answer : option bool).

Record exn : Type := Exn { exn_type : string; exn_args : list pyval }.

Inductive result (A : Type) : Type :=
| Ok (a : A)
| Raise (e : exn).
Arguments Ok {A} a.
Arguments Raise {A} e.

Definition bind {A B : Type} (r : result A) (k : A -> result B) : result B :=
  match r with
  | Ok a => k a
  | Raise e => Raise e
  end.

#[global] Instance result_bind : MBind result := fun A B k r => bind r k.
#[global] Instance result_ret : MRet result := @Ok.

Abbreviation bytes := (list byte).

Definition IndexError : exn := Exn "IndexError" [VStr "list index out of range"].
Definition AttributeError_keys : exn :=
  Exn "AttributeError" [VStr "'NoneType' object has no attribute 'keys'"].
Definition FileNotFoundError (path : string) : exn :=
  Exn "FileNotFoundError" [VInt 2; VStr "No such file or directory"].
Definition OSError_EINVAL : exn := Exn "OSError" [VInt 22; VStr "Invalid argument"].
Definition struct_error : exn := Exn "struct.error" [VStr "unpack requires a buffer of 88 bytes"].
Definition TypeError_isinstance : exn :=
  Exn "TypeError" [VStr "isinstance() arg 2 must be a type or tuple of types"].
Definition ValueError_read : exn :=
  Exn "ValueError" [VStr "read length must be non-negative or -1"].

(** ** The [str] methods used by the source *)

Module Str.

Definition len (s : string) : Z := Z.of_nat (String.length s).

(** [s.find(c)] for a one-character [c]: first index, or -1. *)
Fixpoint find_from (c : ascii) (s : string) (i : Z) : Z :=
  match s with
  | EmptyString => -1
  | String a r => if Ascii.eqb a c then i else find_from c r (i + 1)
  end.
Definition find (c : ascii) (s : string) : Z := find_from c s 0.

(** [s.split(c)] for a one-character separator: empty fields are kept. *)
Fixpoint split (c : ascii) (s : string) : list string :=
  match s with
  | EmptyString => [EmptyString]
  | String a r =>
      if Ascii.eqb a c then EmptyString :: split c r
      else match split c r with
           | h :: t => String a h :: t
           | [] => [String a EmptyString]
           end
  end.

(** [s.split(c, 1)]: at most one cut, at the first separator. *)
Fixpoint split1 (c : ascii) (s : string) : list string :=
  match s with
  | EmptyString => [EmptyString]
  | String a r =>
      if Ascii.eqb a c then [EmptyString; r]
      else match split1 c r with
           | h :: t => String a h :: t
           | [] => [String a EmptyString]
           end
  end.

Fixpoint join (sep : string) (l : list string) : string :=
  match l with
  | [] => EmptyString
  | [x] => x
  | x :: r => x +:+ sep +:+ join sep r
  end.

Definition startswith (p s : string) : bool := String.prefix p s.

Definition endswith (suffix s : string) : bool :=
  let n := String.length suffix in
  let m := String.length s in
  (n <=? m)%nat && String.eqb (String.substring (m - n) n s) suffix.

(** [s[:-n]] for [n > 0]. *)
Definition drop_last (n : nat) (s : string) : string :=
  String.substring 0 (String.length s - n) s.

Fixpoint lstrip (c : ascii) (s : string) : string :=
  match s with
  | EmptyString => EmptyString
  | String a r => if Ascii.eqb a c then lstrip c r else s
  end.

Definition rev (s : string) : string :=
  string_of_list_ascii (List.rev (list_ascii_of_string s)).

Definition rstrip (c : ascii) (s : string) : string := rev (lstrip c (rev s)).

(** [s.strip(c)] for a one-character set. *)
Definition strip (c : ascii) (s : string) : string := rstrip c (lstrip c s).

(** Iterating over a [str] yields its characters, each a [str] of
    length one. *)
Fixpoint iter (s : string) : list string :=
  match s with
  | EmptyString => []
  | String a r => String a EmptyString :: iter r
  end.

End Str.

(** ** List indexing and slicing with Python's negative indices *)

Module PyList.

(** [l[i]]: negative [i] counts from the end; out of range raises. *)
Definition index {A : Type} (l : list A) (i : Z) : result A :=
  let n := Z.of_nat (length l) in
  let j := if i <? 0 then i + n else i in
  if (j <? 0) || (n <=? j) then Raise IndexError
  else match nth_error l (Z.to_nat j) with
       | Some x => Ok x
       | None => Raise IndexError
       end.

(** [l[i:]]: the start is clamped into the list, nothing raises. *)
Definition slice_from {A : Type} (l : list A) (i : Z) : list A :=
  let n := Z.of_nat (length l) in
  let j := if i <? 0 then Z.max 0 (i + n) else Z.min i n in
  skipn (Z.to_nat j) l.

End PyList.

(** ** [os.path] on POSIX *)

Module Path.

Definition sep : ascii := "/"%char.
Definition pathsep : ascii := ":"%char.

(** One round of the loop of [posixpath.normpath]. *)
Definition normpath_step (initial_slashes : nat) (new_comps : list string)
    (comp : string) : list string :=
  if String.eqb comp "" || String.eqb comp "." then new_comps
  else if negb (String.eqb comp "..")
          || ((initial_slashes =? 0)%nat && (length new_comps =? 0)%nat)
          || match last new_comps with
             | Some c => String.eqb c ".."
             | None => false
             end
  then new_comps ++ [comp]
  else removelast new_comps.

Fixpoint slashes (n : nat) : string :=
  match n with
  | O => EmptyString
  | S k => String sep (slashes k)
  end.

Definition normpath (path : string) : string :=
  if String.eqb path "" then "."
  else
    let initial_slashes :=
      if Str.startswith "/" path then
        if Str.startswith "//" path && negb (Str.startswith "///" path)
        then 2%nat else 1%nat
      else 0%nat in
    let comps := Str.split sep path in
    let new_comps := fold_left (normpath_step initial_slashes) comps [] in
    let p := slashes initial_slashes +:+ Str.join "/" new_comps in
    if String.eqb p "" then "." else p.

(** [os.path.join(a, b)] for two components. *)
Definition join (a b : string) : string :=
  if Str.startswith "/" b then b
  else if String.eqb a "" || Str.endswith "/" a then a +:+ b
  else a +:+ "/" +:+ b.

Definition basename (p : string) : string :=
  match last (Str.split sep p) with
  | Some b => b
  | None => p
  end.

(** Index of the last dot of [s] that has a character other than a
    dot somewhere before it, as [posixpath.splitext] looks for it. *)
Fixpoint ext_index (s : string) (i : nat) (seen_other : bool) : option nat :=
  match s with
  | EmptyString => None
  | String a r =>
      let here := if Ascii.eqb a "."%char && seen_other then Some i else None in
      match ext_index r (S i) (seen_other || negb (Ascii.eqb a "."%char)) with
      | Some j => Some j
      | None => here
      end
  end.

(** [os.path.splitext] of a name without separators. *)
Definition splitext (name : string) : string * string :=
  match ext_index name 0 false with
  | Some i => (String.substring 0 i name,
               String.substring i (String.length name - i) name)
  | None => (name, EmptyString)
  end.

End Path.

(** ** [struct.unpack] of the CArchive cookie *)

Module Struct.

Definition byte_val (b : byte) : Z := Z.of_N (Byte.to_N b).

(** Big-endian unsigned value of a byte string. *)
Definition be_unsigned (bs : bytes) : Z :=
  fold_left (fun acc b => acc * 256 + byte_val b) bs 0.

(** The format character [i] under [!]: four bytes, big-endian,
    two's complement. *)
Definition be_int32 (bs : bytes) : Z :=
  let u := be_unsigned bs in
  if 2147483648 <=? u then u - 4294967296 else u.

Record cookie : Type := Cookie {
  magic : bytes;
  lengthofPackage : Z;
  toc : Z;
  tocLen : Z;
  pyver : Z;
  pylibname : bytes
}.

(** [struct.unpack('!8siiii64s', buf)]: the buffer must hold exactly
    88 bytes. *)
Definition unpack_cookie (buf : bytes) : result cookie :=
  if (length buf =? 88)%nat then
    Ok {| magic := firstn 8 buf;
          lengthofPackage := be_int32 (firstn 4 (skipn 8 buf));
          toc := be_int32 (firstn 4 (skipn 12 buf));
          tocLen := be_int32 (firstn 4 (skipn 16 buf));
          pyver := be_int32 (firstn 4 (skipn 20 buf));
          pylibname := firstn 64 (skipn 24 buf) |}
  else Raise struct_error.

End Struct.

(** ** Files *)

Module File.

(** An open binary file: its contents and the position of the
    cursor. *)
Record handle : Type := Handle { content : bytes; pos : nat }.

(** [f.seek(offset, os.SEEK_SET)]: a negative offset is refused, an
    offset past the end is accepted. *)
Definition seek (h : handle) (offset : Z) : result handle :=
  if offset <? 0 then Raise OSError_EINVAL
  else Ok {| content := content h; pos := Z.to_nat offset |}.

(** What [f.read(n)] returns for a size it accepts: at most [n]
    bytes from the cursor, and all of them for [n = -1]. *)
Definition chunk (h : handle) (n : Z) : bytes * handle :=
  let rest := skipn (pos h) (content h) in
  let got := if n <? 0 then rest else firstn (Z.to_nat n) rest in
  (got, {| content := content h; pos := (pos h + length got)%nat |}).

(** [f.read(n)] on a buffered binary file: a size below -1 is
    refused with [ValueError]. *)
Definition read (h : handle) (n : Z) : result (bytes * handle) :=
  if n <? -1 then Raise ValueError_read else Ok (chunk h n).

(** [f.write(data)] on a file opened for update: bytes under the
    cursor are overwritten, a gap between the end of the file and the
    cursor is filled with zero bytes; writing nothing changes nothing. *)
Definition write (h : handle) (data : bytes) : handle :=
  match data with
  | [] => h
  | _ =>
      let c := content h in
      let gap := List.repeat x00 (pos h - length c) in
      {| content := firstn (pos h) c ++ gap ++ data ++ skipn (pos h + length data) c;
         pos := (pos h + length data)%nat |}
  end.

(** [f.truncate()]: the file ends at the cursor. *)
Definition truncate (h : handle) : handle :=
  let c := content h in
  {| content := firstn (pos h) c ++ List.repeat x00 (pos h - length c);
     pos := pos h |}.

(** The loop of [shutil.copyfileobj(fsrc, fdst, length)]: read a
    chunk, stop when it is empty, else write it.  [fuel] bounds the
    number of rounds: [None] when it runs out. *)
Fixpoint copy_rounds (fuel : nat) (fsrc fdst : handle) (length : Z)
    : option (result (handle * handle)) :=
  match fuel with
  | O => None
  | S k =>
      match read fsrc length with
      | Raise e => Some (Raise e)
      | Ok (buf, fsrc') =>
          match buf with
          | [] => Some (Ok (fsrc', fdst))
          | _ => copy_rounds k fsrc' (write fdst buf) length
          end
      end
  end.

(** Every round with a non-empty chunk moves the source cursor, so
    one round more than the source has bytes is enough. *)
Definition copyfileobj (fsrc fdst : handle) (length : Z)
    : option (result (handle * handle)) :=
  copy_rounds (S (List.length (content fsrc))) fsrc fdst length.

End File.

(** The file system: [open(path, 'rb').read()], and writing a whole
    file with [open(path, 'wb')]. *)
Abbreviation FS := (gmap string bytes).

Definition read_file (fs : FS) (path : string) : result bytes :=
  match fs !! path with
  | Some data => Ok data
  | None => Raise (FileNotFoundError path)
  end.

Definition write_file (fs : FS) (path : string) (data : bytes) : FS :=
  <[path := data]> fs.

(** ** The patch resolver *)

(** What a Python function hands back to its caller. *)
Inductive pyret : Type :=
| PyNone
| PyDict (d : gmap string string).

Definition ValueError_unpack : exn :=
  Exn "ValueError" [VStr "not enough values to unpack (expected 2, got 1)"].

(** [if name.endswith(suffix): name = name[:-len(suffix)].strip('.')] *)
Definition drop_suffix (name suffix : string) : string :=
  if Str.endswith suffix name
  then Str.strip "."%char (Str.drop_last (String.length suffix) name)
  else name.

(** The body of the loop of [build_updated_items]: the pair
    [(name, pathnm)] stored by [items[name] = pathnm]. *)
Definition updated_item (strip : option Z) (filename : string)
    : result (string * string) :=
  if 0 <? Str.find Path.pathsep filename then
    match Str.split1 Path.pathsep filename with
    | [name; _] => Ok (name, Path.normpath filename)
    | _ => Raise ValueError_unpack
    end
  else
    let pathnm := Path.normpath filename in
    let namelist := Str.split Path.sep pathnm in
    name ← match strip with
            | None =>
                PyList.index namelist
                  (if Str.endswith "__init__.py" pathnm then -2 else -1)
            | Some n => Ok (Str.join "." (PyList.slice_from namelist n))
            end;
    Ok (fold_left drop_suffix [".py"; "__init__.py"] name, pathnm).

(** The dictionary [items] after the loop over [files]. *)
Fixpoint updated_items_loop (strip : option Z) (files : list string)
    (items : gmap string string) : result (gmap string string) :=
  match files with
  | [] => Ok items
  | filename :: rest =>
      '(name, pathnm) ← updated_item strip filename;
      updated_items_loop strip rest (<[name := pathnm]> items)
  end.

(** [build_updated_items(files, strip)]: the function builds [items]
    and ends without a [return] statement. *)
Definition build_updated_items (files : list string) (strip : option Z)
    : result pyret :=
  _ ← updated_items_loop strip files ∅;
  Ok PyNone.

(** ** The command line *)

Record Namespace : Type := {
  debug : bool;
  strip : Z;
  executable : string;
  files : option string
}.

(** The outcome of [parser.parse_args]: a namespace, or the parser
    leaving the process through [SystemExit], or a command line that
    this model of [argparse] does not cover. *)
Inductive parse_result : Type :=
| Parsed (args : Namespace)
| ParserExit (status : Z)
| Unmodelled.

Module Argparse.

Definition digit (a : ascii) : option Z :=
  let n := Z.of_nat (nat_of_ascii a) in
  if (48 <=? n) && (n <=? 57) then Some (n - 48) else None.

Fixpoint digits (s : string) (acc : Z) : option Z :=
  match s with
  | EmptyString => Some acc
  | String a r =>
      match digit a with
      | Some d => digits r (acc * 10 + d)
      | None => None
      end
  end.

(** [int(s)] for a decimal literal with an optional sign. *)
Definition int (s : string) : option Z :=
  match s with
  | EmptyString => None
  | String "-" (String _ _ as r) => Z.opp <$> digits r 0
  | String "+" (String _ _ as r) => digits r 0
  | _ => digits s 0
  end.

Definition is_flag (s : string) : bool := Str.startswith "-" s.

(** The positionals: [executable], then [files] with [nargs='?']. *)
Definition positionals (debug : bool) (strip : Z) (argv : list string)
    : parse_result :=
  if existsb is_flag argv then Unmodelled
  else match argv with
       | [] => ParserExit 2
       | [exe] => Parsed {| debug := debug; strip := strip;
                            executable := exe; files := None |}
       | [exe; f] => Parsed {| debug := debug; strip := strip;
                               executable := exe; files := Some f |}
       | _ :: _ :: _ :: _ => ParserExit 2
       end.

(** Options are read from the left as long as the next token is one
    of the declared option strings; the rest are positionals. *)
Fixpoint options (debug : bool) (strip : Z) (argv : list string)
    : parse_result :=
  match argv with
  | [] => positionals debug strip []
  | tok :: rest =>
      if String.eqb tok "-h" || String.eqb tok "--help" then ParserExit 0
      else if String.eqb tok "-d" || String.eqb tok "--debug"
      then options true strip rest
      else if String.eqb tok "-s" || String.eqb tok "--strip" then
        match rest with
        | [] => ParserExit 2
        | v :: rest' =>
            match int v with
            | Some n => options debug n rest'
            | None => Unmodelled
            end
        end
      else positionals debug strip argv
  end.

(** [parser.parse_args(argv)] with the defaults of the four
    [add_argument] calls of [main]. *)
Definition parse_args (argv : list string) : parse_result :=
  options false 0 argv.

End Argparse.

(** ** The exception hook *)

(** One call of [logger.error]: either with the unpacked [value.args]
    as its arguments, or [logger.error('%s', value)]. *)
Inductive log_record : Type :=
| ErrorArgs (args : list pyval)
| ErrorValue (value : exn).

(** [isinstance(str, classinfo)].  For a class whose metaclass is
    [type], the class [str] is an instance of [type] and of [object]
    only.  A tuple is searched from the left and the search ends at the
    first member that answers [True] or raises.  An object whose type
    defines [__instancecheck__] answers for itself.  A string, an
    integer and [None] are neither, and raise [TypeError]. *)
Fixpoint isinstance_str (classinfo : pyval) : result bool :=
  match classinfo with
  | VType name => Ok (String.eqb name "type" || String.eqb name "object")
  | VTuple l =>
      (fix any (l : list pyval) : result bool :=
         match l with
         | [] => Ok false
         | c :: r =>
             match isinstance_str c with
             | Ok true => Ok true
             | Ok false => any r
             | Raise e => Raise e
             end
         end) l
  | VChecker (Some answer) => Ok answer
  | VChecker None => Raise TypeError_isinstance
  | VNone => Raise TypeError_isinstance
  | VInt _ => Raise TypeError_isinstance
  | VStr _ => Raise TypeError_isinstance
  end.

(** How a call of the hook ends: [sys.exit(status)] after the listed
    [logger.error] calls, or an exception of its own. *)
Inductive hook_result : Type :=
| HookExit (status : Z) (logged : list log_record)
| HookRaise (e : exn).

(** [excepthook(type, value, traceback)].  Every exception instance has
    an [args] attribute, so [hasattr(value, 'args')] is true. *)
Definition excepthook (value : exn) : hook_result :=
  match PyList.index (exn_args value) 0 with
  | Raise e => HookRaise e
  | Ok a0 =>
      match isinstance_str a0 with
      | Raise e => HookRaise e
      | Ok true => HookExit 1 [ErrorArgs (exn_args value)]
      | Ok false => HookExit 1 [ErrorValue value]
      end
  end.

(** ** The archives *)

#[global] Instance byte_eq_dec : EqDecision byte := Byte.byte_eq_dec.

(** An entry of the table of contents of a CArchive, the tuple
    [(dpos, dlen, ulen, flag, typcd, nm)]. *)
Record toc_entry : Type := TocEntry {
  dpos : Z;
  dlen : Z;
  ulen : Z;
  flag : Z;
  typcd : string;
  nm : string
}.

(** An entry of the logical table handed to the writer, the tuple
    [(patched, dlen, ulen, flag, typcd, nm, pathnm)]. *)
Record logic_entry : Type := LogicEntry {
  patched : Z;
  l_dlen : Z;
  l_ulen : Z;
  l_flag : Z;
  l_typcd : string;
  l_nm : string;
  pathnm : string
}.

(** What the source imports: PyInstaller's archive readers and
    writers, [zlib], [marshal], the [compile] builtin, the codec behind
    [bytes.decode] and the platform flags.  [Code] is the type of code
    objects.  [py_compile] is [compile] on the bytes of a file read in
    binary mode, [compile_text] is [compile] on a [str], and
    [read_text] is what [open(path, 'r').read()] makes of the bytes of
    a file.  [save_trailer toc pylib_name tocpos] is what the base
    class of the writer appends after the data blocks: the serialized
    table and the cookie. *)
Class PyInstaller : Type := {
  Code : Type;
  py_compile : bytes -> string -> result Code;
  read_text : bytes -> result string;
  compile_text : string -> string -> result Code;
  marshal_dumps : Code -> bytes;
  zlib_compress : Z -> bytes -> bytes;
  zlib_decompress : bytes -> option bytes;
  decode : bytes -> result string;
  LEVEL : Z;
  MAGIC : bytes;
  pymagic : bytes;
  PYZ_TYPE_PKG : Z;
  CArchiveReader : bytes -> result (Z * list toc_entry);
  loadtoc : bytes -> result (list string);
  extract : bytes -> string -> result (Z * Code);
  ZlibArchiveWriter :
    list (string * string * string) -> gmap string Code -> result bytes;
  save_trailer : list toc_entry -> string -> Z -> bytes;
  is_darwin : bool;
  is_linux : bool;
  mac_set_relative_dylib_deps : bytes -> string -> result bytes;
  fix_exe_for_code_signing : bytes -> result bytes
}.

Definition RuntimeError_archive : exn :=
  Exn "RuntimeError" [VStr "not a valid ZlibArchive archive file"].
Definition RecursionError : exn := Exn "RecursionError" [].

(** A loop whose body may raise. *)
Fixpoint foldM {S A : Type} (f : S -> A -> result S) (l : list A) (s : S)
    : result S :=
  match l with
  | [] => Ok s
  | x :: r => s' ← f s x; foldM f r s'
  end.

Definition blen (b : bytes) : Z := Z.of_nat (length b).

(** Python's truth value of an integer. *)
Definition truthy (z : Z) : bool := negb (z =? 0).

(** [nm.endswith('.pyz') and typcd in ('z', 'Z')] *)
Definition is_pyz (nm typcd : string) : bool :=
  Str.endswith ".pyz" nm && (String.eqb typcd "z" || String.eqb typcd "Z").

(** State of the loop of [repack_pyz]. *)
Record pyz_loop `{PyInstaller} : Type := PyzLoop {
  code_dict : gmap string Code;
  pyz_toc : list (string * string * string);
  pyz_items : gmap string string;
  updated : Z
}.

(** The writer under construction: the bytes written to [self.lib] and
    the entries added to [self.toc]. *)
Record writer : Type := Writer {
  lib : bytes;
  wtoc : list toc_entry
}.

(** What a run of [repacker] leaves behind. *)
Record run_end : Type := RunEnd {
  end_fs : FS;
  end_items : gmap string string;
  end_logic_toc : list logic_entry;
  end_pkg : writer;
  end_spawned : list (list string)
}.

(** A line of the listing. *)
Inductive listing_line : Type :=
| ItemLine (nm : string) (ulen : Z)
| PyzLine (pyz : string)
| NameLine (name : string).

(** How the process ends: its exit status, the records passed to
    [logger.error], and the tracebacks the interpreter printed itself. *)
Record process_end : Type := ProcessEnd {
  exit_status : Z;
  error_log : list log_record;
  tracebacks : list exn
}.

Section Pyinstailor.

Context `{PI : PyInstaller}.

(** [ZlibArchive.checkmagic], with [self.start = 0]; the result is
    what it prints. *)
Definition checkmagic (data : bytes) : result (list string) :=
  let h := File.Handle data 0 in
  '(m, h) ← File.read h (blen MAGIC);
  if decide (m = MAGIC) then
    '(v, h) ← File.read h (blen pymagic);
    let out := if decide (v = pymagic) then []
               else ["Warning: pyz is from a different Python version"] in
    '(_, _) ← File.read h 4;
    Ok out
  else Raise RuntimeError_archive.

(** [ZlibArchive(path)]: the constructor checks the magic and loads
    the table; the result is the sequence of [for name in arch.toc]. *)
Definition ZlibArchive (data : bytes) : result (list string) :=
  _ ← checkmagic data;
  loadtoc data.

(** One round of the loop of [repack_pyz].  [compile_code] opens the
    replacement in text mode and compiles the [str] it reads. *)
Definition repack_pyz_step (data : bytes) (fs : FS) (st : pyz_loop)
    (name : string) : result pyz_loop :=
  '(typ, obj) ← extract data name;
  '(code, items, n) ←
    match pyz_items st !! name with
    | Some pyfile =>
        src ← read_file fs pyfile;
        text ← read_text src;
        code ← compile_text text ("<" +:+ name +:+ ">");
        Ok (code, delete name (pyz_items st), updated st + 1)
    | None => Ok (obj, pyz_items st, updated st)
    end;
  let pathname := if typ =? PYZ_TYPE_PKG then "__init__.py" else name in
  Ok {| code_dict := <[name := code]> (code_dict st);
        pyz_toc := pyz_toc st ++ [(name, pathname, "PYMODULE")];
        pyz_items := items;
        updated := n |}.

(** [repack_pyz(pyz, items)]: the number of updated entries, the
    dictionary [items] as the calls of [items.pop] leave it, and the
    file system with the rewritten archive. *)
Definition repack_pyz (pyz : string) (items : gmap string string) (fs : FS)
    : result (Z * gmap string string * FS) :=
  data ← read_file fs pyz;
  names ← ZlibArchive data;
  st ← foldM (repack_pyz_step data fs) names
         {| code_dict := ∅; pyz_toc := []; pyz_items := items; updated := 0 |};
  out ← ZlibArchiveWriter (pyz_toc st) (code_dict st);
  Ok (updated st, pyz_items st, write_file fs pyz out).

(** [CArchiveWriter2.add(entry)].  The last line, [self.toc.add],
    puts the entry in the table under [os.path.normpath(nm)]. *)
Definition add (st : writer * FS) (entry : logic_entry) : result (writer * FS) :=
  let '(w, fs) := st in
  let where_ := blen (lib w) in
  fs ← (if is_darwin && truthy (patched entry) && String.eqb (l_typcd entry) "b"
        then
          data ← read_file fs (pathnm entry);
          data' ← mac_set_relative_dylib_deps data (Path.basename (pathnm entry));
          Ok (write_file fs (pathnm entry) data')
        else Ok fs);
  filedata ← read_file fs (pathnm entry);
  '(filedata, ulen) ←
    (if truthy (patched entry) then
       if String.eqb (l_typcd entry) "s" || String.eqb (l_typcd entry) "M" then
         code ← py_compile filedata ("<" +:+ l_nm entry +:+ ">");
         let filedata := marshal_dumps code in
         Ok (filedata, blen filedata)
       else Ok (filedata, blen filedata)
     else Ok (filedata, l_ulen entry));
  let lib' :=
    if (l_flag entry =? 1) && truthy (patched entry)
    then lib w ++ zlib_compress LEVEL filedata
    else lib w ++ filedata in
  let dlen := blen lib' - where_ in
  Ok ({| lib := lib';
         wtoc := wtoc w ++ [TocEntry where_ dlen ulen (l_flag entry)
                                     (l_typcd entry)
                                     (Path.normpath (l_nm entry))] |}, fs).

(** The package file the writer leaves: data blocks, then the table
    and the cookie. *)
Definition package (w : writer) (pylib_name : string) : bytes :=
  lib w ++ save_trailer (wtoc w) pylib_name (blen (lib w)).

(** [CArchiveWriter2(pkgname, logic_toc, pylib_name=pylib_name)]: the
    constructor of the base class opens the file for writing, calls
    [add] on every entry and writes the trailer. *)
Definition CArchiveWriter2 (pkgname : string) (logic_toc : list logic_entry)
    (pylib_name : string) (fs : FS) : result (writer * FS) :=
  '(w, fs) ← foldM add logic_toc (Writer [] [], write_file fs pkgname []);
  Ok (w, write_file fs pkgname (package w pylib_name)).

Definition PYINST_COOKIE_SIZE : Z := 24 + 64.

(** [get_carchive_info(filepath)] *)
Definition get_carchive_info (filepath : string) (fs : FS) : result (Z * string) :=
  data ← read_file fs filepath;
  let size := blen data in
  fp ← File.seek (File.Handle data 0) (size - PYINST_COOKIE_SIZE);
  '(buf, _) ← File.read fp PYINST_COOKIE_SIZE;
  c ← Struct.unpack_cookie buf;
  let pos := size - Struct.lengthofPackage c in
  name ← decode (Struct.pylibname c);
  Ok (pos, name).

(** The [else] branch of [repack_exe], "Update patched PKG in EXE":
    seek to [offset] in the output, copy the package there in chunks
    of 64 KiB, truncate. *)
Definition update_patched_pkg (output pkgname : string) (offset : Z) (fs : FS)
    : result FS :=
  exe ← read_file fs output;
  outf ← File.seek (File.Handle exe 0) offset;
  pkg ← read_file fs pkgname;
  match File.copyfileobj (File.Handle pkg 0) outf (64 * 1024) with
  | Some copied =>
      '(_, outf) ← copied;
      Ok (write_file fs output (File.content (File.truncate outf)))
  | None => Raise RecursionError
  end.

(** [repack_exe(path, output, logic_toc)]: the writer it built, the
    file system and the commands it started without waiting. *)
Definition repack_exe (path output : string) (logic_toc : list logic_entry)
    (fs : FS) : result (writer * FS * list (list string)) :=
  '(offset, pylib_name) ← get_carchive_info output fs;
  let pkgname := Path.join path "PKG-patched" in
  '(w, fs) ← CArchiveWriter2 pkgname logic_toc pylib_name fs;
  '(fs, spawned) ←
    (if is_linux then
       Ok (fs, [["objcopy"; "--update-section"; "pydata=" +:+ pkgname; output]])
     else
       fs ← update_patched_pkg output pkgname offset fs;
       Ok (fs, []));
  fs ← (if is_darwin then
          data ← read_file fs output;
          data' ← fix_exe_for_code_signing data;
          Ok (write_file fs output data')
        else Ok fs);
  Ok (w, fs, spawned).

(** One round of the loop of [repacker]: the entry is copied out of
    the archive, then annotated. *)
Definition repacker_step (executable path : string) (pkg_start : Z)
    (st : gmap string string * FS * list logic_entry) (toc : toc_entry)
    : result (gmap string string * FS * list logic_entry) :=
  let '(items, fs, logic_toc) := st in
  let pathnm := Path.join path (nm toc) in
  archive ← read_file fs executable;
  h ← File.seek (File.Handle archive 0) (pkg_start + dpos toc);
  '(data, _) ← File.read h (dlen toc);
  let fs := write_file fs pathnm data in
  let entry patched pathnm :=
    LogicEntry patched (dlen toc) (ulen toc) (flag toc) (typcd toc) (nm toc) pathnm in
  if is_pyz (nm toc) (typcd toc) then
    '(patched, items, fs) ← repack_pyz pathnm items fs;
    Ok (items, fs, logic_toc ++ [entry patched pathnm])
  else
    match items !! nm toc with
    | Some p => Ok (items, fs, logic_toc ++ [entry 1 p])
    | None => Ok (items, fs, logic_toc ++ [entry 0 pathnm])
    end.

(** [repacker(executable, items)] *)
Definition repacker (executable : string) (items : gmap string string) (fs : FS)
    : result run_end :=
  let '(name, ext) := Path.splitext (Path.basename executable) in
  archive ← read_file fs executable;
  '(pkg_start, toc) ← CArchiveReader archive;
  let path := name +:+ "_extracted" in
  '(items, fs, logic_toc) ←
    foldM (repacker_step executable path pkg_start) toc (items, fs, []);
  let output := name +:+ "-patched" +:+ ext in
  archive ← read_file fs executable;
  let fs := write_file fs output archive in
  '(w, fs, spawned) ← repack_exe path output logic_toc fs;
  Ok {| end_fs := fs; end_items := items; end_logic_toc := logic_toc;
        end_pkg := w; end_spawned := spawned |}.

(** First loop of [print_archive_items]: nested archives are copied
    out and remembered, the other entries are listed. *)
Definition list_step (executable path : string) (pkg_start : Z)
    (st : FS * list string * list listing_line) (toc : toc_entry)
    : result (FS * list string * list listing_line) :=
  let '(fs, pyzlist, out) := st in
  if is_pyz (nm toc) (typcd toc) then
    let pathnm := Path.join path (nm toc) in
    archive ← read_file fs executable;
    h ← File.seek (File.Handle archive 0) (pkg_start + dpos toc);
    '(data, _) ← File.read h (dlen toc);
    Ok (write_file fs pathnm data, pyzlist ++ [pathnm], out)
  else Ok (fs, pyzlist, out ++ [ItemLine (nm toc) (ulen toc)]).

(** Second loop of [print_archive_items]. *)
Definition list_pyz (fs : FS) (out : list listing_line) (pyz : string)
    : result (list listing_line) :=
  data ← read_file fs pyz;
  names ← ZlibArchive data;
  Ok (out ++ PyzLine pyz :: map NameLine names).

(** [print_archive_items(executable)] *)
Definition print_archive_items (executable : string) (fs : FS)
    : result (FS * list listing_line) :=
  let path := Path.basename executable +:+ "_extracted" in
  archive ← read_file fs executable;
  '(pkg_start, toc) ← CArchiveReader archive;
  '(fs, pyzlist, out) ←
    foldM (list_step executable path pkg_start) toc (fs, [], []);
  out ← foldM (list_pyz fs) pyzlist out;
  Ok (fs, out).

(** What [main] does once the arguments are parsed. *)
Definition main_body (args : Namespace) (fs : FS) : result FS :=
  match files args with
  | None =>
      '(fs, _) ← print_archive_items (executable args) fs;
      Ok fs
  | Some f =>
      items ← build_updated_items (Str.iter f) (Some (strip args));
      match items with
      | PyNone => Raise AttributeError_keys
      | PyDict d =>
          r ← repacker (executable args) d fs;
          Ok (end_fs r)
      end
  end.

(** The end of the process for a body run under the interpreter.
    With the hook installed an uncaught exception is handed to
    [excepthook]; [sys.exit] inside the hook ends the process with
    that status; a hook that raises makes the interpreter print both
    tracebacks and end with status 1.  Without the hook the
    interpreter prints the traceback and ends with status 1. *)
Definition interpreter_exit {A : Type} (hook_installed : bool) (body : result A)
    : process_end :=
  match body with
  | Ok _ => ProcessEnd 0 [] []
  | Raise e =>
      if hook_installed then
        match excepthook e with
        | HookExit status logged => ProcessEnd status logged []
        | HookRaise e' => ProcessEnd 1 [] [e'; e]
        end
      else ProcessEnd 1 [] [e]
  end.

(** [main()] on [sys.argv[1:] = argv]; [None] for a command line
    outside the modelled part of [argparse]. *)
Definition main (argv : list string) (fs : FS) : option process_end :=
  match Argparse.parse_args argv with
  | Unmodelled => None
  | ParserExit status => Some (ProcessEnd status [] [])
  | Parsed args =>
      Some (interpreter_exit (negb (debug args)) (main_body args fs))
  end.

End Pyinstailor.

(** ** A small PyInstaller to run the model

    A concrete instance of the class: the table of contents and the
    cookie of a CArchive in the layout PyInstaller 3 writes them
    (entries packed as [!iiiiBc] followed by the padded name), and a
    miniature PYZ format that keeps the header [checkmagic] reads:
    [MAGIC], the four bytes of [pymagic], four more bytes, then the
    entries, each as name length, name, type, code length, code.
    Compression and marshalling each put one byte in front of the
    data, code objects are their source, text is read as Latin-1, and
    the platform is neither Linux nor macOS. *)

Module Mini.

Definition byte_of_Z (z : Z) : byte :=
  default x00 (Byte.of_N (Z.to_N (z mod 256))).

Definition int32_be (z : Z) : bytes :=
  [byte_of_Z (z / 16777216); byte_of_Z (z / 65536); byte_of_Z (z / 256);
   byte_of_Z z].

Definition pad_to (n : nat) (b : bytes) : bytes :=
  b ++ List.repeat x00 (n - length b).

Fixpoint lstrip_nul (b : bytes) : bytes :=
  match b with
  | x00 :: r => lstrip_nul r
  | _ => b
  end.

Definition rstrip_nul (b : bytes) : bytes := List.rev (lstrip_nul (List.rev b)).

Definition COOKIE_MAGIC : bytes := [x4d; x45; x49; x0c; x0b; x0a; x0b; x0e].

(** One entry of the table: its length, the four integers, the flag
    and the type code, then the name padded with NUL bytes to a
    multiple of sixteen. *)
Definition pack_entry (e : toc_entry) : bytes :=
  let name := list_byte_of_string (nm e) in
  let raw := (18 + length name + 1)%nat in
  let slen := (raw + (16 - raw mod 16) mod 16)%nat in
  int32_be (Z.of_nat slen) ++ int32_be (dpos e) ++ int32_be (dlen e)
    ++ int32_be (ulen e) ++ [byte_of_Z (flag e)]
    ++ firstn 1 (list_byte_of_string (typcd e) ++ [x00])
    ++ pad_to (slen - 18) name.

Fixpoint parse_toc (fuel : nat) (b : bytes) : result (list toc_entry) :=
  match fuel with
  | O => Ok []
  | S k =>
      match b with
      | [] => Ok []
      | _ =>
          let slen := Struct.be_int32 (firstn 4 b) in
          if (slen <? 18) || (blen b <? slen) then Raise struct_error
          else
            let e := {|
              dpos := Struct.be_int32 (firstn 4 (skipn 4 b));
              dlen := Struct.be_int32 (firstn 4 (skipn 8 b));
              ulen := Struct.be_int32 (firstn 4 (skipn 12 b));
              flag := Struct.be_unsigned (firstn 1 (skipn 16 b));
              typcd := string_of_list_byte (firstn 1 (skipn 17 b));
              nm := string_of_list_byte
                      (rstrip_nul (firstn (Z.to_nat slen - 18) (skipn 18 b))) |} in
            rest ← parse_toc k (skipn (Z.to_nat slen) b);
            Ok (e :: rest)
      end
  end.

Definition RuntimeError_cookie : exn :=
  Exn "RuntimeError" [VStr "not a valid CArchive file"].
Definition KeyError : exn := Exn "KeyError" [].

Definition read_carchive (data : bytes) : result (Z * list toc_entry) :=
  let size := blen data in
  h ← File.seek (File.Handle data 0) (size - 88);
  '(buf, _) ← File.read h 88;
  c ← Struct.unpack_cookie buf;
  if decide (Struct.magic c = COOKIE_MAGIC) then
    let pkg_start := size - Struct.lengthofPackage c in
    h ← File.seek (File.Handle data 0) (pkg_start + Struct.toc c);
    '(tocstr, _) ← File.read h (Struct.tocLen c);
    toc ← parse_toc (length tocstr) tocstr;
    Ok (pkg_start, toc)
  else Raise RuntimeError_cookie.

Definition write_trailer (toc : list toc_entry) (pylib_name : string) (tocpos : Z)
    : bytes :=
  let tocstr := concat (map pack_entry toc) in
  tocstr ++ COOKIE_MAGIC ++ int32_be (tocpos + blen tocstr + 88)
    ++ int32_be tocpos ++ int32_be (blen tocstr) ++ int32_be 38
    ++ firstn 64 (pad_to 64 (list_byte_of_string pylib_name)).

Definition PYZ_MAGIC : bytes := [x50; x59; x5a; x00].
Definition PYTHON_MAGIC : bytes := [x55; x0d; x0d; x0a].

Fixpoint pyz_entries (fuel : nat) (b : bytes) : result (list (string * (Z * bytes))) :=
  match fuel with
  | O => Ok []
  | S k =>
      match b with
      | [] => Ok []
      | n :: r =>
          let n := Z.to_nat (Struct.byte_val n) in
          match skipn n r with
          | typ :: m :: r' =>
              let m := Z.to_nat (Struct.byte_val m) in
              if (length r' <? m)%nat then Raise struct_error
              else
                rest ← pyz_entries k (skipn m r');
                Ok ((string_of_list_byte (firstn n r),
                     (Struct.byte_val typ, firstn m r')) :: rest)
          | _ => Raise struct_error
          end
      end
  end.

Definition pyz_loadtoc (data : bytes) : result (list string) :=
  entries ← pyz_entries (length data) (skipn 12 data);
  Ok (map fst entries).

Definition pyz_extract (data : bytes) (name : string) : result (Z * bytes) :=
  entries ← pyz_entries (length data) (skipn 12 data);
  match List.find (fun e => String.eqb (fst e) name) entries with
  | Some e => Ok (snd e)
  | None => Raise KeyError
  end.

Definition pack_pyz_entry (code_dict : gmap string bytes)
    (e : string * string * string) : result bytes :=
  let '(name, pathname, _) := e in
  match code_dict !! name with
  | Some code =>
      let nameb := list_byte_of_string name in
      Ok ([byte_of_Z (blen nameb)] ++ nameb
            ++ [if String.eqb pathname "__init__.py" then x01 else x00]
            ++ [byte_of_Z (blen code)] ++ code)
  | None => Raise KeyError
  end.

Definition pyz_write (toc : list (string * string * string))
    (code_dict : gmap string bytes) : result bytes :=
  body ← foldM (fun acc e => b ← pack_pyz_entry code_dict e; Ok (acc ++ b)) toc [];
  Ok (PYZ_MAGIC ++ PYTHON_MAGIC ++ int32_be 12 ++ body).

Definition inflate (b : bytes) : option bytes :=
  match b with
  | x78 :: d => Some d
  | _ => None
  end.

Definition pyinstaller : PyInstaller := {|
  Code := bytes;
  py_compile := fun src _ => Ok src;
  read_text := fun src => Ok (string_of_list_byte src);
  compile_text := fun text _ => Ok (list_byte_of_string text);
  marshal_dumps := fun code => xe3 :: code;
  zlib_compress := fun _ d => x78 :: d;
  zlib_decompress := inflate;
  decode := fun b => Ok (string_of_list_byte b);
  LEVEL := 9;
  MAGIC := PYZ_MAGIC;
  pymagic := PYTHON_MAGIC;
  PYZ_TYPE_PKG := 1;
  CArchiveReader := read_carchive;
  loadtoc := pyz_loadtoc;
  extract := pyz_extract;
  ZlibArchiveWriter := pyz_write;
  save_trailer := write_trailer;
  is_darwin := false;
  is_linux := false;
  mac_set_relative_dylib_deps := fun d _ => Ok d;
  fix_exe_for_code_signing := fun d => Ok d
|}.

(** The same PyInstaller on Linux. *)
Definition linux : PyInstaller := {|
  Code := bytes;
  py_compile := fun src _ => Ok src;
  read_text := fun src => Ok (string_of_list_byte src);
  compile_text := fun text _ => Ok (list_byte_of_string text);
  marshal_dumps := fun code => xe3 :: code;
  zlib_compress := fun _ d => x78 :: d;
  zlib_decompress := inflate;
  decode := fun b => Ok (string_of_list_byte b);
  LEVEL := 9;
  MAGIC := PYZ_MAGIC;
  pymagic := PYTHON_MAGIC;
  PYZ_TYPE_PKG := 1;
  CArchiveReader := read_carchive;
  loadtoc := pyz_loadtoc;
  extract := pyz_extract;
  ZlibArchiveWriter := pyz_write;
  save_trailer := write_trailer;
  is_darwin := false;
  is_linux := true;
  mac_set_relative_dylib_deps := fun d _ => Ok d;
  fix_exe_for_code_signing := fun d => Ok d
|}.

(** A bundle: the bootloader followed by the package made of the
    given data blocks and table. *)
Definition bundle (bootloader data : bytes) (toc : list toc_entry) : bytes :=
  bootloader ++ data ++ write_trailer toc "libpython3.8.so" (blen data).

(** A PYZ file as an interpreter with the given magic writes it. *)
Definition pyz (magic : bytes) (entries : list (string * bool * bytes)) : bytes :=
  PYZ_MAGIC ++ magic ++ int32_be 12
    ++ concat (map (fun '(name, ispkg, code) =>
                      let nameb := list_byte_of_string name in
                      [byte_of_Z (blen nameb)] ++ nameb
                        ++ [if ispkg : bool then x01 else x00]
                        ++ [byte_of_Z (blen code)] ++ code) entries).

End Mini.

(** ** A bundle to run the model on

    A four-byte bootloader followed by a package of three entries: the
    script [foo], the nested archive [PYZ-00.pyz] written by an older
    interpreter and holding one module, also called [foo], and a data
    file.  Next to the bundle lies the replacement source [foo.py]. *)

Module Demo.

Definition OLD_MAGIC : bytes := [x42; x0d; x0d; x0a].

Definition inner : bytes := Mini.pyz OLD_MAGIC [("foo", false, [x61])].

Definition script_entry : toc_entry := TocEntry 0 1 1 0 "s" "foo".
Definition pyz_entry : toc_entry :=
  TocEntry 1 (blen inner) (blen inner) 0 "z" "PYZ-00.pyz".
Definition data_entry : toc_entry :=
  TocEntry (1 + blen inner) 2 2 0 "x" "data.bin".

Definition toc : list toc_entry := [script_entry; pyz_entry; data_entry].

Definition exe : bytes :=
  Mini.bundle [x7f; x45; x4c; x46] ([x70] ++ inner ++ [x01; x02]) toc.

Definition fs : FS := <["dist/app" := exe]> (<["foo.py" := [x62]]> ∅).

(** The state just before the splice: the copy of the bundle and a
    rebuilt package of three bytes. *)
Definition pkg : bytes := [x01; x02; x03].
Definition before_splice : FS :=
  <["app-patched" := exe]> (<["app_extracted/PKG-patched" := pkg]> ∅).

(** The name of the Python library as the cookie holds it, padded to
    64 bytes. *)
Definition pylib_name : string :=
  string_of_list_byte
    (firstn 64 (Mini.pad_to 64 (list_byte_of_string "libpython3.8.so"))).

(** An entry with the compression flag set that is not patched, read
    from the file [foo.py]. *)
Definition flagged_entry : logic_entry := LogicEntry 0 1 1 1 "x" "foo" "foo.py".


Definition args_list : Namespace :=
  {| debug := false; strip := 0; executable := "dist/app"; files := None |}.
Definition args_debug : Namespace :=
  {| debug := true; strip := 0; executable := "dist/none"; files := None |}.
Definition args_files : Namespace :=
  {| debug := false; strip := 0; executable := "dist/app"; files := Some "foo.py" |}.
Definition args_missing : Namespace :=
  {| debug := false; strip := 0; executable := "dist/none"; files := None |}.

(** The copy of the bundle next to the replacement source, as
    [repack_exe] finds them. *)
Definition copied : FS := <["app-patched" := exe]> fs.

(** A nested archive of two modules, in a file of its own. *)
Definition two_modules : bytes :=
  Mini.pyz Mini.PYTHON_MAGIC [("foo", false, [x61]); ("bar", false, [x63])].
Definition fs_pyz : FS := <["lib.pyz" := two_modules]> (<["foo.py" := [x62]]> ∅).

(** A bundle without a nested archive. *)
Definition plain_toc : list toc_entry :=
  [script_entry; TocEntry 1 2 2 0 "x" "data.bin"].
Definition plain_exe : bytes :=
  Mini.bundle [x7f; x45; x4c; x46] [x70; x01; x02] plain_toc.
Definition plain_fs : FS := <["dist/plain" := plain_exe]> ∅.

(** The entry of the script as a run with [foo.py] for [foo] hands it
    to the writer. *)
Definition patched_script : logic_entry := LogicEntry 1 1 1 0 "s" "foo" "foo.py".

(** A file that ends in 88 bytes without the magic of a cookie. *)
Definition no_cookie_head : bytes := [x7f; x45].
Definition no_cookie_magic : bytes := List.repeat xff 8.
Definition no_cookie_rest : bytes := Mini.int32_be 5 ++ List.repeat x00 76.

End Demo.

(** ** Observations used in the statements *)

(** The logical name [build_updated_items] derives for one file. *)
Definition derived_name (strip : option Z) (filename : string) : result string :=
  '(name, _) ← updated_item strip filename;
  Ok name.

(** The bytes an archive stores for an entry, when its package starts
    at [start]: what [lib.seek(start + dpos); lib.read(dlen)] reads. *)
Definition stored (data : bytes) (start : Z) (t : toc_entry) : result bytes :=
  h ← File.seek (File.Handle data 0) (start + dpos t);
  '(got, _) ← File.read h (dlen t);
  Ok got.

(** The number of names of a list, each counted once, that are keys
    of [items]. *)
Definition matches (names : list string) (items : gmap string string) : Z :=
  Z.of_nat (size (list_to_set names ∩ dom items : gset string)).

(** The same run with another dictionary of items left at its end. *)
Definition with_items (f : gmap string string -> gmap string string) (r : run_end)
    : run_end :=
  {| end_fs := end_fs r; end_items := f (end_items r);
     end_logic_toc := end_logic_toc r; end_pkg := end_pkg r;
     end_spawned := end_spawned r |}.

Definition map_result {A B : Type} (f : A -> B) (r : result A) : result B :=
  match r with
  | Ok a => Ok (f a)
  | Raise e => Raise e
  end.

(** The entries of a table tile the bytes from [start] to [stop]:
    each block begins where the one before ends, and no length is
    negative. *)
Fixpoint tiles (start : Z) (ts : list toc_entry) (stop : Z) : Prop :=
  match ts with
  | [] => start = stop
  | t :: rest => dpos t = start /\ 0 <= dlen t /\ tiles (start + dlen t) rest stop
  end.

(** Two runs end alike: with the same exception, or with the same
    files, logical table, package and started commands.  Only the
    dictionary of items left over is not compared. *)
Definition same_outcome (a b : result run_end) : Prop :=
  map_result (with_items (fun _ => ∅)) a = map_result (with_items (fun _ => ∅)) b.

(** The state of the loop of [repacker] with one more item. *)
Definition with_item (n p : string)
    (st : gmap string string * FS * list logic_entry)
    : gmap string string * FS * list logic_entry :=
  let '(items, fs, lt) := st in (<[n := p]> items, fs, lt).

Section Observations.

Context `{PI : PyInstaller}.

(** The decompressed payload of an entry with the given flag. *)
Definition payload (flag : Z) (data : bytes) : option bytes :=
  if flag =? 1 then zlib_decompress data else Some data.

(** The decompressed payload of an entry of an archive. *)
Definition entry_payload (data : bytes) (start : Z) (t : toc_entry)
    : result (option bytes) :=
  map_result (payload (flag t)) (stored data start t).

(** The names one round of the loop of [repacker] looks up in [items]:
    the names of the nested archive for a PYZ entry, the name of the
    entry otherwise. *)
Definition step_lookups (executable : string) (pkg_start : Z) (fs : FS)
    (toc : toc_entry) : list string :=
  if is_pyz (nm toc) (typcd toc) then
    match (archive ← read_file fs executable;
           data ← stored archive pkg_start toc;
           ZlibArchive data) with
    | Ok names => names
    | Raise _ => []
    end
  else [nm toc].

(** The names looked up in the course of the loop. *)
Fixpoint loop_lookups (executable path : string) (pkg_start : Z)
    (tocs : list toc_entry) (st : gmap string string * FS * list logic_entry)
    : list string :=
  match tocs with
  | [] => []
  | t :: rest =>
      step_lookups executable pkg_start (snd (fst st)) t
        ++ match repacker_step executable path pkg_start st t with
           | Ok st' => loop_lookups executable path pkg_start rest st'
           | Raise _ => []
           end
  end.

(** The names a run of [repacker] looks up in [items]. *)
Definition lookups (executable : string) (items : gmap string string) (fs : FS)
    : list string :=
  match (archive ← read_file fs executable; CArchiveReader archive) with
  | Ok (pkg_start, toc) =>
      loop_lookups executable
        (fst (Path.splitext (Path.basename executable)) +:+ "_extracted")
        pkg_start toc (items, fs, [])
  | Raise _ => []
  end.

End Observations.

(** * Properties *)

(** ** The patch resolver *)

(** The loop of [build_updated_items] never raises when [strip] is an
    integer, as it always is when [main] calls it. *)
Lemma updated_item_total (n : Z) (filename : string) :
  exists name pathnm, updated_item (Some n) filename = Ok (name, pathnm).
Proof.
  unfold updated_item.
  destruct (0 <? Str.find Path.pathsep filename) eqn:Hfind.
  - assert (Hsplit : forall s i, 0 <= i -> 0 <= Str.find_from Path.pathsep s i ->
              exists a b, Str.split1 Path.pathsep s = [a; b]).
    { induction s as [|c s IH]; intros i Hi Hf; simpl in *; [lia|].
      destruct (Ascii.eqb c Path.pathsep); [eauto|].
      destruct (IH (i + 1)) as (a & b & ->); [lia|lia|eauto]. }
    destruct (Hsplit filename 0) as (a & b & ->).
    + lia.
    + apply Z.ltb_lt in Hfind. unfold Str.find in Hfind. lia.
    + eauto.
  - simpl. eauto.
Qed.

Lemma updated_items_loop_total (n : Z) (files : list string) :
  forall items, exists items', updated_items_loop (Some n) files items = Ok items'.
Proof.
  induction files as [|f files IH]; intros items; simpl; [eauto|].
  destruct (updated_item_total n f) as (name & pathnm & ->). simpl.
  apply IH.
Qed.

Lemma build_updated_items_int_strip (files : list string) (n : Z) :
  build_updated_items files (Some n) = Ok PyNone.
Proof.
  unfold build_updated_items.
  destruct (updated_items_loop_total n files ∅) as (items' & ->).
  reflexivity.
Qed.

(** C2: the resolver does not return the mapping it builds.  For the
    replacement ["foo.py"] and strip 0 the loop fills [items] with
    [foo -> foo.py], and the function returns [None]; it does so for
    every list of files and every integer strip value. *)
Theorem build_updated_items_returns_none :
  updated_items_loop (Some 0) ["foo.py"] ∅ = Ok {["foo" := "foo.py"]}
  /\ build_updated_items ["foo.py"] (Some 0) = Ok PyNone
  /\ forall files n, build_updated_items files (Some n) = Ok PyNone.
Proof.
  split; [reflexivity|]. split; [reflexivity|].
  apply build_updated_items_int_strip.
Qed.

(** With any strip value, [None] included, the result is never a
    dictionary. *)
Lemma build_updated_items_no_dict files strip d :
  build_updated_items files strip <> Ok (PyDict d).
Proof.
  unfold build_updated_items.
  destruct (updated_items_loop strip files ∅); simpl; congruence.
Qed.

(** C3, as stated, fails on its first case: with strip 0 the path
    [src/foo.py] resolves to [src.foo]. *)
Lemma name_derivation_strip0_keeps_directory :
  ~ (derived_name (Some 0) "src/foo.py" = Ok "foo"
     /\ derived_name (Some 0) "reader/__init__.py" = Ok "reader"
     /\ derived_name (Some 2) "../../reader/__init__.py" = Ok "reader").
Proof.
  intros [H _]. vm_compute in H. discriminate H.
Qed.

(** C3, amended: [src/foo.py] resolves to [foo] once one leading
    component is stripped, and to [src.foo] with strip 0; without a
    strip value the two package files resolve to [reader]. *)
Theorem name_derivation :
  derived_name (Some 1) "src/foo.py" = Ok "foo"
  /\ derived_name (Some 0) "src/foo.py" = Ok "src.foo"
  /\ derived_name None "reader/__init__.py" = Ok "reader"
  /\ derived_name None "../../reader/__init__.py" = Ok "reader".
Proof. repeat split; reflexivity. Qed.

(** The suffix [.py] is dropped before [__init__.py] is looked for, so
    with an integer strip value a package file keeps [__init__]. *)
Lemma name_derivation_package_init :
  derived_name (Some 0) "reader/__init__.py" = Ok "reader.__init__"
  /\ derived_name (Some 2) "../../reader/__init__.py" = Ok "reader.__init__".
Proof. split; reflexivity. Qed.

(** ** The command line and the top level *)

(** C9: the command line does not take a list of files.  A second
    replacement path makes the parser leave with status 2; a single one
    reaches [build_updated_items] as a string, which the loop walks
    character by character; without one the namespace holds [None]. *)
Theorem files_argument_takes_one_path :
  Argparse.parse_args ["dist/foo.exe"; "foo.py"; "bar.py"] = ParserExit 2
  /\ Argparse.parse_args ["dist/foo.exe"; "foo.py"]
     = Parsed {| debug := false; strip := 0; executable := "dist/foo.exe";
                 files := Some "foo.py" |}
  /\ updated_items_loop (Some 0) (Str.iter "foo.py") ∅
     = Ok (<["f" := "f"]> (<["o" := "o"]> (<["." := "."]>
             (<["p" := "p"]> (<["y" := "y"]> ∅)))))
  /\ Argparse.parse_args ["dist/foo.exe"]
     = Parsed {| debug := false; strip := 0; executable := "dist/foo.exe";
                 files := None |}.
Proof.
  split; [reflexivity|]. split; [reflexivity|]. split; [|reflexivity].
  vm_compute. reflexivity.
Qed.

(** An exception whose first argument is a message makes the hook
    itself raise: [isinstance(str, message)] is a [TypeError]. *)
Lemma excepthook_on_message (type msg : string) (rest : list pyval) :
  excepthook (Exn type (VStr msg :: rest)) = HookRaise TypeError_isinstance.
Proof. reflexivity. Qed.

(** When the hook gets as far as [sys.exit], the status is 1 and one
    record was logged. *)
Lemma excepthook_exit (value : exn) (status : Z) (logged : list log_record) :
  excepthook value = HookExit status logged ->
  status = 1 /\ length logged = 1%nat.
Proof.
  unfold excepthook.
  destruct (PyList.index (exn_args value) 0); [|discriminate].
  destruct (isinstance_str a) as [[|]|]; intros H; inversion H; auto.
Qed.

Section TopLevel.

Context `{PI : PyInstaller}.

(** Without replacement files [main] lists the archive. *)
Lemma main_body_lists (args : Namespace) (fs : FS) :
  files args = None ->
  main_body args fs
  = '(fs', _) ← print_archive_items (executable args) fs; Ok fs'.
Proof. intros H. unfold main_body. rewrite H. reflexivity. Qed.

(** With a replacement file [main] never gets to [repacker]: the
    resolver returned [None], and [items.keys()] raises. *)
Lemma main_body_with_files (args : Namespace) (f : string) (fs : FS) :
  files args = Some f ->
  main_body args fs = Raise AttributeError_keys.
Proof.
  intros H. unfold main_body. rewrite H.
  rewrite build_updated_items_int_strip. reflexivity.
Qed.

(** C8, amended: an uncaught exception ends the process with status
    1, a body that returns ends it with status 0.  Without [-d] the
    exception goes to [excepthook] and to nothing else: either the hook
    reaches [sys.exit(1)] having logged exactly one record, or it raises
    itself and the interpreter prints both tracebacks.  With [-d] the
    hook is not installed: nothing is logged and the interpreter prints
    the traceback. *)
Theorem main_exit_status (argv : list string) (args : Namespace) (fs : FS) :
  Argparse.parse_args argv = Parsed args ->
  exists pe, main argv fs = Some pe /\
    match main_body args fs with
    | Ok _ => pe = ProcessEnd 0 [] []
    | Raise e =>
        exit_status pe = 1 /\
        if debug args then error_log pe = [] /\ tracebacks pe = [e]
        else (exists rec, excepthook e = HookExit 1 [rec]
                          /\ error_log pe = [rec] /\ tracebacks pe = [])
             \/ (exists e', excepthook e = HookRaise e'
                            /\ error_log pe = [] /\ tracebacks pe = [e'; e])
    end.
Proof.
  intros Hparse. unfold main. rewrite Hparse.
  eexists. split; [reflexivity|].
  destruct (main_body args fs) as [fs'|e]; simpl; [reflexivity|].
  destruct (debug args); simpl; [auto|].
  destruct (excepthook e) as [status logged|e'] eqn:Hhook; simpl.
  - destruct (excepthook_exit _ _ _ Hhook) as [-> Hlen].
    split; [reflexivity|]. left.
    destruct logged as [|rec [|]]; try discriminate Hlen.
    exists rec. auto.
  - split; [reflexivity|]. right. exists e'. auto.
Qed.

End TopLevel.

(** ** Files *)

Lemma write_nonempty (h : File.handle) (d : bytes) :
  d <> [] ->
  File.write h d
  = File.Handle (take (File.pos h) (File.content h)
                   ++ List.repeat x00 (File.pos h - length (File.content h))
                   ++ d ++ drop (File.pos h + length d) (File.content h))
                (File.pos h + length d).
Proof. destruct d; [congruence|reflexivity]. Qed.

Lemma write_write (h : File.handle) (a b : bytes) :
  File.write (File.write h a) b = File.write h (a ++ b).
Proof.
  destruct (decide (a = [])) as [->|Ha]; [reflexivity|].
  destruct (decide (b = [])) as [->|Hb]; [by rewrite app_nil_r|].
  destruct h as [c p].
  rewrite (write_nonempty _ a Ha), (write_nonempty _ b Hb).
  rewrite (write_nonempty _ (a ++ b)) by (destruct a; [congruence|discriminate]).
  cbn [File.content File.pos].
  set (pre := take p c ++ List.repeat x00 (p - length c)).
  assert (Hpre : length pre = p).
  { subst pre. rewrite length_app, length_take, repeat_length. lia. }
  set (rest := drop (p + length a) c).
  assert (E1 : take p c ++ List.repeat x00 (p - length c) ++ a ++ rest
               = (pre ++ a) ++ rest).
  { subst pre. by rewrite <- !app_assoc. }
  rewrite E1.
  assert (Hlen : length (pre ++ a) = (p + length a)%nat)
    by (rewrite length_app; lia).
  rewrite take_app_length' by (symmetry; exact Hlen).
  replace (p + length a - length ((pre ++ a) ++ rest))%nat with 0%nat
    by (rewrite length_app; lia).
  cbn [List.repeat].
  rewrite (drop_app_add' (pre ++ a) rest (p + length a) (length b))
    by (symmetry; exact Hlen).
  subst rest. rewrite drop_drop.
  subst pre. rewrite <- !app_assoc. cbn [app].
  rewrite length_app, Nat.add_assoc. reflexivity.
Qed.


Lemma take_drop_taken {A : Type} (n : nat) (d : list A) :
  take n d ++ drop (length (take n d)) d = d.
Proof.
  rewrite length_take. destruct (le_lt_dec n (length d)).
  - rewrite Nat.min_l by lia. apply take_drop.
  - rewrite Nat.min_r by lia. rewrite take_ge by lia.
    rewrite drop_all. apply app_nil_r.
Qed.

(** A size from -1 on is accepted by [read]. *)
Lemma read_ok (h : File.handle) (n : Z) :
  -1 <= n -> File.read h n = Ok (File.chunk h n).
Proof.
  intros Hn. unfold File.read.
  replace (n <? -1) with false by (symmetry; apply Z.ltb_ge; lia). reflexivity.
Qed.

Lemma read_inv (h : File.handle) (n : Z) (r : bytes * File.handle) :
  File.read h n = Ok r -> -1 <= n /\ r = File.chunk h n.
Proof.
  unfold File.read. destruct (Z.ltb_spec n (-1)) as [Hlt|Hge]; [discriminate|].
  intros Hr. inversion Hr. split; [lia|reflexivity].
Qed.

(** [copyfileobj] copies everything from the cursor of the source on,
    whatever the chunk size: the rounds add up to one write. *)
Lemma copy_rounds_all (length_ : Z) (c : bytes) :
  0 < length_ ->
  forall fuel p dst, (length c - p < fuel)%nat ->
  exists src',
    File.copy_rounds fuel (File.Handle c p) dst length_
    = Some (Ok (src', File.write dst (drop p c))).
Proof.
  intros Hpos. induction fuel as [|fuel IH]; intros p dst Hfuel; [lia|].
  cbn [File.copy_rounds]. rewrite read_ok by lia.
  unfold File.chunk. cbn [File.content File.pos].
  replace (length_ <? 0) with false by (symmetry; apply Z.ltb_ge; lia).
  destruct (take (Z.to_nat length_) (drop p c)) as [|x buf] eqn:Hbuf.
  - assert (Hd : drop p c = []).
    { destruct (drop p c) as [|y r] eqn:Hd; [reflexivity|].
      destruct (Z.to_nat length_) eqn:Hn; [lia|]. discriminate Hbuf. }
    rewrite Hd. eauto.
  - assert (Hsplit : drop p c = (x :: buf) ++ drop (p + length (x :: buf)) c).
    { rewrite <- drop_drop, <- Hbuf. symmetry. apply take_drop_taken. }
    assert (Hle : (length (x :: buf) <= length c - p)%nat).
    { rewrite <- Hbuf, length_take, length_drop. lia. }
    destruct (IH (p + length (x :: buf))%nat (File.write dst (x :: buf)))
      as (src' & Hrec).
    { cbn [length] in *. lia. }
    rewrite Hrec, write_write, <- Hsplit. eauto.
Qed.

Lemma copyfileobj_all (length_ : Z) (c : bytes) (dst : File.handle) :
  0 < length_ ->
  exists src',
    File.copyfileobj (File.Handle c 0) dst length_
    = Some (Ok (src', File.write dst c)).
Proof.
  intros Hpos. unfold File.copyfileobj. simpl File.content.
  destruct (copy_rounds_all length_ c Hpos (S (length c)) 0%nat dst) as (src' & H);
    [lia|].
  rewrite drop_0 in H. eauto.
Qed.

(** Writing at the cursor and truncating there: the bytes before the
    cursor, zero bytes if the cursor was past the end, then the data. *)
Lemma write_truncate (c : bytes) (p : nat) (data : bytes) :
  File.content (File.truncate (File.write (File.Handle c p) data))
  = take p c ++ List.repeat x00 (p - length c) ++ data.
Proof.
  destruct (decide (data = [])) as [->|Hd].
  - cbn. by rewrite app_nil_r.
  - rewrite (write_nonempty _ data Hd). unfold File.truncate.
    cbn [File.content File.pos].
    set (pre := take p c ++ List.repeat x00 (p - length c)).
    assert (Hpre : length pre = p).
    { subst pre. rewrite length_app, length_take, repeat_length. lia. }
    assert (E : take p c ++ List.repeat x00 (p - length c) ++ data
                  ++ drop (p + length data) c
                = (pre ++ data) ++ drop (p + length data) c).
    { subst pre. by rewrite <- !app_assoc. }
    rewrite E.
    assert (Hlen : (p + length data)%nat = length (pre ++ data))
      by (rewrite length_app; lia).
    rewrite take_app_length' by exact Hlen.
    replace (p + length data - length ((pre ++ data) ++ drop (p + length data) c))%nat
      with 0%nat by (rewrite length_app; lia).
    cbn [List.repeat]. rewrite app_nil_r. subst pre. by rewrite <- app_assoc.
Qed.

(** ** Results *)

Lemma bind_ok {A B : Type} (r : result A) (k : A -> result B) (b : B) :
  r ≫= k = Ok b -> exists a, r = Ok a /\ k a = Ok b.
Proof. destruct r as [a|e]; [eauto|discriminate]. Qed.

Lemma bind_of_ok {A B : Type} (r : result A) (k : A -> result B) (a : A) :
  r = Ok a -> r ≫= k = k a.
Proof. intros ->. reflexivity. Qed.

Lemma read_file_ok (fs : FS) (path : string) (data : bytes) :
  read_file fs path = Ok data <-> fs !! path = Some data.
Proof.
  unfold read_file. destruct (fs !! path); split; intros H; inversion H; auto.
Qed.

(** Take a hypothesis [x ← r; k = Ok b] apart. *)
Ltac bind_inv H :=
  let a := fresh "a" in
  let Ha := fresh "H" a in
  apply bind_ok in H; destruct H as (a & Ha & H); cbn beta in H.

Tactic Notation "bind_split" hyp(H) "as" ident(a) ident(Ha) :=
  apply bind_ok in H; destruct H as (a & Ha & H); cbn beta in H.

Lemma foldM_app {S A : Type} (f : S -> A -> result S) (l1 l2 : list A) (s : S) :
  foldM f (l1 ++ l2) s = foldM f l1 s ≫= foldM f l2.
Proof.
  revert s. induction l1 as [|x l1 IH]; intros s; [reflexivity|].
  cbn [app foldM]. destruct (f s x) as [s'|e]; [apply IH|reflexivity].
Qed.

(** ** The splice *)

Section Splice.

Context `{PI : PyInstaller}.


(** The splice succeeds from any offset that is not negative, and
    leaves the bytes before the offset, zero bytes if the offset was
    past the end of the file, then the package. *)
Lemma update_patched_pkg_content (output pkgname : string) (offset : Z) (fs : FS)
    (exe pkg : bytes) :
  fs !! output = Some exe ->
  fs !! pkgname = Some pkg ->
  0 <= offset ->
  update_patched_pkg output pkgname offset fs
  = Ok (<[output := take (Z.to_nat offset) exe
                      ++ List.repeat x00 (Z.to_nat offset - length exe)
                      ++ pkg]> fs).
Proof.
  intros Hexe Hpkg Hoff. unfold update_patched_pkg.
  rewrite (bind_of_ok _ _ exe) by (by apply read_file_ok).
  unfold File.seek. replace (offset <? 0) with false
    by (symmetry; apply Z.ltb_ge; lia).
  cbn [mbind result_bind bind File.content].
  rewrite (bind_of_ok _ _ pkg) by (by apply read_file_ok).
  destruct (copyfileobj_all (64 * 1024) pkg (File.Handle exe (Z.to_nat offset)))
    as (src' & ->); [lia|].
  cbn [mbind result_bind bind]. rewrite write_truncate. reflexivity.
Qed.


End Splice.

(** ** The outer writer *)

Section Writer.

Context `{PI : PyInstaller}.

Lemma truthy_false (z : Z) : truthy z = false <-> z = 0.
Proof. unfold truthy. rewrite negb_false_iff. apply Z.eqb_eq. Qed.


(** An entry that is not patched: its file is appended as it is and
    the lengths of the table follow. *)
Lemma add_unpatched (w w' : writer) (fs fs' : FS) (entry : logic_entry) :
  patched entry = 0 ->
  add (w, fs) entry = Ok (w', fs') ->
  exists filedata,
    fs !! pathnm entry = Some filedata
    /\ fs' = fs
    /\ w' = {| lib := lib w ++ filedata;
               wtoc := wtoc w ++ [TocEntry (blen (lib w)) (blen filedata)
                                    (l_ulen entry) (l_flag entry)
                                    (l_typcd entry)
                                    (Path.normpath (l_nm entry))] |}.
Proof.
  intros Hp Hadd. unfold add in Hadd.
  apply truthy_false in Hp. rewrite Hp, !andb_false_r in Hadd.
  cbn [andb mbind result_bind bind] in Hadd.
  destruct (read_file fs (pathnm entry)) as [filedata|e] eqn:Hread;
    [|discriminate].
  cbn [mbind result_bind bind] in Hadd. inversion Hadd; subst.
  exists filedata. split; [by apply read_file_ok|]. split; [reflexivity|].
  replace (blen (lib w ++ filedata) - blen (lib w)) with (blen filedata)
    by (unfold blen; rewrite length_app; lia).
  reflexivity.
Qed.


(** Off macOS the writer changes no file while it adds entries. *)
Lemma add_keeps_fs (w w' : writer) (fs fs' : FS) (entry : logic_entry) :
  is_darwin = false ->
  add (w, fs) entry = Ok (w', fs') -> fs' = fs.
Proof.
  intros Hd Hadd. unfold add in Hadd. rewrite Hd in Hadd.
  cbn [andb mbind result_bind bind] in Hadd.
  bind_inv Hadd. bind_inv Hadd. destruct a0.
  inversion Hadd. reflexivity.
Qed.

Lemma foldM_add_keeps_fs (logic_toc : list logic_entry) :
  is_darwin = false ->
  forall w fs w' fs',
    foldM add logic_toc (w, fs) = Ok (w', fs') -> fs' = fs.
Proof.
  intros Hd. induction logic_toc as [|e l IH]; intros w fs w' fs' H.
  - inversion H. reflexivity.
  - cbn [foldM] in H. bind_inv H. destruct a as [w1 fs1].
    apply add_keeps_fs in Ha; [|exact Hd]. subst fs1. eauto.
Qed.

End Writer.

(** ** The nested archive *)

Section Inner.

Context `{PI : PyInstaller}.

(** What one round of the loop of [repack_pyz] does to [items] and to
    the count: a name found in [items] is popped and counted, any other
    leaves both alone. *)
Lemma repack_pyz_step_items (data : bytes) (fs : FS) (st st' : pyz_loop)
    (name : string) :
  repack_pyz_step data fs st name = Ok st' ->
  match pyz_items st !! name with
  | Some _ => pyz_items st' = delete name (pyz_items st)
              /\ updated st' = updated st + 1
  | None => pyz_items st' = pyz_items st /\ updated st' = updated st
  end.
Proof.
  intros H. unfold repack_pyz_step in H. bind_inv H. destruct a as [typ obj].
  destruct (pyz_items st !! name) as [pyfile|].
  - bind_inv H. destruct a as [[code items] n]. bind_inv Ha0. bind_inv Ha0.
    bind_inv Ha0. inversion Ha0; subst. inversion H; subst. auto.
  - cbn [mbind result_bind bind] in H. inversion H; subst. auto.
Qed.

(** The count of the loop goes up by the number of distinct names of
    the archive that are keys of [items]: a name is popped when it is
    found, so a name listed twice is found once. *)
Lemma repack_pyz_loop_count (data : bytes) (fs : FS) (names : list string) :
  forall st st',
    foldM (repack_pyz_step data fs) names st = Ok st' ->
    updated st' = updated st + matches names (pyz_items st).
Proof.
  unfold matches.
  induction names as [|name names IH]; intros st st' H.
  - inversion H as [Hst]. cbn [list_to_set].
    replace (∅ ∩ dom (pyz_items st') : gset string) with (∅ : gset string)
      by set_solver.
    rewrite size_empty. lia.
  - cbn [foldM] in H. bind_inv H. rename a into st1.
    apply repack_pyz_step_items in Ha. rewrite (IH _ _ H).
    destruct (pyz_items st !! name) as [pyfile|] eqn:Hlook;
      destruct Ha as [-> ->].
    + assert (Hin : name ∈ dom (pyz_items st)) by (apply elem_of_dom; eauto).
      replace (list_to_set (name :: names) ∩ dom (pyz_items st) : gset string)
        with ({[name]} ∪ (list_to_set names ∩ dom (delete name (pyz_items st)))
              : gset string).
      * assert (Hsz : size ({[name]} ∪ (list_to_set names
                                         ∩ dom (delete name (pyz_items st)))
                            : gset string)
                      = (size ({[name]} : gset string)
                         + size (list_to_set names
                                 ∩ dom (delete name (pyz_items st))
                                 : gset string))%nat).
        { apply size_union. rewrite dom_delete_L. set_solver. }
        assert (Hone : size ({[name]} : gset string) = 1%nat)
          by apply size_singleton.
        rewrite Hsz, Hone. lia.
      * rewrite dom_delete_L. cbn [list_to_set]. apply set_eq. intros x.
        destruct (decide (x = name)) as [->|Hne]; set_solver.
    + assert (Hin : name ∉ dom (pyz_items st)) by (by apply not_elem_of_dom).
      replace (list_to_set (name :: names) ∩ dom (pyz_items st) : gset string)
        with (list_to_set names ∩ dom (pyz_items st) : gset string)
        by (cbn [list_to_set]; set_solver).
      reflexivity.
Qed.

(** The loop as a whole: the count never goes down; names absent from
    [items] stay absent; the names of the archive are absent at the
    end; the other names are untouched; the count stays where it was
    exactly when no name of the archive was in [items]. *)
Lemma repack_pyz_loop_items (data : bytes) (fs : FS) (names : list string) :
  forall st st',
    foldM (repack_pyz_step data fs) names st = Ok st' ->
    updated st <= updated st'
    /\ (forall k, pyz_items st !! k = None -> pyz_items st' !! k = None)
    /\ (forall k, k ∈ names -> pyz_items st' !! k = None)
    /\ (forall k, k ∉ names -> pyz_items st' !! k = pyz_items st !! k)
    /\ (updated st' = updated st
        <-> forall k, k ∈ names -> pyz_items st !! k = None).
Proof.
  induction names as [|name names IH]; intros st st' H.
  - inversion H; subst. split; [lia|]. split; [auto|].
    split; [intros k Hk; inversion Hk|]. split; [auto|].
    split; [intros _ k Hk; inversion Hk|reflexivity].
  - cbn [foldM] in H. bind_inv H. rename a into st1.
    apply repack_pyz_step_items in Ha.
    destruct (IH _ _ H) as (Hle & Hnone & Hgone & Hframe & Hiff).
    destruct (pyz_items st !! name) as [pyfile|] eqn:Hlook;
      destruct Ha as [Hitems Hupd].
    + assert (Hshrink : forall k, pyz_items st !! k = None ->
                pyz_items st1 !! k = None).
      { intros k Hk. rewrite Hitems.
        destruct (decide (name = k)) as [->|Hne];
          [apply lookup_delete_eq|by rewrite lookup_delete_ne]. }
      split; [lia|]. split; [auto|]. split; [|split].
      * intros k Hk. apply elem_of_cons in Hk as [->|Hk]; [|auto].
        apply Hnone. rewrite Hitems. apply lookup_delete_eq.
      * intros k Hk. apply not_elem_of_cons in Hk as [Hne Hk].
        rewrite Hframe by exact Hk. rewrite Hitems.
        by rewrite lookup_delete_ne.
      * split; [lia|]. intros Hall.
        rewrite Hall in Hlook by apply list_elem_of_here. discriminate.
    + rewrite Hitems, Hupd in *.
      split; [lia|]. split; [auto|]. split; [|split].
      * intros k Hk. apply elem_of_cons in Hk as [->|Hk]; auto.
      * intros k Hk. apply not_elem_of_cons in Hk as [Hne Hk]. auto.
      * rewrite Hiff. split.
        -- intros Hall k Hk. apply elem_of_cons in Hk as [->|Hk]; auto.
        -- intros Hall k Hk. apply Hall. by apply list_elem_of_further.
Qed.

(** The number [repack_pyz] returns. *)
Lemma repack_pyz_count (pyz : string) (items items' : gmap string string)
    (fs fs' : FS) (n : Z) (data : bytes) (names : list string) :
  fs !! pyz = Some data ->
  ZlibArchive data = Ok names ->
  repack_pyz pyz items fs = Ok (n, items', fs') ->
  n = matches names items.
Proof.
  intros Hdata Hnames H. unfold repack_pyz in H.
  rewrite (bind_of_ok _ _ data) in H by (by apply read_file_ok).
  rewrite (bind_of_ok _ _ names) in H by exact Hnames.
  bind_inv H. rename a into st. bind_inv H. inversion H; subst.
  apply repack_pyz_loop_count in Ha. cbn [pyz_items updated] in Ha. lia.
Qed.

(** [repack_pyz] returns the count of the loop and the [items] the
    loop leaves, and rewrites the file whatever the count is. *)
Lemma repack_pyz_ok (pyz : string) (items items' : gmap string string)
    (fs fs' : FS) (n : Z) :
  repack_pyz pyz items fs = Ok (n, items', fs') ->
  exists data names out,
    fs !! pyz = Some data
    /\ ZlibArchive data = Ok names
    /\ fs' = <[pyz := out]> fs
    /\ 0 <= n
    /\ (n = 0 <-> forall k, k ∈ names -> items !! k = None)
    /\ (forall k, items !! k = None -> items' !! k = None)
    /\ (forall k, k ∈ names -> items' !! k = None)
    /\ (forall k, k ∉ names -> items' !! k = items !! k).
Proof.
  intros H. unfold repack_pyz in H.
  bind_inv H. rename a into data. bind_inv H. rename a into names.
  bind_inv H. rename a into st. bind_inv H. rename a into out.
  inversion H; subst.
  apply repack_pyz_loop_items in Ha1. cbn [pyz_items updated] in Ha1.
  destruct Ha1 as (Hle & Hnone & Hgone & Hframe & Hiff).
  exists data, names, out. apply read_file_ok in Ha.
  repeat split; auto; try lia; apply Hiff.
Qed.

End Inner.

(** ** The loop of [repacker] *)

Section Loop.

Context `{PI : PyInstaller}.

Variables (executable path : string) (pkg_start : Z).

(** The entry a round appends for [toc]. *)
Local Abbreviation annotated toc p pathnm :=
  (LogicEntry p (dlen toc) (ulen toc) (flag toc) (typcd toc) (nm toc) pathnm).

(** One round, taken apart. *)
Lemma repacker_step_ok (items items' : gmap string string) (fs fs' : FS)
    (lt lt' : list logic_entry) (toc : toc_entry) :
  repacker_step executable path pkg_start (items, fs, lt) toc
  = Ok (items', fs', lt') ->
  exists archive data,
    fs !! executable = Some archive
    /\ stored archive pkg_start toc = Ok data
    /\ if is_pyz (nm toc) (typcd toc) then
         exists n,
           repack_pyz (Path.join path (nm toc)) items
             (<[Path.join path (nm toc) := data]> fs) = Ok (n, items', fs')
           /\ lt' = lt ++ [annotated toc n (Path.join path (nm toc))]
       else
         items' = items
         /\ fs' = <[Path.join path (nm toc) := data]> fs
         /\ lt' = lt ++ [match items !! nm toc with
                         | Some p => annotated toc 1 p
                         | None => annotated toc 0 (Path.join path (nm toc))
                         end].
Proof.
  intros H. unfold repacker_step in H.
  bind_inv H. rename a into archive. bind_inv H. rename a into h.
  bind_inv H. destruct a as [data h'].
  exists archive, data.
  split; [by apply read_file_ok|].
  split.
  { unfold stored. rewrite Ha0. cbn [mbind result_bind bind]. by rewrite Ha1. }
  unfold write_file in H.
  destruct (is_pyz (nm toc) (typcd toc)).
  - bind_inv H. destruct a as [[n items1] fs1]. inversion H; subst.
    exists n. auto.
  - destruct (items !! nm toc); inversion H; subst; auto.
Qed.

(** The names a PYZ round looks up are the names of the archive that
    [repack_pyz] opens. *)
Lemma step_lookups_pyz (fs : FS) (toc : toc_entry) (archive data : bytes)
    (names : list string) :
  is_pyz (nm toc) (typcd toc) = true ->
  fs !! executable = Some archive ->
  stored archive pkg_start toc = Ok data ->
  ZlibArchive data = Ok names ->
  step_lookups executable pkg_start fs toc = names.
Proof.
  intros Hpyz Harch Hdata Hnames. unfold step_lookups. rewrite Hpyz.
  rewrite (bind_of_ok _ _ archive) by (by apply read_file_ok).
  rewrite (bind_of_ok _ _ data) by exact Hdata.
  by rewrite Hnames.
Qed.

(** C5, amended: the [patched] field of the entry of a nested archive
    is the number of inner entries that were replaced, which is the
    number of names of the archive that are keys of [items].  The entry
    is marked patched when at least one name of the archive was in
    [items]; when none was, the archive is rewritten all the same and
    the entry is left unmarked. *)
Theorem pyz_entry_patched_counts_updates (items items' : gmap string string)
    (fs fs' : FS) (lt lt' : list logic_entry) (toc : toc_entry) :
  is_pyz (nm toc) (typcd toc) = true ->
  repacker_step executable path pkg_start (items, fs, lt) toc
  = Ok (items', fs', lt') ->
  exists n out,
    lt' = lt ++ [annotated toc n (Path.join path (nm toc))]
    /\ fs' !! Path.join path (nm toc) = Some out
    /\ n = matches (step_lookups executable pkg_start fs toc) items
    /\ 0 <= n
    /\ (n = 0 <-> forall name,
                    name ∈ step_lookups executable pkg_start fs toc ->
                    items !! name = None).
Proof.
  intros Hpyz H.
  destruct (repacker_step_ok _ _ _ _ _ _ _ H) as (archive & data & Harch & Hdata & Hrest).
  rewrite Hpyz in Hrest. destruct Hrest as (n & Hrepack & ->).
  destruct (repack_pyz_ok _ _ _ _ _ _ Hrepack)
    as (data' & names & out & Hfile & Hnames & -> & Hpos & Hiff & _).
  rewrite lookup_insert_eq in Hfile. inversion Hfile; subst data'.
  exists n, out. split; [reflexivity|].
  split; [apply lookup_insert_eq|].
  rewrite (step_lookups_pyz _ _ _ _ _ Hpyz Harch Hdata Hnames).
  split; [|split; [exact Hpos|exact Hiff]].
  apply (repack_pyz_count _ _ _ _ _ _ data names (lookup_insert_eq _ _ _) Hnames
           Hrepack).
Qed.

(** A round never adds a name to [items]. *)
Lemma repacker_step_shrinks (items items' : gmap string string) (fs fs' : FS)
    (lt lt' : list logic_entry) (toc : toc_entry) (k : string) :
  repacker_step executable path pkg_start (items, fs, lt) toc
  = Ok (items', fs', lt') ->
  items !! k = None -> items' !! k = None.
Proof.
  intros H Hk.
  destruct (repacker_step_ok _ _ _ _ _ _ _ H) as (archive & data & _ & _ & Hrest).
  destruct (is_pyz (nm toc) (typcd toc)).
  - destruct Hrest as (n & Hrepack & _).
    destruct (repack_pyz_ok _ _ _ _ _ _ Hrepack)
      as (? & ? & ? & _ & _ & _ & _ & _ & Hnone & _).
    auto.
  - destruct Hrest as (-> & _). exact Hk.
Qed.

(** A PYZ round leaves none of the names it looked up in [items]. *)
Lemma repacker_step_pops (items items' : gmap string string) (fs fs' : FS)
    (lt lt' : list logic_entry) (toc : toc_entry) (k : string) :
  is_pyz (nm toc) (typcd toc) = true ->
  repacker_step executable path pkg_start (items, fs, lt) toc
  = Ok (items', fs', lt') ->
  k ∈ step_lookups executable pkg_start fs toc ->
  items' !! k = None.
Proof.
  intros Hpyz H Hk.
  destruct (repacker_step_ok _ _ _ _ _ _ _ H) as (archive & data & Harch & Hdata & Hrest).
  rewrite Hpyz in Hrest. destruct Hrest as (n & Hrepack & _).
  destruct (repack_pyz_ok _ _ _ _ _ _ Hrepack)
    as (data' & names & out & Hfile & Hnames & _ & _ & _ & _ & Hgone & _).
  rewrite lookup_insert_eq in Hfile. inversion Hfile; subst data'.
  rewrite (step_lookups_pyz _ _ _ _ _ Hpyz Harch Hdata Hnames) in Hk. auto.
Qed.

End Loop.

(** ** Names that match nothing *)

Section Unmatched.

Context `{PI : PyInstaller}.

Variables (n p : string).

Local Abbreviation ins_pyz st :=
  {| code_dict := code_dict st; pyz_toc := pyz_toc st;
     pyz_items := <[n := p]> (pyz_items st); updated := updated st |}.

Local Abbreviation ins3 := (with_item n p).

Lemma repack_pyz_step_insert (data : bytes) (fs : FS) (st : pyz_loop)
    (name : string) :
  name <> n ->
  repack_pyz_step data fs (ins_pyz st) name
  = map_result (fun st' => ins_pyz st') (repack_pyz_step data fs st name).
Proof.
  intros Hne. unfold repack_pyz_step. cbn [pyz_items code_dict pyz_toc updated].
  destruct (extract data name) as [[typ obj]|e]; [|reflexivity].
  cbn [mbind result_bind bind].
  rewrite lookup_insert_ne by congruence.
  destruct (pyz_items st !! name) as [pyfile|]; [|reflexivity].
  destruct (read_file fs pyfile) as [src|e]; [|reflexivity].
  cbn [mbind result_bind bind].
  destruct (read_text src) as [text|e]; [|reflexivity].
  cbn [mbind result_bind bind].
  destruct (compile_text text ("<" +:+ name +:+ ">")) as [code|e]; [|reflexivity].
  cbn [mbind result_bind bind map_result pyz_items code_dict pyz_toc updated].
  by rewrite delete_insert_ne by congruence.
Qed.

Lemma repack_pyz_loop_insert (data : bytes) (fs : FS) (names : list string) :
  n ∉ names ->
  forall st,
    foldM (repack_pyz_step data fs) names (ins_pyz st)
    = map_result (fun st' => ins_pyz st')
        (foldM (repack_pyz_step data fs) names st).
Proof.
  induction names as [|name names IH]; intros Hn st; [reflexivity|].
  apply not_elem_of_cons in Hn as [Hne Hn].
  cbn [foldM]. rewrite repack_pyz_step_insert by congruence.
  destruct (repack_pyz_step data fs st name) as [st1|e]; [|reflexivity].
  cbn [map_result mbind result_bind bind]. by apply IH.
Qed.

Lemma repack_pyz_insert (pyz : string) (items : gmap string string) (fs : FS) :
  (forall data names,
     fs !! pyz = Some data -> ZlibArchive data = Ok names -> n ∉ names) ->
  repack_pyz pyz (<[n := p]> items) fs
  = map_result (fun r => let '(u, items', fs') := r in (u, <[n := p]> items', fs'))
      (repack_pyz pyz items fs).
Proof.
  intros Hn. unfold repack_pyz.
  destruct (read_file fs pyz) as [data|e] eqn:Hdata; [|reflexivity].
  cbn [mbind result_bind bind].
  destruct (ZlibArchive data) as [names|e] eqn:Hnames; [|reflexivity].
  cbn [mbind result_bind bind].
  apply read_file_ok in Hdata.
  pose proof (repack_pyz_loop_insert data fs names (Hn _ _ Hdata Hnames)
                {| code_dict := ∅; pyz_toc := []; pyz_items := items; updated := 0 |})
    as Hloop.
  cbn [pyz_items code_dict pyz_toc updated] in Hloop. rewrite Hloop. clear Hloop.
  destruct (foldM (repack_pyz_step data fs) names
              {| code_dict := ∅; pyz_toc := []; pyz_items := items; updated := 0 |})
    as [st|e]; [|reflexivity].
  cbn [map_result mbind result_bind bind pyz_items code_dict pyz_toc updated].
  destruct (ZlibArchiveWriter (pyz_toc st) (code_dict st)); reflexivity.
Qed.

Lemma repacker_step_insert (executable path : string) (pkg_start : Z)
    (st : gmap string string * FS * list logic_entry) (toc : toc_entry) :
  n ∉ step_lookups executable pkg_start (snd (fst st)) toc ->
  repacker_step executable path pkg_start (ins3 st) toc
  = map_result ins3 (repacker_step executable path pkg_start st toc).
Proof.
  destruct st as [[items fs] lt]. cbn [fst snd with_item]. intros Hn.
  unfold step_lookups in Hn. unfold repacker_step.
  destruct (read_file fs executable) as [archive|e]; [|reflexivity].
  cbn [mbind result_bind bind] in *. unfold stored in Hn.
  destruct (File.seek _ _) as [h|e]; [|reflexivity].
  cbn [mbind result_bind bind] in *.
  destruct (File.read h (dlen toc)) as [[data h']|e] eqn:Hread; [|reflexivity].
  cbn [mbind result_bind bind] in *.
  destruct (is_pyz (nm toc) (typcd toc)).
  - rewrite repack_pyz_insert.
    + destruct (repack_pyz _ items _) as [[[u items1] fs1]|e]; reflexivity.
    + intros data' names Hfile Hnames. unfold write_file in Hfile.
      rewrite lookup_insert_eq in Hfile. inversion Hfile; subst data'.
      by rewrite Hnames in Hn.
  - apply not_elem_of_cons in Hn as [Hne _].
    rewrite lookup_insert_ne by congruence.
    destruct (items !! nm toc); reflexivity.
Qed.

Lemma repacker_loop_insert (executable path : string) (pkg_start : Z)
    (tocs : list toc_entry) :
  forall st,
    n ∉ loop_lookups executable path pkg_start tocs st ->
    foldM (repacker_step executable path pkg_start) tocs (ins3 st)
    = map_result ins3 (foldM (repacker_step executable path pkg_start) tocs st)
    /\ loop_lookups executable path pkg_start tocs (ins3 st)
       = loop_lookups executable path pkg_start tocs st.
Proof.
  induction tocs as [|t tocs IH]; intros st Hn; [split; reflexivity|].
  cbn [loop_lookups foldM] in *.
  apply not_elem_of_app in Hn as [Hstep Hrest].
  rewrite repacker_step_insert by exact Hstep.
  assert (Hfs : snd (fst (ins3 st)) = snd (fst st)) by (by destruct st as [[? ?] ?]).
  rewrite Hfs.
  destruct (repacker_step executable path pkg_start st t) as [st1|e];
    [|split; reflexivity].
  cbn [map_result mbind result_bind bind].
  destruct (IH st1 Hrest) as [-> ->]. split; reflexivity.
Qed.

(** A name that the run does not look up can be added to the patch
    set: the run ends alike and looks up the same names. *)
Lemma repacker_insert (executable : string) (items : gmap string string) (fs : FS) :
  n ∉ lookups executable items fs ->
  same_outcome (repacker executable (<[n := p]> items) fs)
    (repacker executable items fs)
  /\ lookups executable (<[n := p]> items) fs = lookups executable items fs.
Proof.
  unfold lookups, repacker, same_outcome. intros Hn.
  destruct (Path.splitext (Path.basename executable)) as [name ext]. cbn [fst] in *.
  destruct (read_file fs executable) as [archive|e]; [|split; reflexivity].
  cbn [mbind result_bind bind] in *.
  destruct (CArchiveReader archive) as [[pkg_start toc]|e]; [|split; reflexivity].
  cbn [mbind result_bind bind] in *.
  destruct (repacker_loop_insert executable (name +:+ "_extracted") pkg_start toc
              (items, fs, []) Hn) as [Hloop Hlook].
  cbn [with_item] in Hloop, Hlook. rewrite Hloop, Hlook. split; [|reflexivity].
  destruct (foldM _ toc (items, fs, [])) as [[[items1 fs1] lt1]|e]; [|reflexivity].
  cbn [map_result with_item mbind result_bind bind].
  destruct (read_file fs1 executable) as [archive'|e]; [|reflexivity].
  cbn [mbind result_bind bind].
  destruct (repack_exe _ _ lt1 _) as [[[w fs2] spawned]|e]; reflexivity.
Qed.

End Unmatched.

Section UnmatchedSet.

Context `{PI : PyInstaller}.

Lemma same_outcome_trans (a b c : result run_end) :
  same_outcome a b -> same_outcome b c -> same_outcome a c.
Proof. unfold same_outcome. congruence. Qed.

Lemma repacker_union (executable : string) (items : gmap string string) (fs : FS)
    (extra : gmap string string) :
  (forall n, n ∈ dom extra -> n ∉ lookups executable items fs) ->
  same_outcome (repacker executable (extra ∪ items) fs)
    (repacker executable items fs)
  /\ lookups executable (extra ∪ items) fs = lookups executable items fs.
Proof.
  induction extra as [|n p extra Hfresh IH] using map_ind; intros Hall.
  - rewrite (left_id_L ∅ (∪)). split; reflexivity.
  - destruct IH as [IHrun IHlook].
    { intros k Hk. apply Hall. rewrite dom_insert_L. set_solver. }
    rewrite <- insert_union_l.
    destruct (repacker_insert n p executable (extra ∪ items) fs) as [Hrun Hlook].
    { rewrite IHlook. apply Hall. rewrite dom_insert_L. set_solver. }
    split; [|congruence].
    eapply same_outcome_trans; eauto.
Qed.

(** C7: names that match nothing have no effect.  When the run over a
    patch set looks up none of the names of [extra], the run over the
    patch set with [extra] added ends like it: with the same exception
    if there is one, else with the same output executable, working
    files and package.  With the empty patch set for [items], a patch
    set whose names match no entry, outer or nested, gives the output
    of the run that patches nothing. *)
Theorem unmatched_names_have_no_effect (executable : string)
    (items extra : gmap string string) (fs : FS) :
  (forall n, n ∈ dom extra -> n ∉ lookups executable items fs) ->
  same_outcome (repacker executable (extra ∪ items) fs)
    (repacker executable items fs).
Proof. intros Hall. by apply repacker_union. Qed.

End UnmatchedSet.

(** ** A replaced name is gone for the rest of the run *)

Section AppliedOnce.

Context `{PI : PyInstaller}.

Variables (executable path : string) (pkg_start : Z) (n : string).

(** An entry that was not patched through the name [n]: if it bears
    that name and is not a nested archive, it is unmarked and is read
    from its own extracted file. *)
Local Abbreviation untouched e :=
  (l_nm e = n -> is_pyz (l_nm e) (l_typcd e) = false ->
   patched e = 0 /\ pathnm e = Path.join path n).

Lemma rounds_without (post : list toc_entry) :
  forall st st2,
    fst (fst st) !! n = None ->
    foldM (repacker_step executable path pkg_start) post st = Ok st2 ->
    fst (fst st2) !! n = None
    /\ exists es, snd st2 = snd st ++ es /\ Forall (fun e => untouched e) es.
Proof.
  induction post as [|t post IH]; intros st st2 Hn H.
  - inversion H; subst. split; [exact Hn|]. exists [].
    split; [by rewrite app_nil_r|constructor].
  - cbn [foldM] in H. bind_inv H. rename a into st1.
    destruct st as [[items fs] lt], st1 as [[items1 fs1] lt1]. cbn [fst snd] in *.
    pose proof (repacker_step_shrinks _ _ _ _ _ _ _ _ _ _ n Ha Hn) as Hn1.
    destruct (IH (items1, fs1, lt1) st2 Hn1 H) as (Hn2 & es & Hes & Hall).
    cbn [fst snd] in *.
    split; [exact Hn2|].
    destruct (repacker_step_ok _ _ _ _ _ _ _ _ _ _ Ha)
      as (archive & data & _ & _ & Hrest).
    destruct (is_pyz (nm t) (typcd t)) eqn:Hpyz.
    + destruct Hrest as (u & _ & ->).
      eexists (_ :: es). split; [by rewrite Hes, <- app_assoc|].
      constructor; [|exact Hall]. cbn [l_nm l_typcd]. congruence.
    + destruct Hrest as (-> & _ & ->).
      eexists (_ :: es). split; [by rewrite Hes, <- app_assoc|].
      constructor; [|exact Hall].
      destruct (items !! nm t) as [q|] eqn:Hq; cbn [l_nm l_typcd patched pathnm].
      * intros Hnm _. congruence.
      * intros Hnm _. split; congruence.
Qed.

(** C10, amended: once a round has rewritten a nested archive that
    holds the name [n], the name is absent from the shared dictionary:
    at the start of every later round [items] has no [n], so no later
    entry and no later nested archive is patched through it.  Entries
    that came before the nested archive are not covered. *)
Theorem replaced_name_is_not_applied_later (items : gmap string string) (fs : FS)
    (lt : list logic_entry) (z : toc_entry) (post : list toc_entry)
    (st1 st2 : gmap string string * FS * list logic_entry) :
  is_pyz (nm z) (typcd z) = true ->
  n ∈ step_lookups executable pkg_start fs z ->
  repacker_step executable path pkg_start (items, fs, lt) z = Ok st1 ->
  foldM (repacker_step executable path pkg_start) post st1 = Ok st2 ->
  fst (fst st1) !! n = None
  /\ (forall a t b, post = a ++ t :: b ->
      exists st, foldM (repacker_step executable path pkg_start) a st1 = Ok st
                 /\ fst (fst st) !! n = None)
  /\ exists es, snd st2 = snd st1 ++ es /\ Forall (fun e => untouched e) es.
Proof.
  intros Hpyz Hin Hstep Hpost.
  destruct st1 as [[items1 fs1] lt1].
  pose proof (repacker_step_pops _ _ _ _ _ _ _ _ _ _ n Hpyz Hstep Hin) as Hn1.
  cbn [fst snd]. split; [exact Hn1|]. split.
  - intros a t b ->. rewrite foldM_app in Hpost. bind_inv Hpost.
    exists a0. split; [exact Ha0|].
    by destruct (rounds_without a (items1, fs1, lt1) a0 Hn1 Ha0) as [Hgone _].
  - by destruct (rounds_without post (items1, fs1, lt1) st2 Hn1 Hpost) as [_ Hes].
Qed.

End AppliedOnce.

(** ** Repacking with an empty patch set *)

Lemma stored_at (before data after : bytes) (ul fl : Z) (ty name : string) :
  stored (before ++ data ++ after) 0
    (TocEntry (blen before) (blen data) ul fl ty name) = Ok data.
Proof.
  unfold stored, File.seek, blen. cbn [dpos dlen File.content File.pos].
  replace (0 + Z.of_nat (length before) <? 0) with false
    by (symmetry; apply Z.ltb_ge; lia).
  cbn [mbind result_bind bind]. rewrite read_ok by lia.
  unfold File.chunk. cbn [mbind result_bind bind File.content File.pos].
  replace (Z.of_nat (length data) <? 0) with false
    by (symmetry; apply Z.ltb_ge; lia).
  f_equal.
  replace (Z.to_nat (0 + Z.of_nat (length before))) with (length before) by lia.
  rewrite drop_app_length, Nat2Z.id. apply take_app_length.
Qed.

Section RoundTrip.

Context `{PI : PyInstaller}.

(** The writer over entries none of which is patched: no file changes,
    the table gets one entry per logical entry with its normalised
    name, its type, uncompressed length and flag, and the bytes the
    package stores for it, however the package goes on, are the content
    of its file. *)
Lemma writer_unpatched (es : list logic_entry) :
  Forall (fun e => patched e = 0) es ->
  forall w fs w' fs',
    foldM add es (w, fs) = Ok (w', fs') ->
    fs' = fs
    /\ (exists tail, lib w' = lib w ++ tail)
    /\ exists ts,
         wtoc w' = wtoc w ++ ts
         /\ Forall2 (fun e t' =>
                       nm t' = Path.normpath (l_nm e) /\ typcd t' = l_typcd e
                       /\ ulen t' = l_ulen e /\ flag t' = l_flag e
                       /\ exists d, fs !! pathnm e = Some d
                                    /\ forall more, stored (lib w' ++ more) 0 t' = Ok d)
              es ts.
Proof.
  induction 1 as [|e es He Hes IH]; intros w fs w' fs' H.
  - inversion H; subst. split; [reflexivity|].
    split; [exists []; by rewrite app_nil_r|].
    exists []. split; [by rewrite app_nil_r|constructor].
  - cbn [foldM] in H. bind_inv H. destruct a as [w1 fs1].
    destruct (add_unpatched _ _ _ _ _ He Ha) as (d & Hd & -> & ->).
    destruct (IH _ _ _ _ H) as (-> & (tail & Htail) & ts & Hts & Hall).
    cbn [lib wtoc] in *.
    split; [reflexivity|].
    split; [exists (d ++ tail); by rewrite Htail, <- app_assoc|].
    eexists (_ :: ts). split; [by rewrite Hts, <- app_assoc|].
    constructor; [|exact Hall]. cbn [nm typcd ulen flag].
    repeat (split; [reflexivity|]).
    exists d. split; [exact Hd|]. intros more.
    rewrite Htail, <- !app_assoc. apply stored_at.
Qed.

Variables (executable path : string) (pkg_start : Z) (archive : bytes).

Local Abbreviation pathof t := (Path.join path (nm t)).
Local Abbreviation unpatched t :=
  (LogicEntry 0 (dlen t) (ulen t) (flag t) (typcd t) (nm t) (pathof t)).

(** The loop of [repacker] over an empty patch set: every entry is
    annotated as not patched and points at its extracted file; files
    outside the extraction paths are untouched; when the paths are
    pairwise distinct, the file of an entry that is not a nested
    archive holds the bytes the archive stores for it. *)
Lemma extract_loop_empty (tocs : list toc_entry) :
  forall fs lt items' fs' lt',
    fs !! executable = Some archive ->
    Forall (fun t => pathof t <> executable) tocs ->
    foldM (repacker_step executable path pkg_start) tocs (∅, fs, lt)
    = Ok (items', fs', lt') ->
    items' = ∅
    /\ lt' = lt ++ map (fun t => unpatched t) tocs
    /\ fs' !! executable = Some archive
    /\ (forall q, q ∉ map (fun t => pathof t) tocs -> fs' !! q = fs !! q)
    /\ (NoDup (map (fun t => pathof t) tocs) ->
        Forall (fun t => exists d,
                  fs' !! pathof t = Some d
                  /\ (is_pyz (nm t) (typcd t) = false ->
                      stored archive pkg_start t = Ok d)) tocs).
Proof.
  induction tocs as [|t tocs IH]; intros fs lt items' fs' lt' Harch Hne H.
  - inversion H; subst. split; [reflexivity|]. split; [by rewrite app_nil_r|].
    split; [exact Harch|]. split; [reflexivity|]. constructor.
  - cbn [foldM] in H. bind_inv H. destruct a as [[items1 fs1] lt1].
    apply Forall_cons in Hne as [Hne_t Hne].
    destruct (repacker_step_ok _ _ _ _ _ _ _ _ _ _ Ha)
      as (archive' & data & Harch' & Hdata & Hrest).
    rewrite Harch in Harch'. inversion Harch'; subst archive'. clear Harch'.
    assert (Hstep : items1 = ∅
                    /\ lt1 = lt ++ [unpatched t]
                    /\ (forall q, q <> pathof t -> fs1 !! q = fs !! q)
                    /\ exists d, fs1 !! pathof t = Some d
                                 /\ (is_pyz (nm t) (typcd t) = false -> d = data)).
    { destruct (is_pyz (nm t) (typcd t)).
      - destruct Hrest as (u & Hrepack & ->).
        destruct (repack_pyz_ok _ _ _ _ _ _ Hrepack)
          as (data' & names & out & _ & _ & -> & _ & Hzero & Hnone & _).
        assert (u = 0) as -> by (apply Hzero; intros; apply lookup_empty).
        split; [apply map_eq; intros k; rewrite lookup_empty;
                apply Hnone, lookup_empty|].
        split; [reflexivity|]. split.
        + intros q Hq. by rewrite !lookup_insert_ne by congruence.
        + exists out. split; [apply lookup_insert_eq|discriminate].
      - destruct Hrest as (-> & -> & ->). rewrite lookup_empty.
        split; [reflexivity|]. split; [reflexivity|]. split.
        + intros q Hq. by rewrite lookup_insert_ne by congruence.
        + exists data. split; [apply lookup_insert_eq|reflexivity]. }
    destruct Hstep as (-> & -> & Hframe1 & d & Hd & Hdd).
    assert (Harch1 : fs1 !! executable = Some archive)
      by (rewrite Hframe1 by congruence; exact Harch).
    destruct (IH _ _ _ _ _ Harch1 Hne H) as (-> & -> & Harch2 & Hframe & Hfiles).
    split; [reflexivity|]. split; [by rewrite <- app_assoc|].
    split; [exact Harch2|]. split.
    + intros q Hq. cbn [map] in Hq. apply not_elem_of_cons in Hq as [Hq1 Hq].
      rewrite Hframe by exact Hq. auto.
    + intros Hnd. cbn [map] in Hnd. apply NoDup_cons in Hnd as [Hnotin Hnd].
      constructor; [|auto].
      exists d. rewrite Hframe by exact Hnotin. split; [exact Hd|].
      intros Hpyz. rewrite Hdata. f_equal. symmetry. auto.
Qed.

End RoundTrip.

Section RoundTripRun.

Context `{PI : PyInstaller}.

Variable executable : string.

Local Abbreviation stem := (fst (Path.splitext (Path.basename executable))).
Local Abbreviation ext := (snd (Path.splitext (Path.basename executable))).
Local Abbreviation path := (stem +:+ "_extracted").
Local Abbreviation output := (stem +:+ "-patched" +:+ ext).
Local Abbreviation pkgname := (Path.join path "PKG-patched").
Local Abbreviation pathof t := (Path.join path (nm t)).

(** C1, amended: repacking with an empty patch set keeps the type
    code, the uncompressed length and the flag of every entry, in the
    order of the table, and stores every entry under its normalised
    name, which is its name when that is a normalised path already; for
    every entry that is not a nested archive the stored bytes, hence
    the decompressed payload, are those of the original.  The entries
    are taken to be extracted to pairwise distinct files, none of them
    the executable, the output or the intermediate package.  The bytes
    of a nested archive are those the inner writer produced and are not
    covered. *)
Theorem roundtrip_with_empty_patch_set (fs : FS) (archive : bytes)
    (pkg_start : Z) (toc : list toc_entry) (r : run_end) :
  fs !! executable = Some archive ->
  CArchiveReader archive = Ok (pkg_start, toc) ->
  NoDup (map (fun t => pathof t) toc) ->
  Forall (fun t => pathof t <> executable /\ pathof t <> output
                   /\ pathof t <> pkgname) toc ->
  repacker executable ∅ fs = Ok r ->
  Forall2 (fun t t' =>
             nm t' = Path.normpath (nm t)
             /\ (Path.normpath (nm t) = nm t -> nm t' = nm t)
             /\ typcd t' = typcd t /\ ulen t' = ulen t
             /\ flag t' = flag t
             /\ (is_pyz (nm t) (typcd t) = false ->
                 stored (lib (end_pkg r)) 0 t' = stored archive pkg_start t
                 /\ entry_payload (lib (end_pkg r)) 0 t'
                    = entry_payload archive pkg_start t))
    toc (wtoc (end_pkg r)).
Proof.
  intros Harch Hread Hnd Hdist Hrun. unfold repacker in Hrun.
  destruct (Path.splitext (Path.basename executable)) as [name ext0] eqn:Hsplit.
  cbn [fst snd] in *.
  rewrite (bind_of_ok _ _ archive) in Hrun by (by apply read_file_ok).
  rewrite (bind_of_ok _ _ (pkg_start, toc)) in Hrun by exact Hread.
  bind_split Hrun as st1 Hloop. destruct st1 as [[items1 fs1] lt1].
  destruct (extract_loop_empty executable (name +:+ "_extracted") pkg_start archive
              toc fs [] items1 fs1 lt1 Harch)
    as (-> & -> & Harch1 & Hframe & Hfiles); [|exact Hloop|].
  { eapply Forall_impl; [exact Hdist|]. cbn beta. tauto. }
  specialize (Hfiles Hnd). cbn [app] in *.
  rewrite (bind_of_ok _ _ archive) in Hrun by (by apply read_file_ok).
  bind_split Hrun as re Hexe. destruct re as [[w fs3] spawned].
  inversion Hrun; subst r. cbn [end_pkg]. clear Hrun.
  unfold repack_exe in Hexe.
  bind_split Hexe as info Hinfo. destruct info as [offset pylib_name].
  bind_split Hexe as wr Hwr. destruct wr as [w' fs4].
  assert (w' = w) as ->.
  { bind_split Hexe as x Hx. destruct x as [fs5 sp].
    bind_split Hexe as y Hy. by inversion Hexe. }
  clear Hexe. unfold CArchiveWriter2 in Hwr.
  bind_split Hwr as wf Hfold. destruct wf as [w' fs5].
  inversion Hwr; subst w' fs4. clear Hwr.
  match type of Hfold with foldM add ?es _ = _ =>
    assert (Hun : Forall (fun e => patched e = 0) es)
  end.
  { apply Forall_forall. intros e He. apply list_elem_of_fmap in He as (t & -> & _).
    reflexivity. }
  destruct (writer_unpatched _ Hun _ _ _ _ Hfold) as (_ & _ & ts & Hts & Hall).
  cbn [wtoc app] in Hts. rewrite Hts.
  apply Forall2_fmap_l in Hall.
  apply Forall2_same_length_lookup. split.
  { by apply Forall2_length in Hall. }
  intros i t t' Ht Ht'.
  destruct (Forall2_lookup_lr _ _ _ _ _ _ Hall Ht Ht')
    as (Hnm & Hty & Hul & Hfl & d & Hd & Hstored).
  cbn [l_nm l_typcd l_ulen l_flag pathnm] in *.
  split; [exact Hnm|]. split; [congruence|].
  repeat (split; [assumption|]).
  intros Hpyz.
  assert (Hin : t ∈ toc) by (eapply list_elem_of_lookup_2; eauto).
  destruct (proj1 (Forall_forall _ _) Hdist t Hin) as (Hne1 & Hne2 & Hne3).
  destruct (proj1 (Forall_forall _ _) Hfiles t Hin) as (d' & Hd' & Horig).
  unfold write_file in Hd.
  rewrite !lookup_insert_ne in Hd by congruence.
  rewrite Hd' in Hd. inversion Hd; subst d'.
  specialize (Hstored []). rewrite app_nil_r in Hstored.
  assert (Heq : stored (lib w) 0 t' = stored archive pkg_start t)
    by (rewrite Hstored; symmetry; auto).
  split; [exact Heq|]. unfold entry_payload. by rewrite Heq, Hfl.
Qed.

End RoundTripRun.

(** * The model run on the bundle of [Demo] *)

#[local] Existing Instance Mini.pyinstaller.

(** Evaluate a run and name its end. *)
Ltac evaluate run r :=
  let H := fresh "Hrun" in
  destruct run as [r|?] eqn:H;
  [vm_compute in H; injection H as H; subst r
  |vm_compute in H; discriminate H].

(** C1, as stated, fails on a nested archive.  The PYZ of the bundle
    was written by another Python version, which [checkmagic] accepts
    with a warning; repacking with an empty patch set rewrites it with
    the magic of the running interpreter, and the payload of its entry
    is no longer the original. *)
Lemma roundtrip_changes_nested_archive :
  exists r t',
    repacker "dist/app" ∅ Demo.fs = Ok r
    /\ CArchiveReader Demo.exe = Ok (4, Demo.toc)
    /\ wtoc (end_pkg r) !! 1%nat = Some t'
    /\ entry_payload (lib (end_pkg r)) 0 t'
       <> entry_payload Demo.exe 4 Demo.pyz_entry.
Proof.
  evaluate (repacker "dist/app" ∅ Demo.fs) r.
  eexists. eexists. split; [reflexivity|]. split; [vm_compute; reflexivity|].
  split; [reflexivity|]. vm_compute. intros H. discriminate H.
Qed.

Lemma roundtrip_with_empty_patch_set_witness :
  exists r,
    repacker "dist/app" ∅ Demo.fs = Ok r
    /\ Forall2 (fun t t' =>
                  nm t' = Path.normpath (nm t)
                  /\ (Path.normpath (nm t) = nm t -> nm t' = nm t)
                  /\ typcd t' = typcd t /\ ulen t' = ulen t
                  /\ flag t' = flag t
                  /\ (is_pyz (nm t) (typcd t) = false ->
                      stored (lib (end_pkg r)) 0 t' = stored Demo.exe 4 t
                      /\ entry_payload (lib (end_pkg r)) 0 t'
                         = entry_payload Demo.exe 4 t))
         Demo.toc (wtoc (end_pkg r)).
Proof.
  destruct (repacker "dist/app" ∅ Demo.fs) as [r|e] eqn:Hrun;
    [|vm_compute in Hrun; discriminate Hrun].
  exists r. split; [reflexivity|].
  apply (roundtrip_with_empty_patch_set "dist/app" Demo.fs Demo.exe 4 Demo.toc r).
  - reflexivity.
  - vm_compute. reflexivity.
  - apply (bool_decide_unpack _). vm_compute. exact I.
  - apply (bool_decide_unpack _). vm_compute. exact I.
  - exact Hrun.
Defined.


(** C5, as stated, fails when nothing is replaced: the nested archive
    of the bundle is rewritten, its file no longer holds the extracted
    bytes, and its entry goes to the writer with [patched = 0]. *)
Lemma rewritten_nested_archive_is_not_marked :
  exists r e out,
    repacker "dist/app" ∅ Demo.fs = Ok r
    /\ end_logic_toc r !! 1%nat = Some e
    /\ is_pyz (l_nm e) (l_typcd e) = true
    /\ end_fs r !! pathnm e = Some out
    /\ out <> Demo.inner
    /\ patched e = 0.
Proof.
  evaluate (repacker "dist/app" ∅ Demo.fs) r.
  eexists. eexists. eexists. split; [reflexivity|]. split; [reflexivity|].
  split; [reflexivity|]. split; [vm_compute; reflexivity|].
  split; [vm_compute; intros H; discriminate H|reflexivity].
Qed.

Lemma pyz_entry_patched_counts_updates_witness :
  exists items' fs' lt',
    repacker_step "dist/app" "app_extracted" 4
      ({["foo" := "foo.py"]}, Demo.fs, []) Demo.pyz_entry
    = Ok (items', fs', lt')
    /\ exists n out,
         lt' = [] ++ [LogicEntry n (dlen Demo.pyz_entry) (ulen Demo.pyz_entry)
                        (flag Demo.pyz_entry) (typcd Demo.pyz_entry)
                        (nm Demo.pyz_entry)
                        (Path.join "app_extracted" (nm Demo.pyz_entry))]
         /\ fs' !! Path.join "app_extracted" (nm Demo.pyz_entry) = Some out
         /\ n = matches (step_lookups "dist/app" 4 Demo.fs Demo.pyz_entry)
                  {["foo" := "foo.py"]}
         /\ 0 <= n
         /\ (n = 0 <-> forall name,
                         name ∈ step_lookups "dist/app" 4 Demo.fs Demo.pyz_entry ->
                         ({["foo" := "foo.py"]} : gmap string string) !! name = None).
Proof.
  destruct (repacker_step "dist/app" "app_extracted" 4
              ({["foo" := "foo.py"]}, Demo.fs, []) Demo.pyz_entry)
    as [[[items' fs'] lt']|e] eqn:Hstep; [|vm_compute in Hstep; discriminate Hstep].
  exists items', fs', lt'. split; [reflexivity|].
  apply (pyz_entry_patched_counts_updates "dist/app" "app_extracted" 4
           {["foo" := "foo.py"]} items' Demo.fs fs' [] lt' Demo.pyz_entry).
  - reflexivity.
  - exact Hstep.
Defined.



Lemma unmatched_names_have_no_effect_witness :
  same_outcome (repacker "dist/app" ({["bar" := "bar.py"]} ∪ ∅) Demo.fs)
    (repacker "dist/app" ∅ Demo.fs).
Proof.
  apply (unmatched_names_have_no_effect "dist/app" ∅ {["bar" := "bar.py"]} Demo.fs).
  intros n Hn. rewrite dom_singleton_L in Hn. apply elem_of_singleton in Hn.
  subst n. apply (bool_decide_unpack _). vm_compute. exact I.
Defined.

(** C8, as stated, fails under [-d]: the hook is not installed, and the
    missing bundle ends the process with status 1 without any record
    logged. *)
Lemma debug_run_logs_no_error :
  exists pe e,
    main ["-d"; "dist/none"] Demo.fs = Some pe
    /\ main_body Demo.args_debug Demo.fs = Raise e
    /\ exit_status pe = 1
    /\ error_log pe = []
    /\ tracebacks pe = [e].
Proof.
  eexists. eexists. split; [vm_compute; reflexivity|].
  split; [vm_compute; reflexivity|]. repeat split.
Qed.

Lemma main_exit_status_witness :
  exists pe, main ["dist/none"] Demo.fs = Some pe /\
    match main_body Demo.args_missing Demo.fs with
    | Ok _ => pe = ProcessEnd 0 [] []
    | Raise e =>
        exit_status pe = 1 /\
        if debug Demo.args_missing then error_log pe = [] /\ tracebacks pe = [e]
        else (exists rec, excepthook e = HookExit 1 [rec]
                          /\ error_log pe = [rec] /\ tracebacks pe = [])
             \/ (exists e', excepthook e = HookRaise e'
                            /\ error_log pe = [] /\ tracebacks pe = [e'; e])
    end.
Proof.
  apply (main_exit_status ["dist/none"] Demo.args_missing Demo.fs).
  reflexivity.
Defined.

(** C10, as stated, fails for an entry that comes before the nested
    archive: the name [foo] patches the script of the bundle and then,
    not yet popped, the module of the nested archive as well. *)
Lemma name_applied_to_script_and_module :
  exists r e1 e2 out,
    repacker "dist/app" {["foo" := "foo.py"]} Demo.fs = Ok r
    /\ end_logic_toc r !! 0%nat = Some e1
    /\ end_logic_toc r !! 1%nat = Some e2
    /\ l_nm e1 = "foo" /\ patched e1 = 1 /\ pathnm e1 = "foo.py"
    /\ is_pyz (l_nm e2) (l_typcd e2) = true /\ patched e2 = 1
    /\ end_fs r !! pathnm e2 = Some out
    /\ extract out "foo" = Ok (0, [x62]).
Proof.
  evaluate (repacker "dist/app" {["foo" := "foo.py"]} Demo.fs) r.
  eexists. eexists. eexists. eexists. split; [reflexivity|].
  split; [reflexivity|]. split; [reflexivity|].
  repeat (split; [reflexivity|]).
  vm_compute. reflexivity.
Qed.

Lemma replaced_name_is_not_applied_later_witness :
  exists st1 st2,
    repacker_step "dist/app" "app_extracted" 4
      ({["foo" := "foo.py"]}, Demo.fs, []) Demo.pyz_entry = Ok st1
    /\ foldM (repacker_step "dist/app" "app_extracted" 4) [Demo.script_entry] st1
       = Ok st2
    /\ fst (fst st1) !! "foo" = None
    /\ (forall a t b, [Demo.script_entry] = a ++ t :: b ->
        exists st, foldM (repacker_step "dist/app" "app_extracted" 4) a st1 = Ok st
                   /\ fst (fst st) !! "foo" = None)
    /\ exists es, snd st2 = snd st1 ++ es
                  /\ Forall (fun e => l_nm e = "foo" ->
                                      is_pyz (l_nm e) (l_typcd e) = false ->
                                      patched e = 0
                                      /\ pathnm e = Path.join "app_extracted" "foo") es.
Proof.
  destruct (repacker_step "dist/app" "app_extracted" 4
              ({["foo" := "foo.py"]}, Demo.fs, []) Demo.pyz_entry)
    as [st1|e] eqn:Hstep; [|vm_compute in Hstep; discriminate Hstep].
  destruct (foldM (repacker_step "dist/app" "app_extracted" 4) [Demo.script_entry] st1)
    as [st2|e] eqn:Hpost.
  - exists st1, st2. split; [reflexivity|]. split; [exact Hpost|].
    apply (replaced_name_is_not_applied_later "dist/app" "app_extracted" 4 "foo"
             {["foo" := "foo.py"]} Demo.fs [] Demo.pyz_entry [Demo.script_entry]
             st1 st2).
    + reflexivity.
    + apply (bool_decide_unpack _). vm_compute. exact I.
    + exact Hstep.
    + exact Hpost.
  - vm_compute in Hstep. injection Hstep as Hstep. subst st1.
    vm_compute in Hpost. discriminate Hpost.
Defined.

(** * Further properties of the code *)

(** ** The top level with replacement files *)

Section TopLevelFiles.

Context `{PI : PyInstaller}.

(** X1: a command line with a replacement file never reaches
    [repacker].  The resolver returned [None], [items.keys()] raises
    [AttributeError], and the process ends with status 1 whatever the
    bundle and the files are: with [-d] the interpreter prints the
    traceback; without it the hook raises [TypeError] on the message of
    the exception, nothing is logged and both tracebacks are printed. *)
Theorem main_with_files_exits_1 (argv : list string) (args : Namespace)
    (f : string) (fs : FS) :
  Argparse.parse_args argv = Parsed args ->
  files args = Some f ->
  main argv fs
  = Some (if debug args
          then ProcessEnd 1 [] [AttributeError_keys]
          else ProcessEnd 1 [] [TypeError_isinstance; AttributeError_keys]).
Proof.
  intros Hparse Hfiles. unfold main. rewrite Hparse.
  rewrite (main_body_with_files args f fs Hfiles).
  destruct (debug args); reflexivity.
Qed.

(** X2: without [-d], a failure whose exception carries a message or
    an errno as its first argument is not logged: the hook raises
    [TypeError] before it calls [logger.error], the process ends with
    status 1 and the interpreter prints both tracebacks. *)
Theorem failure_with_message_is_not_logged (argv : list string) (args : Namespace)
    (fs : FS) (e : exn) (type : string) (rest : list pyval) (a0 : pyval) :
  Argparse.parse_args argv = Parsed args ->
  debug args = false ->
  main_body args fs = Raise e ->
  e = Exn type (a0 :: rest) ->
  (exists msg, a0 = VStr msg) \/ (exists errno, a0 = VInt errno) ->
  main argv fs = Some (ProcessEnd 1 [] [TypeError_isinstance; e]).
Proof.
  intros Hparse Hdebug Hbody -> Ha0. unfold main. rewrite Hparse, Hdebug, Hbody.
  destruct Ha0 as [[msg ->]|[errno ->]]; reflexivity.
Qed.

End TopLevelFiles.

(** ** The header of the nested archive *)

Section Header.

Context `{PI : PyInstaller}.

Lemma read_prefix (a rest : bytes) :
  File.read (File.Handle (a ++ rest) 0) (blen a)
  = Ok (a, File.Handle (a ++ rest) (length a)).
Proof.
  rewrite read_ok by (unfold blen; lia).
  unfold File.chunk, blen. cbn [File.content File.pos].
  replace (Z.of_nat (length a) <? 0) with false
    by (symmetry; apply Z.ltb_ge; lia).
  rewrite drop_0, Nat2Z.id, take_app_length. reflexivity.
Qed.

Lemma read_second (a b rest : bytes) :
  exists h,
    File.read (File.Handle (a ++ b ++ rest) (length a)) (blen b) = Ok (b, h).
Proof.
  rewrite read_ok by (unfold blen; lia).
  unfold File.chunk, blen. cbn [File.content File.pos].
  replace (Z.of_nat (length b) <? 0) with false
    by (symmetry; apply Z.ltb_ge; lia).
  rewrite drop_app_length, Nat2Z.id, take_app_length. eauto.
Qed.

(** X3: a nested archive written by another Python version is read
    all the same.  When the file starts with [MAGIC] followed by as many
    bytes as [pymagic] has, [checkmagic] does not raise: it prints the
    warning when those bytes differ from [pymagic] and nothing when they
    agree, and [ZlibArchive] goes on to load the table either way. *)
Theorem version_mismatch_is_not_fatal (v rest : bytes) :
  length v = length pymagic ->
  checkmagic (MAGIC ++ v ++ rest)
  = Ok (if decide (v = pymagic) then []
        else ["Warning: pyz is from a different Python version"])
  /\ ZlibArchive (MAGIC ++ v ++ rest) = loadtoc (MAGIC ++ v ++ rest).
Proof.
  intros Hlen.
  assert (Hcheck : checkmagic (MAGIC ++ v ++ rest)
                   = Ok (if decide (v = pymagic) then []
                         else ["Warning: pyz is from a different Python version"])).
  { unfold checkmagic. rewrite read_prefix. cbn [mbind result_bind bind].
    destruct (decide (MAGIC = MAGIC)) as [_|Hne]; [|congruence].
    destruct (read_second MAGIC v rest) as (h & Hv).
    unfold blen in *. rewrite <- Hlen, Hv. cbn [mbind result_bind bind].
    rewrite read_ok by lia. destruct (File.chunk h 4). reflexivity. }
  split; [exact Hcheck|]. unfold ZlibArchive. rewrite Hcheck. reflexivity.
Qed.

(** X4: a file that does not start with [MAGIC] is refused with
    [RuntimeError], before the table is looked at. *)
Theorem wrong_magic_is_refused (data : bytes) :
  take (length MAGIC) data <> MAGIC ->
  checkmagic data = Raise RuntimeError_archive
  /\ ZlibArchive data = Raise RuntimeError_archive.
Proof.
  intros Hne.
  assert (Hcheck : checkmagic data = Raise RuntimeError_archive).
  { unfold checkmagic. rewrite read_ok by (unfold blen; lia).
    unfold File.chunk, blen.
    cbn [mbind result_bind bind File.content File.pos].
    replace (Z.of_nat (length MAGIC) <? 0) with false
      by (symmetry; apply Z.ltb_ge; lia).
    rewrite drop_0, Nat2Z.id.
    destruct (decide (take (length MAGIC) data = MAGIC)); [contradiction|].
    reflexivity. }
  split; [exact Hcheck|]. unfold ZlibArchive. rewrite Hcheck. reflexivity.
Qed.

End Header.

(** ** The trailer and the splice, at the edges *)

Section SpliceEdges.

Context `{PI : PyInstaller}.

(** X5: [get_carchive_info] needs the 88 bytes of the cookie: on a
    shorter file the seek to [size - 88] is refused. *)
Theorem get_carchive_info_short_file (filepath : string) (fs : FS) (data : bytes) :
  fs !! filepath = Some data ->
  (length data < 88)%nat ->
  get_carchive_info filepath fs = Raise OSError_EINVAL.
Proof.
  intros Hdata Hlen. unfold get_carchive_info.
  rewrite (bind_of_ok _ _ data) by (by apply read_file_ok).
  unfold File.seek, PYINST_COOKIE_SIZE, blen.
  replace (Z.of_nat (length data) - (24 + 64) <? 0) with true
    by (symmetry; apply Z.ltb_lt; lia).
  reflexivity.
Qed.

(** X6: the magic of the cookie is never looked at.  For a file that
    ends with eight bytes of any content followed by the eighty other
    bytes of a cookie, the package start is the size of the file minus
    the integer held by the first four of those eighty bytes, and the
    library name is decoded from the last sixty-four. *)
Theorem get_carchive_info_ignores_magic (filepath : string) (fs : FS)
    (before m rest : bytes) :
  fs !! filepath = Some (before ++ m ++ rest) ->
  length m = 8%nat ->
  length rest = 80%nat ->
  get_carchive_info filepath fs
  = name ← decode (take 64 (drop 16 rest));
    Ok (blen before + 88 - Struct.be_int32 (take 4 rest), name).
Proof.
  intros Hdata Hm Hrest. unfold get_carchive_info.
  rewrite (bind_of_ok _ _ (before ++ m ++ rest)) by (by apply read_file_ok).
  unfold File.seek, PYINST_COOKIE_SIZE, blen. rewrite !length_app, Hm, Hrest.
  replace (Z.of_nat (length before + (8 + 80)) - (24 + 64) <? 0) with false
    by (symmetry; apply Z.ltb_ge; lia).
  cbn [mbind result_bind bind File.content]. rewrite read_ok by lia.
  unfold File.chunk. cbn [mbind result_bind bind File.content File.pos].
  replace (Z.to_nat (Z.of_nat (length before + (8 + 80)) - (24 + 64)))
    with (length before) by lia.
  replace (24 + 64 <? 0) with false by reflexivity.
  rewrite drop_app_length.
  rewrite take_ge by (rewrite length_app; lia).
  unfold Struct.unpack_cookie. rewrite length_app, Hm, Hrest.
  cbn [Nat.eqb Nat.add mbind result_bind bind Struct.lengthofPackage Struct.pylibname].
  replace (skipn 8 (m ++ rest)) with rest
    by (symmetry; apply drop_app_length'; lia).
  replace (skipn 24 (m ++ rest)) with (drop 16 rest).
  2:{ change 24%nat with (8 + 16)%nat. rewrite <- drop_drop.
      f_equal. symmetry. apply drop_app_length'. lia. }
  destruct (decode (take 64 (drop 16 rest))) as [name|e]; [|reflexivity].
  cbn [mbind result_bind bind]. do 2 f_equal. lia.
Qed.

(** A negative package start is refused by the seek. *)
Lemma update_patched_pkg_negative (output pkgname : string) (fs : FS)
    (exe : bytes) (offset : Z) :
  fs !! output = Some exe ->
  offset < 0 ->
  update_patched_pkg output pkgname offset fs = Raise OSError_EINVAL.
Proof.
  intros Hexe Hneg. unfold update_patched_pkg.
  rewrite (bind_of_ok _ _ exe) by (by apply read_file_ok).
  unfold File.seek. replace (offset <? 0) with true
    by (symmetry; apply Z.ltb_lt; lia).
  reflexivity.
Qed.

(** X7: the splice at the edges.  A negative package start is refused
    by the seek, and nothing is written.  A package start past the end
    of the output keeps every byte of the output, fills the gap with
    zero bytes and puts the package behind it. *)
Theorem update_patched_pkg_edges (output pkgname : string) (fs : FS)
    (exe pkg : bytes) (offset : Z) :
  fs !! output = Some exe ->
  fs !! pkgname = Some pkg ->
  (offset < 0 ->
   update_patched_pkg output pkgname offset fs = Raise OSError_EINVAL)
  /\ (blen exe <= offset ->
      update_patched_pkg output pkgname offset fs
      = Ok (<[output := exe ++ List.repeat x00 (Z.to_nat offset - length exe)
                          ++ pkg]> fs)).
Proof.
  intros Hexe Hpkg. split.
  - intros Hneg. by apply (update_patched_pkg_negative _ _ _ exe).
  - intros Hpast. unfold blen in Hpast.
    rewrite (update_patched_pkg_content _ _ _ _ exe pkg) by (auto; lia).
    rewrite take_ge by lia. reflexivity.
Qed.

(** What [CArchiveWriter2] leaves off macOS: the package file and
    nothing else. *)
Lemma CArchiveWriter2_files (pkgname : string) (logic_toc : list logic_entry)
    (pylib_name : string) (fs fs' : FS) (w : writer) :
  is_darwin = false ->
  CArchiveWriter2 pkgname logic_toc pylib_name fs = Ok (w, fs') ->
  fs' = <[pkgname := package w pylib_name]> fs.
Proof.
  intros Hd H. unfold CArchiveWriter2 in H.
  bind_split H as wf Hfold. destruct wf as [w' fs1]. inversion H; subst.
  apply foldM_add_keeps_fs in Hfold; [|exact Hd]. subst fs1.
  unfold write_file. apply insert_insert_eq.
Qed.

(** X8: off Linux and macOS, a successful [repack_exe] changes two
    files and starts no command: the intermediate package file holds
    the package the writer built, and the output holds its own bytes up
    to the package start, zero bytes if the start was past its end, and
    then that package. *)
Theorem repack_exe_splices_package (path output : string)
    (logic_toc : list logic_entry) (fs fs' : FS) (exe : bytes) (w : writer)
    (spawned : list (list string)) :
  is_linux = false ->
  is_darwin = false ->
  output <> Path.join path "PKG-patched" ->
  fs !! output = Some exe ->
  repack_exe path output logic_toc fs = Ok (w, fs', spawned) ->
  exists offset name,
    get_carchive_info output fs = Ok (offset, name)
    /\ 0 <= offset
    /\ spawned = []
    /\ fs' = <[output := take (Z.to_nat offset) exe
                           ++ List.repeat x00 (Z.to_nat offset - length exe)
                           ++ package w name]>
               (<[Path.join path "PKG-patched" := package w name]> fs).
Proof.
  intros Hlinux Hdarwin Hne Hexe H. unfold repack_exe in H.
  rewrite Hlinux, Hdarwin in H.
  bind_split H as info Hinfo. destruct info as [offset name].
  bind_split H as wf Hw. destruct wf as [w' fs1].
  apply CArchiveWriter2_files in Hw; [|exact Hdarwin]. subst fs1.
  bind_split H as fsp Hsplice. destruct fsp as [fs2 sp].
  bind_split Hsplice as fs3 Hupd. inversion Hsplice; subst fs3 sp. clear Hsplice.
  cbn [mbind result_bind bind] in H. inversion H; subst w' fs2 spawned. clear H.
  exists offset, name. split; [exact Hinfo|].
  assert (Hoff : 0 <= offset).
  { destruct (Z.ltb_spec offset 0) as [Hneg|Hpos]; [|exact Hpos].
    rewrite (update_patched_pkg_negative _ _ _ exe) in Hupd.
    - discriminate Hupd.
    - by rewrite lookup_insert_ne by congruence.
    - exact Hneg. }
  split; [exact Hoff|]. split; [reflexivity|].
  rewrite (update_patched_pkg_content _ _ _ _ exe (package w name)) in Hupd.
  - by inversion Hupd.
  - by rewrite lookup_insert_ne by congruence.
  - apply lookup_insert_eq.
  - exact Hoff.
Qed.

(** X9: on Linux [repack_exe] does not splice.  It writes the
    intermediate package file, starts [objcopy --update-section] on the
    output without waiting for it, and leaves every other file, the
    output included, as it was. *)
Theorem repack_exe_on_linux (path output : string) (logic_toc : list logic_entry)
    (fs fs' : FS) (w : writer) (spawned : list (list string)) :
  is_linux = true ->
  is_darwin = false ->
  repack_exe path output logic_toc fs = Ok (w, fs', spawned) ->
  exists offset name,
    get_carchive_info output fs = Ok (offset, name)
    /\ spawned = [["objcopy"; "--update-section";
                   "pydata=" +:+ Path.join path "PKG-patched"; output]]
    /\ fs' = <[Path.join path "PKG-patched" := package w name]> fs.
Proof.
  intros Hlinux Hdarwin H. unfold repack_exe in H. rewrite Hlinux, Hdarwin in H.
  bind_split H as info Hinfo. destruct info as [offset name].
  bind_split H as wf Hw. destruct wf as [w' fs1].
  apply CArchiveWriter2_files in Hw; [|exact Hdarwin]. subst fs1.
  cbn [mbind result_bind bind] in H. inversion H; subst.
  exists offset, name. auto.
Qed.

End SpliceEdges.

(** ** The table the writer builds *)

Section WriterTable.

Context `{PI : PyInstaller}.

(** What [add] does to the writer, whatever the entry: it appends
    some bytes and records one entry that starts at the old end of the
    data, is as long as those bytes and bears the flag, the type code
    and the normalised name of the logical entry. *)
Lemma add_entry_shape (w w' : writer) (fs fs' : FS) (entry : logic_entry) :
  add (w, fs) entry = Ok (w', fs') ->
  exists d ul,
    lib w' = lib w ++ d
    /\ wtoc w' = wtoc w ++ [TocEntry (blen (lib w)) (blen d) ul (l_flag entry)
                              (l_typcd entry) (Path.normpath (l_nm entry))].
Proof.
  intros H. unfold add in H.
  bind_split H as fs1 Hfs1. bind_split H as filedata0 Hfile.
  bind_split H as fu Hfu. destruct fu as [filedata ul].
  inversion H; subst w' fs'. cbn [lib wtoc].
  destruct ((l_flag entry =? 1) && truthy (patched entry)).
  - exists (zlib_compress LEVEL filedata), ul. split; [reflexivity|].
    do 3 f_equal. unfold blen. rewrite length_app. lia.
  - exists filedata, ul. split; [reflexivity|].
    do 3 f_equal. unfold blen. rewrite length_app. lia.
Qed.

Lemma foldM_add_table (es : list logic_entry) :
  forall w fs w' fs',
    foldM add es (w, fs) = Ok (w', fs') ->
    exists ts,
      wtoc w' = wtoc w ++ ts
      /\ map nm ts = map (fun e => Path.normpath (l_nm e)) es
      /\ map typcd ts = map l_typcd es
      /\ map flag ts = map l_flag es
      /\ tiles (blen (lib w)) ts (blen (lib w')).
Proof.
  induction es as [|e es IH]; intros w fs w' fs' H.
  - inversion H; subst. exists []. rewrite app_nil_r. repeat split.
  - cbn [foldM] in H. bind_split H as st1 Hadd. destruct st1 as [w1 fs1].
    destruct (add_entry_shape _ _ _ _ _ Hadd) as (d & ul & Hlib & Htoc).
    destruct (IH _ _ _ _ H) as (ts & Hts & Hnm & Hty & Hfl & Htiles).
    eexists (_ :: ts). split; [by rewrite Hts, Htoc, <- app_assoc|].
    cbn [map nm typcd flag]. rewrite Hnm, Hty, Hfl.
    split; [reflexivity|]. split; [reflexivity|]. split; [reflexivity|].
    cbn [tiles dpos dlen]. split; [reflexivity|]. split; [unfold blen; lia|].
    replace (blen (lib w) + blen d) with (blen (lib w1)); [exact Htiles|].
    rewrite Hlib. unfold blen. rewrite length_app. lia.
Qed.

(** X10: the table of a package the writer has built has one entry
    per logical entry, in the same order, with the same type codes and
    flags and with the normalised names, and its data blocks tile the
    data region: the first starts at 0, each starts where the one before
    ends, and the last ends where the data ends. *)
Theorem writer_table_tiles_package (pkgname : string) (logic_toc : list logic_entry)
    (pylib_name : string) (fs fs' : FS) (w : writer) :
  CArchiveWriter2 pkgname logic_toc pylib_name fs = Ok (w, fs') ->
  map nm (wtoc w) = map (fun e => Path.normpath (l_nm e)) logic_toc
  /\ map typcd (wtoc w) = map l_typcd logic_toc
  /\ map flag (wtoc w) = map l_flag logic_toc
  /\ tiles 0 (wtoc w) (blen (lib w)).
Proof.
  intros H. unfold CArchiveWriter2 in H.
  bind_split H as wf Hfold. destruct wf as [w' fs1]. inversion H; subst w' fs'.
  destruct (foldM_add_table _ _ _ _ _ Hfold) as (ts & Hts & Hnm & Hty & Hfl & Htiles).
  cbn [wtoc lib app] in Hts, Htiles. subst ts. auto.
Qed.

(** Blocks that tile a region lie inside it. *)
Lemma tiles_within (ts : list toc_entry) :
  forall start stop t,
    tiles start ts stop -> t ∈ ts ->
    start <= dpos t /\ 0 <= dlen t /\ dpos t + dlen t <= stop.
Proof.
  induction ts as [|t0 ts IH]; intros start stop t Ht Hin; [inversion Hin|].
  cbn [tiles] in Ht. destruct Ht as (Hpos & Hlen & Hrest).
  assert (Hend : forall l s e, tiles s l e -> s <= e).
  { clear. induction l as [|x l IHl]; intros s e H; cbn [tiles] in H; [lia|].
    destruct H as (_ & Hx & Hl). apply IHl in Hl. lia. }
  apply elem_of_cons in Hin as [->|Hin].
  - apply Hend in Hrest. lia.
  - destruct (IH _ _ _ Hrest Hin) as (H1 & H2 & H3). lia.
Qed.

(** X11: every entry of a built package lies within the data: its
    offset is not negative, its length is not negative, and offset plus
    length does not pass the end of the data blocks. *)
Theorem writer_entries_within_data (pkgname : string) (logic_toc : list logic_entry)
    (pylib_name : string) (fs fs' : FS) (w : writer) (t : toc_entry) :
  CArchiveWriter2 pkgname logic_toc pylib_name fs = Ok (w, fs') ->
  t ∈ wtoc w ->
  0 <= dpos t /\ 0 <= dlen t /\ dpos t + dlen t <= blen (lib w).
Proof.
  intros H Hin. unfold CArchiveWriter2 in H.
  bind_split H as wf Hfold. destruct wf as [w' fs1]. inversion H; subst w' fs'.
  destruct (foldM_add_table _ _ _ _ _ Hfold) as (ts & Hts & _ & _ & _ & Htiles).
  cbn [wtoc lib app] in Hts, Htiles. subst ts.
  exact (tiles_within _ _ _ _ Htiles Hin).
Qed.

(** A file that does not exist is not created by [add]. *)
Lemma add_keeps_missing (w w' : writer) (fs fs' : FS) (entry : logic_entry)
    (q : string) :
  add (w, fs) entry = Ok (w', fs') ->
  fs !! q = None -> fs' !! q = None.
Proof.
  intros H Hq. unfold add in H.
  bind_split H as fs1 Hfs1. bind_split H as filedata0 Hfile.
  bind_split H as fu Hfu. destruct fu as [filedata ul].
  inversion H; subst w' fs'. clear H.
  destruct (is_darwin && truthy (patched entry) && String.eqb (l_typcd entry) "b").
  - bind_split Hfs1 as data Hdata. bind_split Hfs1 as data' Hmac.
    inversion Hfs1; subst fs1. apply read_file_ok in Hdata.
    unfold write_file. rewrite lookup_insert_ne; [exact Hq|congruence].
  - inversion Hfs1; subst. exact Hq.
Qed.

Lemma add_reads_file (w w' : writer) (fs fs' : FS) (entry : logic_entry) :
  add (w, fs) entry = Ok (w', fs') -> is_Some (fs !! pathnm entry).
Proof.
  intros H. destruct (fs !! pathnm entry) as [d|] eqn:Hq; [eauto|].
  pose proof (add_keeps_missing _ _ _ _ _ _ H Hq) as Hq'.
  unfold add in H.
  bind_split H as fs1 Hfs1. bind_split H as filedata0 Hfile.
  bind_split H as fu Hfu. destruct fu as [filedata ul].
  inversion H; subst w' fs'. apply read_file_ok in Hfile. congruence.
Qed.

Lemma foldM_add_reads_files (es : list logic_entry) :
  forall w fs w' fs',
    foldM add es (w, fs) = Ok (w', fs') ->
    forall e, e ∈ es -> is_Some (fs !! pathnm e).
Proof.
  induction es as [|e0 es IH]; intros w fs w' fs' H e Hin; [inversion Hin|].
  cbn [foldM] in H. bind_split H as st1 Hadd. destruct st1 as [w1 fs1].
  apply elem_of_cons in Hin as [->|Hin].
  - exact (add_reads_file _ _ _ _ _ Hadd).
  - destruct (fs !! pathnm e) as [d|] eqn:Hq; [eauto|].
    pose proof (add_keeps_missing _ _ _ _ _ _ Hadd Hq) as Hq1.
    destruct (IH _ _ _ _ H e Hin) as [d Hd]. congruence.
Qed.

(** X12: a package is built only from files that exist.  When the
    writer succeeds, the file of every logical entry was there before
    it started, unless it is the package file itself, which the writer
    creates empty first.  A replacement path that is missing therefore
    makes the writer, and the run, fail. *)
Theorem writer_needs_every_file (pkgname : string) (logic_toc : list logic_entry)
    (pylib_name : string) (fs fs' : FS) (w : writer) (e : logic_entry) :
  CArchiveWriter2 pkgname logic_toc pylib_name fs = Ok (w, fs') ->
  e ∈ logic_toc ->
  pathnm e <> pkgname ->
  is_Some (fs !! pathnm e).
Proof.
  intros H Hin Hne. unfold CArchiveWriter2 in H.
  bind_split H as wf Hfold. destruct wf as [w' fs1].
  destruct (foldM_add_reads_files _ _ _ _ _ Hfold e Hin) as [d Hd].
  unfold write_file in Hd. rewrite lookup_insert_ne in Hd by congruence. eauto.
Qed.

End WriterTable.

(** ** What the rewritten nested archive holds *)

Section InnerContent.

Context `{PI : PyInstaller}.

(** The code the loop of [repack_pyz] stores for a name: the code
    compiled from the text of the replacement file when the name is in
    [items], the object extracted from the archive otherwise. *)
Local Abbreviation code_for data fs items name code :=
  (exists typ obj,
     extract data name = Ok (typ, obj)
     /\ match items !! name with
        | Some pyfile =>
            exists src text,
              fs !! pyfile = Some src
              /\ read_text src = Ok text
              /\ compile_text text ("<" +:+ name +:+ ">") = Ok code
        | None => code = obj
        end).

Lemma repack_pyz_step_code (data : bytes) (fs : FS) (st st' : pyz_loop)
    (name : string) :
  repack_pyz_step data fs st name = Ok st' ->
  exists code pathname,
    code_for data fs (pyz_items st) name code
    /\ code_dict st' = <[name := code]> (code_dict st)
    /\ pyz_toc st' = pyz_toc st ++ [(name, pathname, "PYMODULE")].
Proof.
  intros H. unfold repack_pyz_step in H.
  bind_split H as to Hextract. destruct to as [typ obj].
  bind_split H as cin Hcode. destruct cin as [[code items1] n1].
  inversion H; subst st'. cbn [code_dict pyz_toc].
  exists code. eexists. split; [|split; reflexivity].
  exists typ, obj. split; [exact Hextract|].
  destruct (pyz_items st !! name) as [pyfile|].
  - bind_split Hcode as src Hsrc. bind_split Hcode as text Htext.
    bind_split Hcode as code' Hcompile. inversion Hcode; subst.
    exists src, text. split; [by apply read_file_ok|]. split; assumption.
  - by inversion Hcode.
Qed.

Lemma repack_pyz_loop_code (data : bytes) (fs : FS) (names : list string) :
  NoDup names ->
  forall st st',
    foldM (repack_pyz_step data fs) names st = Ok st' ->
    map (fun e => fst (fst e)) (pyz_toc st')
    = map (fun e => fst (fst e)) (pyz_toc st) ++ names
    /\ (forall k, k ∉ names -> code_dict st' !! k = code_dict st !! k)
    /\ (forall name, name ∈ names ->
        exists code, code_dict st' !! name = Some code
                     /\ code_for data fs (pyz_items st) name code)
    /\ updated st'
       = updated st
         + Z.of_nat (length (List.filter
                               (fun k => bool_decide (is_Some (pyz_items st !! k)))
                               names)).
Proof.
  induction 1 as [|name names Hnotin Hnd IH]; intros st st' H.
  - inversion H; subst. rewrite app_nil_r. split; [reflexivity|].
    split; [auto|]. split; [intros k Hk; inversion Hk|]. cbn. lia.
  - cbn [foldM] in H. bind_split H as st1 Hstep.
    destruct (repack_pyz_step_code _ _ _ _ _ Hstep)
      as (code & pathname & Hcode & Hdict & Htoc).
    pose proof (repack_pyz_step_items _ _ _ _ _ Hstep) as Hitems.
    destruct (IH _ _ H) as (Hnames & Hframe & Hall & Hcount).
    assert (Hother : forall k, k <> name ->
              pyz_items st1 !! k = pyz_items st !! k).
    { intros k Hk. destruct (pyz_items st !! name);
        destruct Hitems as [-> _]; [by rewrite lookup_delete_ne|reflexivity]. }
    split; [|split; [|split]].
    + rewrite Hnames, Htoc, map_app. cbn [map fst]. by rewrite <- app_assoc.
    + intros k Hk. apply not_elem_of_cons in Hk as [Hne Hk].
      rewrite Hframe by exact Hk. rewrite Hdict. by rewrite lookup_insert_ne.
    + intros k Hk. apply elem_of_cons in Hk as [->|Hk].
      * exists code. split; [|exact Hcode].
        rewrite Hframe by exact Hnotin. rewrite Hdict. apply lookup_insert_eq.
      * destruct (Hall k Hk) as (c & Hc & typ & obj & Hex & Hmatch).
        exists c. split; [exact Hc|]. exists typ, obj. split; [exact Hex|].
        rewrite <- Hother; [exact Hmatch|]. intros ->. contradiction.
    + rewrite Hcount. cbn [List.filter].
      assert (Hfilter : List.filter
                (fun k => bool_decide (is_Some (pyz_items st1 !! k))) names
              = List.filter
                  (fun k => bool_decide (is_Some (pyz_items st !! k))) names).
      { apply List.filter_ext_in. intros k Hk. apply list_elem_of_In in Hk.
        rewrite Hother; [reflexivity|]. intros ->. contradiction. }
      rewrite Hfilter.
      destruct (pyz_items st !! name) as [pyfile|]; destruct Hitems as [_ ->].
      * rewrite bool_decide_eq_true_2 by eauto. cbn [length]. lia.
      * rewrite bool_decide_eq_false_2 by (intros [? ?]; discriminate). lia.
Qed.

(** X13: what goes into the rewritten nested archive.  When
    [repack_pyz] succeeds on an archive whose names are distinct, the
    inner writer is called once, with the names of the archive in their
    order and with a code dictionary that holds exactly those names:
    for a name in the patch set the code compiled from the text of its
    replacement file, read in text mode, for every other name the
    object extracted from the archive.  Its output replaces the file. *)
Theorem repack_pyz_keeps_siblings (pyz : string) (items items' : gmap string string)
    (fs fs' : FS) (n : Z) (data : bytes) (names : list string) :
  fs !! pyz = Some data ->
  ZlibArchive data = Ok names ->
  NoDup names ->
  repack_pyz pyz items fs = Ok (n, items', fs') ->
  exists toc dict out,
    ZlibArchiveWriter toc dict = Ok out
    /\ fs' = <[pyz := out]> fs
    /\ map (fun e => fst (fst e)) toc = names
    /\ (forall k, k ∉ names -> dict !! k = None)
    /\ forall name, name ∈ names ->
         exists code, dict !! name = Some code
                      /\ code_for data fs items name code.
Proof.
  intros Hdata Hnames Hnd H. unfold repack_pyz in H.
  rewrite (bind_of_ok _ _ data) in H by (by apply read_file_ok).
  rewrite (bind_of_ok _ _ names) in H by exact Hnames.
  bind_split H as st Hloop. bind_split H as out Hout. inversion H; subst.
  destruct (repack_pyz_loop_code data fs names Hnd _ _ Hloop)
    as (Htoc & Hframe & Hall & _).
  cbn [pyz_toc code_dict pyz_items map app] in *.
  exists (pyz_toc st), (code_dict st), out.
  split; [exact Hout|]. split; [reflexivity|]. split; [exact Htoc|].
  split; [|exact Hall]. intros k Hk. rewrite Hframe by exact Hk. apply lookup_empty.
Qed.

(** X14: the number [repack_pyz] returns.  On an archive whose names
    are distinct it is the number of names of the archive that are in
    the patch set. *)
Theorem repack_pyz_counts_matches (pyz : string) (items items' : gmap string string)
    (fs fs' : FS) (n : Z) (data : bytes) (names : list string) :
  fs !! pyz = Some data ->
  ZlibArchive data = Ok names ->
  NoDup names ->
  repack_pyz pyz items fs = Ok (n, items', fs') ->
  n = Z.of_nat (length (List.filter
                          (fun k => bool_decide (is_Some (items !! k))) names)).
Proof.
  intros Hdata Hnames Hnd H. unfold repack_pyz in H.
  rewrite (bind_of_ok _ _ data) in H by (by apply read_file_ok).
  rewrite (bind_of_ok _ _ names) in H by exact Hnames.
  bind_split H as st Hloop. bind_split H as out Hout. inversion H; subst.
  destruct (repack_pyz_loop_code data fs names Hnd _ _ Hloop) as (_ & _ & _ & Hcount).
  cbn [updated pyz_items] in Hcount. lia.
Qed.

End InnerContent.

(** ** The annotated table and the patch set, for any patch set *)

Section AnyPatchSet.

Context `{PI : PyInstaller}.

Variables (executable path : string) (pkg_start : Z).

(** One round leaves in [items] only what was there, with the same
    replacement paths. *)
Lemma repacker_step_subseteq (items items' : gmap string string) (fs fs' : FS)
    (lt lt' : list logic_entry) (toc : toc_entry) :
  repacker_step executable path pkg_start (items, fs, lt) toc
  = Ok (items', fs', lt') ->
  items' ⊆ items.
Proof.
  intros H.
  destruct (repacker_step_ok _ _ _ _ _ _ _ _ _ _ H) as (archive & data & _ & _ & Hrest).
  destruct (is_pyz (nm toc) (typcd toc)).
  - destruct Hrest as (n & Hrepack & _).
    destruct (repack_pyz_ok _ _ _ _ _ _ Hrepack)
      as (data' & names & out & _ & _ & _ & _ & _ & _ & Hgone & Hframe).
    apply map_subseteq_spec. intros k v Hk.
    destruct (decide (k ∈ names)) as [Hin|Hout].
    + rewrite Hgone in Hk by exact Hin. discriminate Hk.
    + by rewrite <- Hframe.
  - by destruct Hrest as (-> & _).
Qed.

(** A round appends one entry whose lengths, flag, type code and name
    are those of the entry of the archive.  It is marked 0 or 1 when it
    is not a nested archive, and an entry that is marked is read from
    the path that [items] gives to its name. *)
Local Abbreviation mirrors items t e :=
  (l_nm e = nm t /\ l_typcd e = typcd t /\ l_flag e = flag t
   /\ l_dlen e = dlen t /\ l_ulen e = ulen t
   /\ (is_pyz (nm t) (typcd t) = true -> pathnm e = Path.join path (nm t))
   /\ (is_pyz (nm t) (typcd t) = false ->
       (patched e = 0 /\ pathnm e = Path.join path (nm t))
       \/ (patched e = 1 /\ items !! nm t = Some (pathnm e)))).

Lemma repacker_loop_mirrors (tocs : list toc_entry) (items0 : gmap string string) :
  forall items fs lt items' fs' lt',
    items ⊆ items0 ->
    foldM (repacker_step executable path pkg_start) tocs (items, fs, lt)
    = Ok (items', fs', lt') ->
    items' ⊆ items
    /\ exists es, lt' = lt ++ es /\ Forall2 (fun t e => mirrors items0 t e) tocs es.
Proof.
  induction tocs as [|t tocs IH]; intros items fs lt items' fs' lt' Hsub H.
  - inversion H; subst. split; [reflexivity|]. exists [].
    split; [by rewrite app_nil_r|constructor].
  - cbn [foldM] in H. bind_split H as st1 Hstep.
    destruct st1 as [[items1 fs1] lt1].
    pose proof (repacker_step_subseteq _ _ _ _ _ _ _ Hstep) as Hsub1.
    destruct (IH items1 fs1 lt1 items' fs' lt') as (Hsub2 & es & -> & Hall);
      [by etrans|exact H|].
    split; [by etrans|].
    destruct (repacker_step_ok _ _ _ _ _ _ _ _ _ _ Hstep)
      as (archive & data & _ & _ & Hrest).
    destruct (is_pyz (nm t) (typcd t)) eqn:Hpyz.
    + destruct Hrest as (n & _ & ->). eexists (_ :: es).
      split; [by rewrite <- app_assoc|]. constructor; [|exact Hall].
      cbn [l_nm l_typcd l_flag l_dlen l_ulen pathnm patched].
      rewrite Hpyz. do 5 (split; [reflexivity|]). split; [auto|discriminate].
    + destruct Hrest as (-> & _ & ->). eexists (_ :: es).
      split; [by rewrite <- app_assoc|]. constructor; [|exact Hall].
      rewrite Hpyz.
      destruct (items !! nm t) as [p|] eqn:Hp;
        cbn [l_nm l_typcd l_flag l_dlen l_ulen pathnm patched];
        do 5 (split; [reflexivity|]); (split; [discriminate|]); intros _.
      * right. split; [reflexivity|].
        eapply lookup_weaken; [exact Hp|exact Hsub].
      * left. auto.
Qed.

End AnyPatchSet.

Section AnyPatchSetRun.

Context `{PI : PyInstaller}.

(** X15: a run never adds to the patch set and never changes a
    replacement path: the dictionary left at the end is contained in
    the one the run was given. *)
Theorem repacker_items_shrink (executable : string) (items : gmap string string)
    (fs : FS) (r : run_end) :
  repacker executable items fs = Ok r ->
  end_items r ⊆ items.
Proof.
  intros H. unfold repacker in H.
  destruct (Path.splitext (Path.basename executable)) as [name ext0].
  bind_split H as archive Harch. bind_split H as pt Hread.
  destruct pt as [pkg_start toc].
  bind_split H as st Hloop. destruct st as [[items1 fs1] lt1].
  bind_split H as archive' Harch'. bind_split H as re Hexe.
  destruct re as [[w fs2] sp]. inversion H; subst r. cbn [end_items].
  by destruct (repacker_loop_mirrors _ _ _ toc items items fs [] items1 fs1 lt1
                 (reflexivity _) Hloop) as [Hsub _].
Qed.

(** X16: whatever the patch set, the package a run builds has the
    entries of the original, in their order, with their type codes and
    flags and under their normalised names; and every entry the run
    marked as patched, other than a nested archive, is read from the
    path the patch set gives to its name. *)
Theorem repacker_keeps_table_shape (executable : string)
    (items : gmap string string) (fs : FS) (archive : bytes) (pkg_start : Z)
    (toc : list toc_entry) (r : run_end) :
  fs !! executable = Some archive ->
  CArchiveReader archive = Ok (pkg_start, toc) ->
  repacker executable items fs = Ok r ->
  map nm (wtoc (end_pkg r)) = map (fun t => Path.normpath (nm t)) toc
  /\ map typcd (wtoc (end_pkg r)) = map typcd toc
  /\ map flag (wtoc (end_pkg r)) = map flag toc
  /\ Forall2 (fun t e =>
                l_nm e = nm t /\ l_dlen e = dlen t /\ l_ulen e = ulen t
                /\ (is_pyz (nm t) (typcd t) = false ->
                    patched e = 0
                    \/ (patched e = 1 /\ items !! nm t = Some (pathnm e))))
       toc (end_logic_toc r).
Proof.
  intros Harch Hread H. unfold repacker in H.
  destruct (Path.splitext (Path.basename executable)) as [name ext0].
  rewrite (bind_of_ok _ _ archive) in H by (by apply read_file_ok).
  rewrite (bind_of_ok _ _ (pkg_start, toc)) in H by exact Hread.
  bind_split H as st Hloop. destruct st as [[items1 fs1] lt1].
  bind_split H as archive' Harch'. bind_split H as re Hexe.
  destruct re as [[w fs2] sp]. inversion H; subst r. cbn [end_pkg end_logic_toc].
  destruct (repacker_loop_mirrors _ _ _ toc items items fs [] items1 fs1 lt1
              (reflexivity _) Hloop) as (_ & es & Hes & Hall).
  cbn [app] in Hes. subst lt1.
  unfold repack_exe in Hexe. bind_split Hexe as info Hinfo.
  destruct info as [offset pylib_name].
  bind_split Hexe as wf Hw. destruct wf as [w' fs3].
  assert (w' = w) as ->.
  { bind_split Hexe as x Hx. destruct x as [fs5 sp']. bind_split Hexe as y Hy.
    by inversion Hexe. }
  unfold CArchiveWriter2 in Hw. bind_split Hw as wf Hfold.
  destruct wf as [w' fs4]. inversion Hw; subst w' fs3. clear Hw.
  destruct (foldM_add_table _ _ _ _ _ Hfold) as (ts & Hts & Hnm & Hty & Hfl & _).
  cbn [wtoc app] in Hts. subst ts.
  assert (Hmaps : map (fun e => Path.normpath (l_nm e)) es
                  = map (fun t => Path.normpath (nm t)) toc
                  /\ map l_typcd es = map typcd toc
                  /\ map l_flag es = map flag toc).
  { clear -Hall. induction Hall as [|t e ts es' Hte _ IH]; [auto|].
    destruct Hte as (Hn & Ht & Hf & _). destruct IH as (IH1 & IH2 & IH3).
    cbn [map]. rewrite Hn, Ht, Hf, IH1, IH2, IH3. auto. }
  destruct Hmaps as (Hm1 & Hm2 & Hm3).
  split; [congruence|]. split; [congruence|]. split; [congruence|].
  eapply Forall2_impl; [exact Hall|]. cbn beta.
  intros t e (Hn & _ & _ & Hd & Hu & _ & Hpatched).
  repeat (split; [assumption|]). intros Hpyz.
  destruct (Hpatched Hpyz) as [[H0 _]|H1]; auto.
Qed.

End AnyPatchSetRun.

(** ** The listing *)

Section Listing.

Context `{PI : PyInstaller}.

Variables (executable path : string) (pkg_start : Z).

Local Abbreviation item_of t := (ItemLine (nm t) (ulen t)).
Local Abbreviation is_nested t := (is_pyz (nm t) (typcd t)).

(** The first loop of [print_archive_items]: the entries that are not
    nested archives are listed in their order, the nested archives are
    copied out and remembered in their order, and no other file is
    written. *)
Lemma list_loop (tocs : list toc_entry) :
  forall fs pyzlist out fs' pyzlist' out',
    foldM (list_step executable path pkg_start) tocs (fs, pyzlist, out)
    = Ok (fs', pyzlist', out') ->
    out' = out ++ map (fun t => item_of t)
                    (List.filter (fun t => negb (is_nested t)) tocs)
    /\ pyzlist' = pyzlist ++ map (fun t => Path.join path (nm t))
                               (List.filter (fun t => is_nested t) tocs)
    /\ forall q, q ∉ map (fun t => Path.join path (nm t))
                       (List.filter (fun t => is_nested t) tocs) ->
                 fs' !! q = fs !! q.
Proof.
  induction tocs as [|t tocs IH]; intros fs pyzlist out fs' pyzlist' out' H.
  - inversion H; subst. rewrite !app_nil_r. auto.
  - cbn [foldM] in H. bind_split H as st1 Hstep.
    destruct st1 as [[fs1 pl1] out1].
    destruct (IH _ _ _ _ _ _ H) as (-> & -> & Hframe).
    unfold list_step in Hstep. cbn [List.filter].
    destruct (is_pyz (nm t) (typcd t)); cbn [negb map].
    + bind_split Hstep as archive Harch. bind_split Hstep as h Hseek.
      bind_split Hstep as dh Hdata. destruct dh as [data h'].
      inversion Hstep; subst. split; [reflexivity|].
      split; [by rewrite <- app_assoc|].
      intros q Hq. apply not_elem_of_cons in Hq as [Hne Hq].
      rewrite Hframe by exact Hq. unfold write_file.
      by rewrite lookup_insert_ne by congruence.
    + inversion Hstep; subst. split; [by rewrite <- app_assoc|].
      split; [reflexivity|exact Hframe].
Qed.

(** The second loop adds, for every nested archive, lines that are not
    item lines. *)
Lemma list_pyz_loop (fs : FS) (pyzlist : list string) :
  forall out out',
    foldM (list_pyz fs) pyzlist out = Ok out' ->
    exists sections,
      out' = out ++ sections
      /\ Forall (fun l => match l with ItemLine _ _ => False | _ => True end)
           sections.
Proof.
  induction pyzlist as [|pyz pyzlist IH]; intros out out' H.
  - inversion H; subst. exists []. split; [by rewrite app_nil_r|constructor].
  - cbn [foldM] in H. bind_split H as out1 Hpyz.
    destruct (IH _ _ H) as (sections & -> & Hall).
    unfold list_pyz in Hpyz. bind_split Hpyz as data Hdata.
    bind_split Hpyz as names Hnames. inversion Hpyz; subst out1.
    exists ((PyzLine pyz :: map NameLine names) ++ sections).
    split; [by rewrite <- !app_assoc|].
    apply Forall_app. split; [|exact Hall].
    constructor; [exact I|]. apply Forall_forall. intros l Hl.
    apply list_elem_of_fmap in Hl as (name & -> & _). exact I.
Qed.

End Listing.

Section ListingRun.

Context `{PI : PyInstaller}.

(** X17: listing a bundle that holds no nested archive reads the table
    and nothing else.  It succeeds whatever the offsets and lengths of
    the entries are, writes no file, and prints one line per entry, in
    the order of the table, with its name and uncompressed length. *)
Theorem print_archive_items_without_pyz (executable : string) (fs : FS)
    (archive : bytes) (pkg_start : Z) (toc : list toc_entry) :
  fs !! executable = Some archive ->
  CArchiveReader archive = Ok (pkg_start, toc) ->
  Forall (fun t => is_pyz (nm t) (typcd t) = false) toc ->
  print_archive_items executable fs
  = Ok (fs, map (fun t => ItemLine (nm t) (ulen t)) toc).
Proof.
  intros Harch Hread Hnone. unfold print_archive_items.
  rewrite (bind_of_ok _ _ archive) by (by apply read_file_ok).
  rewrite (bind_of_ok _ _ (pkg_start, toc)) by exact Hread.
  assert (Hloop : forall out,
            foldM (list_step executable
                     (Path.basename executable +:+ "_extracted") pkg_start)
              toc (fs, [], out)
            = Ok (fs, [], out ++ map (fun t => ItemLine (nm t) (ulen t)) toc)).
  { clear Harch Hread. induction Hnone as [|t toc Ht _ IH]; intros out.
    - by rewrite app_nil_r.
    - cbn [foldM]. unfold list_step at 2. rewrite Ht.
      cbn [mbind result_bind bind]. rewrite IH. cbn [map].
      by rewrite <- app_assoc. }
  rewrite (bind_of_ok _ _ _ (Hloop [])). reflexivity.
Qed.

(** X18: what a successful listing prints and writes.  The item lines
    of the entries that are not nested archives come first, in the
    order of the table; what follows holds no item line.  The only
    files written are the copies of the nested archives, under the
    directory named after the whole base name of the executable. *)
Theorem print_archive_items_lines (executable : string) (fs fs' : FS)
    (archive : bytes) (pkg_start : Z) (toc : list toc_entry)
    (out : list listing_line) :
  fs !! executable = Some archive ->
  CArchiveReader archive = Ok (pkg_start, toc) ->
  print_archive_items executable fs = Ok (fs', out) ->
  (exists sections,
     out = map (fun t => ItemLine (nm t) (ulen t))
             (List.filter (fun t => negb (is_pyz (nm t) (typcd t))) toc)
           ++ sections
     /\ Forall (fun l => match l with ItemLine _ _ => False | _ => True end)
          sections)
  /\ forall q,
       q ∉ map (fun t => Path.join (Path.basename executable +:+ "_extracted") (nm t))
             (List.filter (fun t => is_pyz (nm t) (typcd t)) toc) ->
       fs' !! q = fs !! q.
Proof.
  intros Harch Hread H. unfold print_archive_items in H.
  rewrite (bind_of_ok _ _ archive) in H by (by apply read_file_ok).
  rewrite (bind_of_ok _ _ (pkg_start, toc)) in H by exact Hread.
  bind_split H as st Hloop. destruct st as [[fs1 pyzlist] out1].
  bind_split H as out2 Hpyz. inversion H; subst fs' out. clear H.
  destruct (list_loop _ _ _ _ _ _ _ _ _ _ Hloop) as (-> & _ & Hframe).
  destruct (list_pyz_loop _ _ _ _ Hpyz) as (sections & -> & Hall).
  cbn [app] in *. split; [eauto|exact Hframe].
Qed.

End ListingRun.

(** ** An explicit name in a replacement argument *)

Lemma find_from_append (c : ascii) (name p : string) :
  forall i, 0 <= i ->
    Str.find_from c name i = -1 ->
    Str.find_from c (name +:+ String c p) i = i + Str.len name
    /\ Str.split1 c (name +:+ String c p) = [name; p].
Proof.
  unfold Str.len.
  induction name as [|a name IH]; intros i Hi Hfind.
  - change ("" +:+ String c p) with (String c p).
    cbn [Str.find_from Str.split1 String.length].
    rewrite Ascii.eqb_refl. split; [lia|reflexivity].
  - change (String a name +:+ String c p) with (String a (name +:+ String c p)).
    cbn [Str.find_from Str.split1 String.length] in *.
    destruct (Ascii.eqb a c); [lia|].
    destruct (IH (i + 1)) as [IH1 IH2]; [lia|exact Hfind|].
    rewrite IH1, IH2. split; [lia|reflexivity].
Qed.

(** X19: a replacement argument of the form [name:path].  When the
    name is not empty and holds no colon, the entry stored for it has
    that name, and its path is the normalised form of the whole
    argument, the name and the colon included, not of the part after
    the colon. *)
Theorem updated_item_explicit_name (strip : option Z) (name p : string) :
  name <> "" ->
  Str.find Path.pathsep name = -1 ->
  updated_item strip (name +:+ ":" +:+ p)
  = Ok (name, Path.normpath (name +:+ ":" +:+ p)).
Proof.
  intros Hne Hfind. unfold updated_item.
  change (":" +:+ p) with (String Path.pathsep p).
  destruct (find_from_append Path.pathsep name p 0) as [Hf Hs];
    [lia|exact Hfind|].
  unfold Str.find. rewrite Hf, Hs.
  replace (0 <? 0 + Str.len name) with true; [reflexivity|].
  symmetry. apply Z.ltb_lt. unfold Str.len.
  destruct name; [contradiction|cbn [String.length]; lia].
Qed.

(** ** A patched entry in the rebuilt package *)

Section OuterPatch.

Context `{PI : PyInstaller}.

(** The payload the writer makes of the content [src] of the file of
    an entry: for a patched entry of type [s] or [M] the marshalled
    code compiled from it, otherwise the content itself. *)
Local Abbreviation payload_of e src filedata :=
  (if truthy (patched e) then
     if String.eqb (l_typcd e) "s" || String.eqb (l_typcd e) "M"
     then exists code, py_compile src ("<" +:+ l_nm e +:+ ">") = Ok code
                       /\ filedata = marshal_dumps code
     else filedata = src
   else filedata = src).

(** The bytes the writer appends for a payload. *)
Local Abbreviation appended_of e filedata :=
  (if (l_flag e =? 1) && truthy (patched e)
   then zlib_compress LEVEL filedata else filedata).

Lemma add_spec (w w' : writer) (fs fs' : FS) (e : logic_entry) :
  is_darwin = false ->
  add (w, fs) e = Ok (w', fs') ->
  exists src filedata,
    fs' = fs
    /\ fs !! pathnm e = Some src
    /\ payload_of e src filedata
    /\ w' = {| lib := lib w ++ appended_of e filedata;
               wtoc := wtoc w ++ [TocEntry (blen (lib w))
                                    (blen (appended_of e filedata))
                                    (if truthy (patched e) then blen filedata
                                     else l_ulen e)
                                    (l_flag e) (l_typcd e)
                                    (Path.normpath (l_nm e))] |}.
Proof.
  intros Hd H. unfold add in H. rewrite Hd in H.
  cbn [andb mbind result_bind bind] in H.
  bind_split H as src Hsrc. bind_split H as fu Hfu. destruct fu as [filedata ul].
  exists src, filedata. split; [by inversion H|].
  split; [by apply read_file_ok|].
  assert (Hpay : payload_of e src filedata
                 /\ ul = if truthy (patched e) then blen filedata else l_ulen e).
  { destruct (truthy (patched e)).
    - destruct (String.eqb (l_typcd e) "s" || String.eqb (l_typcd e) "M").
      + bind_split Hfu as code Hcode. inversion Hfu; subst. eauto.
      + inversion Hfu; subst. auto.
    - inversion Hfu; subst. auto. }
  destruct Hpay as [Hpay ->]. split; [exact Hpay|].
  inversion H; subst w' fs'. f_equal.
  - by destruct ((l_flag e =? 1) && truthy (patched e)).
  - do 2 f_equal. f_equal.
    destruct ((l_flag e =? 1) && truthy (patched e));
      unfold blen; rewrite length_app; lia.
Qed.

(** Off macOS, every entry of the table the writer builds can be read
    back from the package, however it goes on, as the bytes the writer
    appended for it. *)
Lemma writer_entries (es : list logic_entry) :
  is_darwin = false ->
  forall w fs w' fs',
    foldM add es (w, fs) = Ok (w', fs') ->
    (exists tail, lib w' = lib w ++ tail)
    /\ exists ts,
         wtoc w' = wtoc w ++ ts
         /\ Forall2 (fun e t' =>
                       exists src filedata,
                         fs !! pathnm e = Some src
                         /\ payload_of e src filedata
                         /\ nm t' = Path.normpath (l_nm e)
                         /\ ulen t' = (if truthy (patched e) then blen filedata
                                       else l_ulen e)
                         /\ forall more,
                              stored (lib w' ++ more) 0 t'
                              = Ok (appended_of e filedata))
              es ts.
Proof.
  intros Hd. induction es as [|e es IH]; intros w fs w' fs' H.
  - inversion H; subst. split; [exists []; by rewrite app_nil_r|].
    exists []. split; [by rewrite app_nil_r|constructor].
  - cbn [foldM] in H. bind_split H as st1 Hadd. destruct st1 as [w1 fs1].
    destruct (add_spec _ _ _ _ _ Hd Hadd) as (src & filedata & -> & Hsrc & Hpay & ->).
    destruct (IH _ _ _ _ H) as ((tail & Htail) & ts & Hts & Hall).
    cbn [lib wtoc] in *.
    split; [eexists; by rewrite Htail, <- app_assoc|].
    eexists (_ :: ts). split; [by rewrite Hts, <- app_assoc|].
    constructor; [|exact Hall].
    exists src, filedata. cbn [nm ulen].
    split; [exact Hsrc|]. split; [exact Hpay|]. split; [reflexivity|].
    split; [reflexivity|]. intros more.
    rewrite Htail, <- !app_assoc. apply stored_at.
Qed.

Variables (executable path : string) (pkg_start : Z).

(** A round writes no file but the extracted file of its entry. *)
Lemma repacker_step_frame (items items' : gmap string string) (fs fs' : FS)
    (lt lt' : list logic_entry) (toc : toc_entry) (q : string) :
  repacker_step executable path pkg_start (items, fs, lt) toc
  = Ok (items', fs', lt') ->
  q <> Path.join path (nm toc) ->
  fs' !! q = fs !! q.
Proof.
  intros H Hq.
  destruct (repacker_step_ok _ _ _ _ _ _ _ _ _ _ H) as (archive & data & _ & _ & Hrest).
  destruct (is_pyz (nm toc) (typcd toc)).
  - destruct Hrest as (n & Hrepack & _).
    destruct (repack_pyz_ok _ _ _ _ _ _ Hrepack)
      as (data' & names & out & _ & _ & -> & _).
    by rewrite !lookup_insert_ne by congruence.
  - destruct Hrest as (_ & -> & _). by rewrite lookup_insert_ne by congruence.
Qed.

Lemma repacker_loop_frame (tocs : list toc_entry) (q : string) :
  q ∉ map (fun t => Path.join path (nm t)) tocs ->
  forall items fs lt items' fs' lt',
    foldM (repacker_step executable path pkg_start) tocs (items, fs, lt)
    = Ok (items', fs', lt') ->
    fs' !! q = fs !! q.
Proof.
  induction tocs as [|t tocs IH]; intros Hq items fs lt items' fs' lt' H.
  - by inversion H.
  - cbn [map] in Hq. apply not_elem_of_cons in Hq as [Hne Hq].
    cbn [foldM] in H. bind_split H as st1 Hstep.
    destruct st1 as [[items1 fs1] lt1].
    rewrite (IH Hq _ _ _ _ _ _ H).
    exact (repacker_step_frame _ _ _ _ _ _ _ _ Hstep Hne).
Qed.

End OuterPatch.

Section OuterPatchRun.

Context `{PI : PyInstaller}.

Variable executable : string.

Local Abbreviation stem := (fst (Path.splitext (Path.basename executable))).
Local Abbreviation ext := (snd (Path.splitext (Path.basename executable))).
Local Abbreviation path := (stem +:+ "_extracted").
Local Abbreviation output := (stem +:+ "-patched" +:+ ext).
Local Abbreviation pkgname := (Path.join path "PKG-patched").

(** X21: an entry that a run marks as patched is rebuilt from its
    replacement.  Off macOS, for an entry that is not a nested archive
    and was marked, the replacement path is the one the patch set gives
    to its name; when that file is none of the files the run itself
    writes, the rebuilt package stores for the entry the marshalled
    code compiled from the file if its type is [s] or [M], else the
    content of the file, deflated when the flag of the entry is 1, under
    the normalised name of the entry, and the uncompressed length in
    the table is the length of that payload. *)
Theorem patched_entry_is_rebuilt (items : gmap string string) (fs : FS)
    (archive : bytes) (pkg_start : Z) (toc : list toc_entry) (r : run_end)
    (i : nat) (t : toc_entry) (e : logic_entry) (src : bytes) :
  is_darwin = false ->
  fs !! executable = Some archive ->
  CArchiveReader archive = Ok (pkg_start, toc) ->
  repacker executable items fs = Ok r ->
  toc !! i = Some t ->
  end_logic_toc r !! i = Some e ->
  is_pyz (nm t) (typcd t) = false ->
  patched e = 1 ->
  fs !! pathnm e = Some src ->
  pathnm e ∉ map (fun t => Path.join path (nm t)) toc ->
  pathnm e <> output ->
  pathnm e <> pkgname ->
  items !! nm t = Some (pathnm e)
  /\ exists t' filedata,
       wtoc (end_pkg r) !! i = Some t'
       /\ nm t' = Path.normpath (nm t)
       /\ (if String.eqb (typcd t) "s" || String.eqb (typcd t) "M"
           then exists code,
                  py_compile src ("<" +:+ nm t +:+ ">") = Ok code
                  /\ filedata = marshal_dumps code
           else filedata = src)
       /\ ulen t' = blen filedata
       /\ stored (lib (end_pkg r)) 0 t'
          = Ok (if flag t =? 1 then zlib_compress LEVEL filedata else filedata).
Proof.
  intros Hd Harch Hread H Ht He Hpyz Hpatched Hsrc Hnotin Hne1 Hne2.
  unfold repacker in H.
  destruct (Path.splitext (Path.basename executable)) as [name ext0].
  cbn [fst snd] in *.
  rewrite (bind_of_ok _ _ archive) in H by (by apply read_file_ok).
  rewrite (bind_of_ok _ _ (pkg_start, toc)) in H by exact Hread.
  bind_split H as st Hloop. destruct st as [[items1 fs1] lt1].
  bind_split H as archive' Harch'. bind_split H as re Hexe.
  destruct re as [[w fs2] sp]. inversion H; subst r.
  cbn [end_pkg end_logic_toc] in *. clear H.
  destruct (repacker_loop_mirrors _ _ _ toc items items fs [] items1 fs1 lt1
              (reflexivity _) Hloop) as (_ & es & Hes & Hall).
  cbn [app] in Hes. subst lt1.
  destruct (Forall2_lookup_lr _ _ _ _ _ _ Hall Ht He)
    as (Hnm & Hty & Hfl & _ & _ & _ & Hmark).
  destruct (Hmark Hpyz) as [[H0 _]|[_ Hitem]]; [lia|].
  split; [exact Hitem|].
  pose proof (repacker_loop_frame executable _ pkg_start toc (pathnm e) Hnotin
                _ _ _ _ _ _ Hloop) as Hframe.
  unfold repack_exe in Hexe. bind_split Hexe as info Hinfo.
  destruct info as [offset pylib_name].
  bind_split Hexe as wf Hw. destruct wf as [w' fs3].
  assert (w' = w) as ->.
  { bind_split Hexe as x Hx. destruct x as [fs5 sp']. bind_split Hexe as y Hy.
    by inversion Hexe. }
  clear Hexe. unfold CArchiveWriter2 in Hw.
  bind_split Hw as wf Hfold. destruct wf as [w' fs4].
  inversion Hw; subst w' fs3. clear Hw.
  destruct (writer_entries es Hd _ _ _ _ Hfold) as (_ & ts & Hts & Hents).
  cbn [wtoc app] in Hts. rewrite Hts.
  assert (Hlen : length es = length ts) by (by apply Forall2_length in Hents).
  destruct (ts !! i) as [t'|] eqn:Ht'.
  2:{ apply lookup_ge_None in Ht'. apply lookup_lt_Some in He. lia. }
  destruct (Forall2_lookup_lr _ _ _ _ _ _ Hents He Ht')
    as (src' & filedata & Hsrc' & Hpay & Hnm' & Hul & Hstored).
  unfold write_file in Hsrc'.
  rewrite !lookup_insert_ne in Hsrc' by congruence.
  rewrite Hframe, Hsrc in Hsrc'. inversion Hsrc'; subst src'.
  assert (Htruthy : truthy (patched e) = true) by (by rewrite Hpatched).
  rewrite Htruthy in Hpay, Hul, Hstored. rewrite andb_true_r in Hstored.
  rewrite Hty, Hnm in Hpay. rewrite Hfl in Hstored.
  exists t', filedata. split; [reflexivity|]. split; [congruence|].
  split; [exact Hpay|]. split; [exact Hul|].
  specialize (Hstored []). by rewrite app_nil_r in Hstored.
Qed.

End OuterPatchRun.

(** ** The files a run writes *)

Section RunFiles.

Context `{PI : PyInstaller}.

(** [get_carchive_info] looks at the content of its file only. *)
Lemma get_carchive_info_content (p q : string) (fs fs' : FS) :
  fs' !! q = fs !! p ->
  get_carchive_info q fs' = get_carchive_info p fs.
Proof.
  intros H. unfold get_carchive_info, read_file. rewrite H. reflexivity.
Qed.

(** The splice writes the output and no other file. *)
Lemma update_patched_pkg_frame (output pkgname : string) (offset : Z)
    (fs fs' : FS) (q : string) :
  update_patched_pkg output pkgname offset fs = Ok fs' ->
  q <> output ->
  fs' !! q = fs !! q.
Proof.
  intros H Hq. unfold update_patched_pkg in H.
  bind_split H as exe Hexe. bind_split H as outf Hseek. bind_split H as pkg Hpkg.
  destruct (File.copyfileobj _ _ _) as [[[h outf']|e]|]; try discriminate H.
  inversion H. unfold write_file. by rewrite lookup_insert_ne by congruence.
Qed.

(** Off macOS, [repack_exe] writes the intermediate package and the
    output, and no other file. *)
Lemma repack_exe_frame (path output : string) (logic_toc : list logic_entry)
    (fs fs' : FS) (w : writer) (spawned : list (list string)) (q : string) :
  is_darwin = false ->
  repack_exe path output logic_toc fs = Ok (w, fs', spawned) ->
  q <> output ->
  q <> Path.join path "PKG-patched" ->
  fs' !! q = fs !! q.
Proof.
  intros Hd H Hq1 Hq2. unfold repack_exe in H. rewrite Hd in H.
  bind_split H as info Hinfo. destruct info as [offset name].
  bind_split H as wf Hw. destruct wf as [w' fs1].
  apply CArchiveWriter2_files in Hw; [|exact Hd]. subst fs1.
  bind_split H as fsp Hsplice. destruct fsp as [fs2 sp].
  cbn [mbind result_bind bind] in H. inversion H; subst w' fs2 sp. clear H.
  destruct is_linux.
  - inversion Hsplice. by rewrite lookup_insert_ne by congruence.
  - bind_split Hsplice as fs3 Hupd. inversion Hsplice; subst fs3.
    rewrite (update_patched_pkg_frame _ _ _ _ _ q Hupd Hq1).
    by rewrite lookup_insert_ne by congruence.
Qed.

Variable executable : string.

Local Abbreviation stem := (fst (Path.splitext (Path.basename executable))).
Local Abbreviation ext := (snd (Path.splitext (Path.basename executable))).
Local Abbreviation path := (stem +:+ "_extracted").
Local Abbreviation output := (stem +:+ "-patched" +:+ ext).
Local Abbreviation pkgname := (Path.join path "PKG-patched").

(** X22: off macOS, a run writes the extracted file of each entry, the
    intermediate package and the output, and no other file: every other
    path holds at the end what it held at the start.  In particular the
    replacement sources are not touched, and neither is the bundle
    itself when it is none of these paths. *)
Theorem repacker_writes_only_its_files (items : gmap string string) (fs : FS)
    (archive : bytes) (pkg_start : Z) (toc : list toc_entry) (r : run_end)
    (q : string) :
  is_darwin = false ->
  fs !! executable = Some archive ->
  CArchiveReader archive = Ok (pkg_start, toc) ->
  repacker executable items fs = Ok r ->
  q ∉ map (fun t => Path.join path (nm t)) toc ->
  q <> output ->
  q <> pkgname ->
  end_fs r !! q = fs !! q.
Proof.
  intros Hd Harch Hread H Hq Hq1 Hq2. unfold repacker in H.
  destruct (Path.splitext (Path.basename executable)) as [name ext0].
  cbn [fst snd] in *.
  rewrite (bind_of_ok _ _ archive) in H by (by apply read_file_ok).
  rewrite (bind_of_ok _ _ (pkg_start, toc)) in H by exact Hread.
  bind_split H as st Hloop. destruct st as [[items1 fs1] lt1].
  bind_split H as archive' Harch'. bind_split H as re Hexe.
  destruct re as [[w fs2] sp]. inversion H; subst r. cbn [end_fs]. clear H.
  rewrite (repack_exe_frame _ _ _ _ _ _ _ q Hd Hexe Hq1 Hq2).
  unfold write_file. rewrite lookup_insert_ne by congruence.
  exact (repacker_loop_frame executable _ pkg_start toc q Hq _ _ _ _ _ _ Hloop).
Qed.

(** X23: off Linux and macOS, the output of a run is the bundle up to
    the start of its package, as the cookie of the bundle gives it,
    followed by the package the run built; the same package is left in
    the intermediate file, and no command is started.  The bundle must
    not be the extracted file of one of its own entries, and the output
    not the intermediate file. *)
Theorem repacker_output (items : gmap string string) (fs : FS)
    (archive : bytes) (pkg_start : Z) (toc : list toc_entry) (r : run_end) :
  is_linux = false ->
  is_darwin = false ->
  fs !! executable = Some archive ->
  CArchiveReader archive = Ok (pkg_start, toc) ->
  repacker executable items fs = Ok r ->
  executable ∉ map (fun t => Path.join path (nm t)) toc ->
  output <> pkgname ->
  exists offset name,
    get_carchive_info executable fs = Ok (offset, name)
    /\ 0 <= offset
    /\ end_spawned r = []
    /\ end_fs r !! pkgname = Some (package (end_pkg r) name)
    /\ end_fs r !! output
       = Some (take (Z.to_nat offset) archive
                 ++ List.repeat x00 (Z.to_nat offset - length archive)
                 ++ package (end_pkg r) name).
Proof.
  intros Hl Hd Harch Hread H Hexe Hne. unfold repacker in H.
  destruct (Path.splitext (Path.basename executable)) as [name ext0].
  cbn [fst snd] in *.
  rewrite (bind_of_ok _ _ archive) in H by (by apply read_file_ok).
  rewrite (bind_of_ok _ _ (pkg_start, toc)) in H by exact Hread.
  bind_split H as st Hloop. destruct st as [[items1 fs1] lt1].
  bind_split H as archive' Harch'. bind_split H as re Hrepack.
  destruct re as [[w fs2] sp]. inversion H; subst r.
  cbn [end_fs end_pkg end_spawned]. clear H.
  pose proof (repacker_loop_frame executable _ pkg_start toc executable Hexe
                _ _ _ _ _ _ Hloop) as Hframe.
  apply read_file_ok in Harch'. rewrite Hframe, Harch in Harch'.
  inversion Harch'; subst archive'. clear Harch'.
  unfold repack_exe in Hrepack. rewrite Hl, Hd in Hrepack.
  bind_split Hrepack as info Hinfo. destruct info as [offset pylib].
  bind_split Hrepack as wf Hw. destruct wf as [w' fs3].
  apply CArchiveWriter2_files in Hw; [|exact Hd]. subst fs3.
  bind_split Hrepack as fsp Hsplice. destruct fsp as [fs4 sp'].
  bind_split Hsplice as fs5 Hupd. inversion Hsplice; subst fs5 sp'. clear Hsplice.
  cbn [mbind result_bind bind] in Hrepack. inversion Hrepack; subst w' fs2 sp.
  clear Hrepack.
  exists offset, pylib.
  split.
  { rewrite <- Hinfo. symmetry. apply get_carchive_info_content.
    unfold write_file. rewrite lookup_insert_eq. by rewrite Harch. }
  set (fs2 := <[Path.join (name +:+ "_extracted") "PKG-patched" := package w pylib]>
                (write_file fs1 (name +:+ "-patched" +:+ ext0) archive)) in *.
  assert (Hout : fs2 !! (name +:+ "-patched" +:+ ext0) = Some archive).
  { unfold fs2, write_file. rewrite lookup_insert_ne by congruence.
    apply lookup_insert_eq. }
  assert (Hpkg : fs2 !! Path.join (name +:+ "_extracted") "PKG-patched"
                 = Some (package w pylib)) by apply lookup_insert_eq.
  assert (Hoff : 0 <= offset).
  { destruct (Z.ltb_spec offset 0) as [Hneg|Hpos]; [|exact Hpos].
    rewrite (update_patched_pkg_negative _ _ _ archive) in Hupd by assumption.
    discriminate Hupd. }
  split; [exact Hoff|]. split; [reflexivity|].
  rewrite (update_patched_pkg_content _ _ _ _ archive (package w pylib)) in Hupd
    by assumption.
  inversion Hupd; subst fs4. split.
  - by rewrite lookup_insert_ne by congruence.
  - apply lookup_insert_eq.
Qed.

End RunFiles.

(** ** The loop of the patch resolver *)

(** Files that derive other names leave the entry of a name alone. *)
Lemma updated_items_loop_other (strip : option Z) (n : string)
    (files : list string) :
  Forall (fun g => derived_name strip g <> Ok n) files ->
  forall items d,
    updated_items_loop strip files items = Ok d ->
    d !! n = items !! n.
Proof.
  induction 1 as [|g files Hg _ IH]; intros items d H.
  - by inversion H.
  - cbn [updated_items_loop] in H. bind_split H as x Hx. destruct x as [n' p'].
    rewrite (IH _ _ H). apply lookup_insert_ne. intros ->.
    apply Hg. unfold derived_name. by rewrite Hx.
Qed.

(** X24: when several files derive the same name, the last one wins:
    after the loop of [build_updated_items], a name maps to the path of
    the last file that derives it, and the earlier ones are dropped
    without a message. *)
Theorem last_file_wins (strip : option Z) (before after : list string)
    (f n p : string) (items d : gmap string string) :
  updated_items_loop strip (before ++ f :: after) items = Ok d ->
  updated_item strip f = Ok (n, p) ->
  Forall (fun g => derived_name strip g <> Ok n) after ->
  d !! n = Some p.
Proof.
  revert items. induction before as [|g before IH]; intros items H Hf Hafter.
  - cbn [app updated_items_loop] in H. rewrite Hf in H.
    cbn [mbind result_bind bind] in H.
    rewrite (updated_items_loop_other _ _ _ Hafter _ _ H).
    apply lookup_insert_eq.
  - cbn [app updated_items_loop] in H. bind_split H as x Hx. destruct x as [n' p'].
    exact (IH _ H Hf Hafter).
Qed.

(** A string without the separator is one field. *)
Lemma split_without_sep (c : ascii) (s : string) :
  forall i, 0 <= i -> Str.find_from c s i = -1 -> Str.split c s = [s].
Proof.
  induction s as [|a s IH]; intros i Hi H; [reflexivity|].
  cbn [Str.find_from Str.split] in *.
  destruct (Ascii.eqb a c); [lia|].
  rewrite (IH (i + 1)) by (lia || exact H). reflexivity.
Qed.

(** X25: without a strip value, a bare [__init__.py] has no package
    directory to be named after: for a file name whose normalised path
    has no directory part and ends with [__init__.py], the index [-2]
    is out of range and [build_updated_items] raises [IndexError]. *)
Theorem bare_init_raises_index_error (filename : string) :
  Str.find Path.pathsep filename <= 0 ->
  Str.find Path.sep (Path.normpath filename) = -1 ->
  Str.endswith "__init__.py" (Path.normpath filename) = true ->
  updated_item None filename = Raise IndexError
  /\ build_updated_items [filename] None = Raise IndexError.
Proof.
  intros Hsep Hdir Hinit.
  assert (H : updated_item None filename = Raise IndexError).
  { unfold updated_item.
    replace (0 <? Str.find Path.pathsep filename) with false
      by (symmetry; apply Z.ltb_ge; lia).
    rewrite Hinit, (split_without_sep _ _ 0) by (lia || exact Hdir).
    reflexivity. }
  split; [exact H|].
  unfold build_updated_items. cbn [updated_items_loop]. rewrite H. reflexivity.
Qed.

(** * The further properties on the bundle of [Demo] *)

Lemma main_with_files_exits_1_witness :
  main ["dist/app"; "foo.py"] Demo.fs
  = Some (if debug Demo.args_files
          then ProcessEnd 1 [] [AttributeError_keys]
          else ProcessEnd 1 [] [TypeError_isinstance; AttributeError_keys]).
Proof.
  apply (main_with_files_exits_1 ["dist/app"; "foo.py"] Demo.args_files "foo.py"
           Demo.fs).
  - reflexivity.
  - reflexivity.
Defined.

Lemma failure_with_message_is_not_logged_witness :
  main ["dist/none"] Demo.fs
  = Some (ProcessEnd 1 [] [TypeError_isinstance; FileNotFoundError "dist/none"]).
Proof.
  apply (failure_with_message_is_not_logged ["dist/none"] Demo.args_missing Demo.fs
           (FileNotFoundError "dist/none") "FileNotFoundError"
           [VStr "No such file or directory"] (VInt 2)).
  - reflexivity.
  - reflexivity.
  - vm_compute. reflexivity.
  - reflexivity.
  - right. exists 2. reflexivity.
Defined.

Lemma version_mismatch_is_not_fatal_witness :
  checkmagic (MAGIC ++ Demo.OLD_MAGIC ++ Mini.int32_be 12)
  = Ok (if decide (Demo.OLD_MAGIC = pymagic) then []
        else ["Warning: pyz is from a different Python version"])
  /\ ZlibArchive (MAGIC ++ Demo.OLD_MAGIC ++ Mini.int32_be 12)
     = loadtoc (MAGIC ++ Demo.OLD_MAGIC ++ Mini.int32_be 12).
Proof.
  apply (version_mismatch_is_not_fatal Demo.OLD_MAGIC (Mini.int32_be 12)).
  reflexivity.
Defined.

Lemma wrong_magic_is_refused_witness :
  checkmagic [x50; x4b; x03; x04] = Raise RuntimeError_archive
  /\ ZlibArchive [x50; x4b; x03; x04] = Raise RuntimeError_archive.
Proof.
  apply (wrong_magic_is_refused [x50; x4b; x03; x04]).
  vm_compute. intros H. discriminate H.
Defined.

Lemma get_carchive_info_short_file_witness :
  get_carchive_info "foo.py" Demo.fs = Raise OSError_EINVAL.
Proof.
  apply (get_carchive_info_short_file "foo.py" Demo.fs [x62]).
  - reflexivity.
  - vm_compute. lia.
Defined.

Lemma get_carchive_info_ignores_magic_witness :
  get_carchive_info "a.out"
    {["a.out" := Demo.no_cookie_head ++ Demo.no_cookie_magic ++ Demo.no_cookie_rest]}
  = name ← decode (take 64 (drop 16 Demo.no_cookie_rest));
    Ok (blen Demo.no_cookie_head + 88
        - Struct.be_int32 (take 4 Demo.no_cookie_rest), name).
Proof.
  apply (get_carchive_info_ignores_magic "a.out" _ Demo.no_cookie_head
           Demo.no_cookie_magic Demo.no_cookie_rest).
  - apply lookup_singleton_eq.
  - reflexivity.
  - reflexivity.
Defined.

Lemma update_patched_pkg_edges_witness :
  update_patched_pkg "app-patched" "app_extracted/PKG-patched" (-1)
    Demo.before_splice
  = Raise OSError_EINVAL
  /\ update_patched_pkg "app-patched" "app_extracted/PKG-patched" 1000
       Demo.before_splice
     = Ok (<["app-patched" := Demo.exe
               ++ List.repeat x00 (Z.to_nat 1000 - length Demo.exe)
               ++ Demo.pkg]> Demo.before_splice).
Proof.
  split.
  - apply (update_patched_pkg_edges "app-patched" "app_extracted/PKG-patched"
             Demo.before_splice Demo.exe Demo.pkg (-1)).
    + reflexivity.
    + reflexivity.
    + lia.
  - apply (update_patched_pkg_edges "app-patched" "app_extracted/PKG-patched"
             Demo.before_splice Demo.exe Demo.pkg 1000).
    + reflexivity.
    + reflexivity.
    + vm_compute. intros H. discriminate H.
Defined.

Lemma repack_exe_splices_package_witness :
  exists w fs' spawned,
    repack_exe "app_extracted" "app-patched" [Demo.patched_script] Demo.copied
    = Ok (w, fs', spawned)
    /\ exists offset name,
         get_carchive_info "app-patched" Demo.copied = Ok (offset, name)
         /\ 0 <= offset
         /\ spawned = []
         /\ fs' = <["app-patched" := take (Z.to_nat offset) Demo.exe
                      ++ List.repeat x00 (Z.to_nat offset - length Demo.exe)
                      ++ package w name]>
                    (<[Path.join "app_extracted" "PKG-patched" := package w name]>
                       Demo.copied).
Proof.
  destruct (repack_exe "app_extracted" "app-patched" [Demo.patched_script]
              Demo.copied) as [[[w fs'] spawned]|e] eqn:Hrun;
    [|vm_compute in Hrun; discriminate Hrun].
  exists w, fs', spawned. split; [reflexivity|].
  apply (repack_exe_splices_package "app_extracted" "app-patched"
           [Demo.patched_script] Demo.copied fs' Demo.exe w spawned).
  - reflexivity.
  - reflexivity.
  - vm_compute. intros H. discriminate H.
  - reflexivity.
  - exact Hrun.
Defined.

Lemma repack_exe_on_linux_witness :
  exists w fs' spawned,
    @repack_exe Mini.linux "app_extracted" "app-patched" [Demo.patched_script]
      Demo.copied
    = Ok (w, fs', spawned)
    /\ exists offset name,
         @get_carchive_info Mini.linux "app-patched" Demo.copied = Ok (offset, name)
         /\ spawned = [["objcopy"; "--update-section";
                        "pydata=" +:+ Path.join "app_extracted" "PKG-patched";
                        "app-patched"]]
         /\ fs' = <[Path.join "app_extracted" "PKG-patched"
                    := @package Mini.linux w name]> Demo.copied.
Proof.
  destruct (@repack_exe Mini.linux "app_extracted" "app-patched"
              [Demo.patched_script] Demo.copied) as [[[w fs'] spawned]|e] eqn:Hrun;
    [|vm_compute in Hrun; discriminate Hrun].
  exists w, fs', spawned. split; [reflexivity|].
  apply (@repack_exe_on_linux Mini.linux "app_extracted" "app-patched"
           [Demo.patched_script] Demo.copied fs' w spawned).
  - reflexivity.
  - reflexivity.
  - exact Hrun.
Defined.

Lemma writer_table_tiles_package_witness :
  exists w fs',
    CArchiveWriter2 "app_extracted/PKG-patched"
      [Demo.patched_script; Demo.flagged_entry] Demo.pylib_name Demo.fs
    = Ok (w, fs')
    /\ map nm (wtoc w)
       = map (fun e => Path.normpath (l_nm e))
           [Demo.patched_script; Demo.flagged_entry]
    /\ map typcd (wtoc w) = map l_typcd [Demo.patched_script; Demo.flagged_entry]
    /\ map flag (wtoc w) = map l_flag [Demo.patched_script; Demo.flagged_entry]
    /\ tiles 0 (wtoc w) (blen (lib w)).
Proof.
  destruct (CArchiveWriter2 "app_extracted/PKG-patched"
              [Demo.patched_script; Demo.flagged_entry] Demo.pylib_name Demo.fs)
    as [[w fs']|e] eqn:Hrun; [|vm_compute in Hrun; discriminate Hrun].
  exists w, fs'. split; [reflexivity|].
  apply (writer_table_tiles_package "app_extracted/PKG-patched"
           [Demo.patched_script; Demo.flagged_entry] Demo.pylib_name Demo.fs fs' w).
  exact Hrun.
Defined.

Lemma writer_entries_within_data_witness :
  exists w fs' t,
    CArchiveWriter2 "app_extracted/PKG-patched"
      [Demo.patched_script; Demo.flagged_entry] Demo.pylib_name Demo.fs
    = Ok (w, fs')
    /\ t ∈ wtoc w
    /\ 0 <= dpos t /\ 0 <= dlen t /\ dpos t + dlen t <= blen (lib w).
Proof.
  destruct (CArchiveWriter2 "app_extracted/PKG-patched"
              [Demo.patched_script; Demo.flagged_entry] Demo.pylib_name Demo.fs)
    as [[w fs']|e] eqn:Hrun; [|vm_compute in Hrun; discriminate Hrun].
  destruct (wtoc w) as [|t ts] eqn:Hw.
  - exfalso. vm_compute in Hrun. injection Hrun as <- <-. discriminate Hw.
  - assert (Hin : t ∈ wtoc w) by (rewrite Hw; apply list_elem_of_here).
    exists w, fs', t. split; [reflexivity|]. split; [exact Hin|].
    apply (writer_entries_within_data "app_extracted/PKG-patched"
             [Demo.patched_script; Demo.flagged_entry] Demo.pylib_name Demo.fs fs'
             w t).
    + exact Hrun.
    + exact Hin.
Defined.

Lemma writer_needs_every_file_witness :
  is_Some (Demo.fs !! pathnm Demo.flagged_entry).
Proof.
  destruct (CArchiveWriter2 "app_extracted/PKG-patched"
              [Demo.patched_script; Demo.flagged_entry] Demo.pylib_name Demo.fs)
    as [[w fs']|e] eqn:Hrun; [|vm_compute in Hrun; discriminate Hrun].
  apply (writer_needs_every_file "app_extracted/PKG-patched"
           [Demo.patched_script; Demo.flagged_entry] Demo.pylib_name Demo.fs fs'
           w Demo.flagged_entry).
  - exact Hrun.
  - apply list_elem_of_further, list_elem_of_here.
  - vm_compute. intros H. discriminate H.
Defined.

Lemma repack_pyz_keeps_siblings_witness :
  exists n items' fs',
    repack_pyz "lib.pyz" {["foo" := "foo.py"]} Demo.fs_pyz = Ok (n, items', fs')
    /\ exists toc dict out,
         ZlibArchiveWriter toc dict = Ok out
         /\ fs' = <["lib.pyz" := out]> Demo.fs_pyz
         /\ map (fun e => fst (fst e)) toc = ["foo"; "bar"]
         /\ (forall k, k ∉ ["foo"; "bar"] -> dict !! k = None)
         /\ forall name,
              name ∈ ["foo"; "bar"] ->
              exists code,
                dict !! name = Some code
                /\ exists typ obj,
                     extract Demo.two_modules name = Ok (typ, obj)
                     /\ match ({["foo" := "foo.py"]} : gmap string string) !! name with
                        | Some pyfile =>
                            exists src text,
                              Demo.fs_pyz !! pyfile = Some src
                              /\ read_text src = Ok text
                              /\ compile_text text ("<" +:+ name +:+ ">")
                                 = Ok code
                        | None => code = obj
                        end.
Proof.
  destruct (repack_pyz "lib.pyz" {["foo" := "foo.py"]} Demo.fs_pyz)
    as [[[n items'] fs']|e] eqn:Hrun; [|vm_compute in Hrun; discriminate Hrun].
  exists n, items', fs'. split; [reflexivity|].
  apply (repack_pyz_keeps_siblings "lib.pyz" {["foo" := "foo.py"]} items'
           Demo.fs_pyz fs' n Demo.two_modules ["foo"; "bar"]).
  - reflexivity.
  - vm_compute. reflexivity.
  - apply (bool_decide_unpack _). vm_compute. exact I.
  - exact Hrun.
Defined.

Lemma repack_pyz_counts_matches_witness :
  exists n items' fs',
    repack_pyz "lib.pyz" {["foo" := "foo.py"]} Demo.fs_pyz = Ok (n, items', fs')
    /\ n = Z.of_nat
             (length (List.filter
                        (fun k => bool_decide
                                    (is_Some (({["foo" := "foo.py"]}
                                                : gmap string string) !! k)))
                        ["foo"; "bar"])).
Proof.
  destruct (repack_pyz "lib.pyz" {["foo" := "foo.py"]} Demo.fs_pyz)
    as [[[n items'] fs']|e] eqn:Hrun; [|vm_compute in Hrun; discriminate Hrun].
  exists n, items', fs'. split; [reflexivity|].
  apply (repack_pyz_counts_matches "lib.pyz" {["foo" := "foo.py"]} items'
           Demo.fs_pyz fs' n Demo.two_modules ["foo"; "bar"]).
  - reflexivity.
  - vm_compute. reflexivity.
  - apply (bool_decide_unpack _). vm_compute. exact I.
  - exact Hrun.
Defined.

Lemma repacker_items_shrink_witness :
  exists r,
    repacker "dist/app" {["foo" := "foo.py"]} Demo.fs = Ok r
    /\ end_items r ⊆ {["foo" := "foo.py"]}.
Proof.
  destruct (repacker "dist/app" {["foo" := "foo.py"]} Demo.fs) as [r|e] eqn:Hrun;
    [|vm_compute in Hrun; discriminate Hrun].
  exists r. split; [reflexivity|].
  apply (repacker_items_shrink "dist/app" {["foo" := "foo.py"]} Demo.fs r).
  exact Hrun.
Defined.

Lemma repacker_keeps_table_shape_witness :
  exists r,
    repacker "dist/app" {["foo" := "foo.py"]} Demo.fs = Ok r
    /\ map nm (wtoc (end_pkg r)) = map (fun t => Path.normpath (nm t)) Demo.toc
    /\ map typcd (wtoc (end_pkg r)) = map typcd Demo.toc
    /\ map flag (wtoc (end_pkg r)) = map flag Demo.toc
    /\ Forall2 (fun t e =>
                  l_nm e = nm t /\ l_dlen e = dlen t /\ l_ulen e = ulen t
                  /\ (is_pyz (nm t) (typcd t) = false ->
                      patched e = 0
                      \/ (patched e = 1
                          /\ ({["foo" := "foo.py"]} : gmap string string) !! nm t
                             = Some (pathnm e))))
         Demo.toc (end_logic_toc r).
Proof.
  destruct (repacker "dist/app" {["foo" := "foo.py"]} Demo.fs) as [r|e] eqn:Hrun;
    [|vm_compute in Hrun; discriminate Hrun].
  exists r. split; [reflexivity|].
  apply (repacker_keeps_table_shape "dist/app" {["foo" := "foo.py"]} Demo.fs
           Demo.exe 4 Demo.toc r).
  - reflexivity.
  - vm_compute. reflexivity.
  - exact Hrun.
Defined.

Lemma print_archive_items_without_pyz_witness :
  print_archive_items "dist/plain" Demo.plain_fs
  = Ok (Demo.plain_fs, map (fun t => ItemLine (nm t) (ulen t)) Demo.plain_toc).
Proof.
  apply (print_archive_items_without_pyz "dist/plain" Demo.plain_fs Demo.plain_exe
           4 Demo.plain_toc).
  - reflexivity.
  - vm_compute. reflexivity.
  - repeat constructor.
Defined.

Lemma print_archive_items_lines_witness :
  exists fs' out,
    print_archive_items "dist/app" Demo.fs = Ok (fs', out)
    /\ (exists sections,
          out = map (fun t => ItemLine (nm t) (ulen t))
                  (List.filter (fun t => negb (is_pyz (nm t) (typcd t))) Demo.toc)
                ++ sections
          /\ Forall (fun l => match l with ItemLine _ _ => False | _ => True end)
               sections)
    /\ forall q,
         q ∉ map (fun t => Path.join (Path.basename "dist/app" +:+ "_extracted") (nm t))
               (List.filter (fun t => is_pyz (nm t) (typcd t)) Demo.toc) ->
         fs' !! q = Demo.fs !! q.
Proof.
  destruct (print_archive_items "dist/app" Demo.fs) as [[fs' out]|e] eqn:Hrun;
    [|vm_compute in Hrun; discriminate Hrun].
  exists fs', out. split; [reflexivity|].
  apply (print_archive_items_lines "dist/app" Demo.fs fs' Demo.exe 4 Demo.toc out).
  - reflexivity.
  - vm_compute. reflexivity.
  - exact Hrun.
Defined.

Lemma updated_item_explicit_name_witness :
  updated_item (Some 0) ("pkg.mod" +:+ ":" +:+ "src/mod.py")
  = Ok ("pkg.mod", Path.normpath ("pkg.mod" +:+ ":" +:+ "src/mod.py")).
Proof.
  apply (updated_item_explicit_name (Some 0) "pkg.mod" "src/mod.py").
  - intros H. discriminate H.
  - reflexivity.
Defined.


Lemma patched_entry_is_rebuilt_witness :
  exists r,
    repacker "dist/app" {["foo" := "foo.py"]} Demo.fs = Ok r
    /\ ({["foo" := "foo.py"]} : gmap string string) !! nm Demo.script_entry
       = Some (pathnm Demo.patched_script)
    /\ exists t' filedata,
         wtoc (end_pkg r) !! 0%nat = Some t'
         /\ nm t' = Path.normpath (nm Demo.script_entry)
         /\ (if String.eqb (typcd Demo.script_entry) "s"
                || String.eqb (typcd Demo.script_entry) "M"
             then exists code,
                    py_compile [x62] ("<" +:+ nm Demo.script_entry +:+ ">") = Ok code
                    /\ filedata = marshal_dumps code
             else filedata = [x62])
         /\ ulen t' = blen filedata
         /\ stored (lib (end_pkg r)) 0 t'
            = Ok (if flag Demo.script_entry =? 1
                  then zlib_compress LEVEL filedata else filedata).
Proof.
  destruct (repacker "dist/app" {["foo" := "foo.py"]} Demo.fs) as [r|e] eqn:Hrun;
    [|vm_compute in Hrun; discriminate Hrun].
  exists r. split; [reflexivity|].
  apply (patched_entry_is_rebuilt "dist/app" {["foo" := "foo.py"]} Demo.fs
           Demo.exe 4 Demo.toc r 0%nat Demo.script_entry Demo.patched_script [x62]).
  - reflexivity.
  - reflexivity.
  - vm_compute. reflexivity.
  - exact Hrun.
  - reflexivity.
  - vm_compute in Hrun. injection Hrun as <-. reflexivity.
  - reflexivity.
  - reflexivity.
  - reflexivity.
  - apply (bool_decide_unpack _). vm_compute. exact I.
  - vm_compute. intros H. discriminate H.
  - vm_compute. intros H. discriminate H.
Defined.

Lemma repacker_writes_only_its_files_witness :
  exists r,
    repacker "dist/app" {["foo" := "foo.py"]} Demo.fs = Ok r
    /\ end_fs r !! "foo.py" = Demo.fs !! "foo.py".
Proof.
  destruct (repacker "dist/app" {["foo" := "foo.py"]} Demo.fs) as [r|e] eqn:Hrun;
    [|vm_compute in Hrun; discriminate Hrun].
  exists r. split; [reflexivity|].
  apply (repacker_writes_only_its_files "dist/app" {["foo" := "foo.py"]} Demo.fs
           Demo.exe 4 Demo.toc r "foo.py").
  - reflexivity.
  - reflexivity.
  - vm_compute. reflexivity.
  - exact Hrun.
  - apply (bool_decide_unpack _). vm_compute. exact I.
  - vm_compute. intros H. discriminate H.
  - vm_compute. intros H. discriminate H.
Defined.

Lemma repacker_output_witness :
  exists r,
    repacker "dist/app" {["foo" := "foo.py"]} Demo.fs = Ok r
    /\ exists offset name,
         get_carchive_info "dist/app" Demo.fs = Ok (offset, name)
         /\ 0 <= offset
         /\ end_spawned r = []
         /\ end_fs r !! Path.join
                          (fst (Path.splitext (Path.basename "dist/app"))
                           +:+ "_extracted") "PKG-patched"
            = Some (package (end_pkg r) name)
         /\ end_fs r !! (fst (Path.splitext (Path.basename "dist/app"))
                         +:+ "-patched"
                         +:+ snd (Path.splitext (Path.basename "dist/app")))
            = Some (take (Z.to_nat offset) Demo.exe
                      ++ List.repeat x00 (Z.to_nat offset - length Demo.exe)
                      ++ package (end_pkg r) name).
Proof.
  destruct (repacker "dist/app" {["foo" := "foo.py"]} Demo.fs) as [r|e] eqn:Hrun;
    [|vm_compute in Hrun; discriminate Hrun].
  exists r. split; [reflexivity|].
  apply (repacker_output "dist/app" {["foo" := "foo.py"]} Demo.fs Demo.exe 4
           Demo.toc r).
  - reflexivity.
  - reflexivity.
  - reflexivity.
  - vm_compute. reflexivity.
  - exact Hrun.
  - apply (bool_decide_unpack _). vm_compute. exact I.
  - vm_compute. intros H. discriminate H.
Defined.

Lemma last_file_wins_witness :
  exists d,
    updated_items_loop (Some 1) (["a/foo.py"] ++ "b/foo.py" :: ["c/bar.py"]) ∅ = Ok d
    /\ d !! "foo" = Some "b/foo.py".
Proof.
  destruct (updated_items_loop (Some 1) (["a/foo.py"] ++ "b/foo.py" :: ["c/bar.py"]) ∅)
    as [d|e] eqn:Hrun; [|vm_compute in Hrun; discriminate Hrun].
  exists d. split; [reflexivity|].
  apply (last_file_wins (Some 1) ["a/foo.py"] ["c/bar.py"] "b/foo.py" "foo"
           "b/foo.py" ∅ d).
  - exact Hrun.
  - vm_compute. reflexivity.
  - constructor; [|constructor]. vm_compute. intros H. discriminate H.
Defined.

Lemma bare_init_raises_index_error_witness :
  updated_item None "__init__.py" = Raise IndexError
  /\ build_updated_items ["__init__.py"] None = Raise IndexError.
Proof.
  apply (bare_init_raises_index_error "__init__.py").
  - vm_compute. intros H. discriminate H.
  - vm_compute. reflexivity.
  - vm_compute. reflexivity.
Defined.

